(** * Inventory service (server.js): shallow embedding and verified properties

    The service is a single Express route table over two alternative
    stores: process-local arrays ([useInMemory = true]) and a MongoDB
    database reached through Mongoose models.  Every route handler is
    embedded as a function from the process state (and the request) to a
    response and a new process state.

    Conventions of the embedding.
    - A JavaScript Number is an IEEE-754 double: a [spec_float] of the
      Standard Library at 53 bits of precision, with its rounding
      arithmetic, its infinities, its two zeros and [NaN].  A numeric
      field that is absent ([undefined]) is [None].
    - A Date is its epoch time in milliseconds, a [Z].
    - A request body carries the schema's fields, each one either absent
      or holding a value of the schema's type (a Number is never a
      numeric string).
    - An ObjectId is the string of its 24 hexadecimal digits in lower
      case, as it prints.
    - [new Date()] reads the clock of the environment; each reading may
      differ from the previous one.
    - Each call that reaches MongoDB may be rejected by the backend; the
      environment decides which calls are. *)

From Stdlib Require Import ZArith Lia Ascii String SpecFloat.
From stdpp Require Import base decidable option list list_numbers sorting strings pretty gmap.

Local Open Scope string_scope.
Local Open Scope list_scope.
Local Open Scope Z_scope.

(** ** JavaScript numbers

    A Number is a binary64 value under the operations of the Standard
    Library's specification of floating-point arithmetic (round to
    nearest, ties to even): 53 bits of precision, exponents up to 1024. *)

Definition float := spec_float.

#[global] Instance float_eq_dec : EqDecision float.
Proof. solve_decision. Defined.

Definition fadd : float -> float -> float := SFadd 53 1024.
Definition fsub : float -> float -> float := SFsub 53 1024.
Definition fmul : float -> float -> float := SFmul 53 1024.

Definition zero : float := S754_zero false.

(** A whole number as a Number, as the source writes [0] or [150]: the
    double nearest to it. *)
Definition ofZ (z : Z) : float := binary_normalize 53 1024 z 0 false.

Definition isNaN (x : float) : bool :=
  match x with
  | S754_nan => true
  | _ => false
  end.

(** A numeric field of an object: absent ([undefined]) or a Number. *)
Definition jsnum := option float.

(** The operators convert their operands to Numbers: [undefined]
    becomes [NaN]. *)
Definition toNumber (a : jsnum) : float :=
  match a with
  | Some x => x
  | None => S754_nan
  end.

(** [a + b] on numbers. *)
Definition jsAdd (a b : jsnum) : jsnum := Some (fadd (toNumber a) (toNumber b)).

(** [a - b]. *)
Definition jsSub (a b : jsnum) : jsnum := Some (fsub (toNumber a) (toNumber b)).

(** [a * b]. *)
Definition jsMul (a b : jsnum) : jsnum := Some (fmul (toNumber a) (toNumber b)).

(** [a === 0]: true of both zeros, false of [undefined] and [NaN]. *)
Definition jsIsZero (a : jsnum) : bool :=
  match a with
  | Some x => SFeqb x zero
  | None => false
  end.

(** [a <= b]: false as soon as one side is not a number. *)
Definition jsLe (a b : jsnum) : bool := SFleb (toNumber a) (toNumber b).

(** [a > 0]: false of [NaN]. *)
Definition jsPositive (a : jsnum) : bool := SFltb zero (toNumber a).

(** A field that holds a Number other than [NaN]. *)
Definition isNumber (a : jsnum) : bool :=
  match a with
  | Some x => negb (isNaN x)
  | None => false
  end.

(** [s || d] on an optional string: the empty string is falsy. *)
Definition orDefault (s : option string) (d : string) : string :=
  match s with
  | Some v => if String.eqb v "" then d else v
  | None => d
  end.

(** ** Data model *)

(** A product, as an object of [inMemoryProducts] or a document of the
    [Product] model.  Fields that a request may leave out are optional;
    the timestamps of a document are unset until it is saved. *)
Module Product.
Record t := mk {
  _id : string;
  name : option string;
  sku : option string;
  category : option string;
  quantity : jsnum;
  reorderPoint : jsnum;
  unitPrice : jsnum;
  location : option string;
  supplier : option string;
  lastRestocked : option Z;
  status : option string;
  createdAt : option Z;
  updatedAt : option Z
}.

Definition set_quantity (v : jsnum) (p : t) : t :=
  mk (_id p) (name p) (sku p) (category p) v (reorderPoint p) (unitPrice p)
     (location p) (supplier p) (lastRestocked p) (status p) (createdAt p) (updatedAt p).

Definition set_lastRestocked (v : option Z) (p : t) : t :=
  mk (_id p) (name p) (sku p) (category p) (quantity p) (reorderPoint p) (unitPrice p)
     (location p) (supplier p) v (status p) (createdAt p) (updatedAt p).

Definition set_status (v : option string) (p : t) : t :=
  mk (_id p) (name p) (sku p) (category p) (quantity p) (reorderPoint p) (unitPrice p)
     (location p) (supplier p) (lastRestocked p) v (createdAt p) (updatedAt p).

Definition set_createdAt (v : option Z) (p : t) : t :=
  mk (_id p) (name p) (sku p) (category p) (quantity p) (reorderPoint p) (unitPrice p)
     (location p) (supplier p) (lastRestocked p) (status p) v (updatedAt p).

Definition set_updatedAt (v : option Z) (p : t) : t :=
  mk (_id p) (name p) (sku p) (category p) (quantity p) (reorderPoint p) (unitPrice p)
     (location p) (supplier p) (lastRestocked p) (status p) (createdAt p) v.

#[global] Instance eq_dec : EqDecision t.
Proof. solve_decision. Defined.
End Product.

(** A stock movement.  [updatedAt] exists on documents only (the
    schema's [timestamps] option); in-memory records do not have it. *)
Module Transaction.
Record t := mk {
  _id : string;
  productId : option string;
  type : option string;
  quantity : jsnum;
  notes : string;
  performedBy : string;
  createdAt : option Z;
  updatedAt : option Z
}.

#[global] Instance eq_dec : EqDecision t.
Proof. solve_decision. Defined.
End Transaction.

(** The body of a product request, and an entry of [sampleProducts]. *)
Module ProductBody.
Record t := mk {
  name : option string;
  sku : option string;
  category : option string;
  quantity : jsnum;
  reorderPoint : jsnum;
  unitPrice : jsnum;
  location : option string;
  supplier : option string;
  lastRestocked : option Z;
  status : option string
}.

Definition empty : t := mk None None None None None None None None None None.
End ProductBody.

(** The body of [POST /api/transactions]. *)
Module TransactionBody.
Record t := mk {
  productId : option string;
  type : option string;
  quantity : jsnum;
  notes : option string;
  performedBy : option string
}.
End TransactionBody.

(** The status strings of the schema's enum. *)
Definition InStock : string := "In Stock".
Definition LowStock : string := "Low Stock".
Definition OutOfStock : string := "Out of Stock".
Definition Damaged : string := "Damaged".

(** ** Status derivation (server.js, [updateProductStatus]) *)

Definition updateProductStatus (product : Product.t) : Product.t :=
  if jsIsZero (Product.quantity product) then
    Product.set_status (Some OutOfStock) product
  else if jsLe (Product.quantity product) (Product.reorderPoint product) then
    Product.set_status (Some LowStock) product
  else
    Product.set_status (Some InStock) product.

(** ** Responses and errors *)

(** The errors a Mongoose call can reject with. *)
Inductive ErrorName :=
| ValidationError
| CastError
| MongoServerError
| MongoNetworkError.

#[global] Instance ErrorName_eq_dec : EqDecision ErrorName.
Proof. solve_decision. Defined.

Record Error := mkError {
  errorName : ErrorName;
  message : string
}.

(** The part of [GET /api/analytics] that is built per low-stock item. *)
Record Alert := mkAlert {
  alertProductId : string;
  productName : option string;
  currentStock : jsnum;
  alertReorderPoint : jsnum;
  severity : string
}.

Record Analytics := mkAnalytics {
  totalProducts : nat;
  totalValue : jsnum;
  lowStockCount : nat;
  damagedCount : nat;
  categoryBreakdown : gmap string Z;
  topProducts : list Product.t;
  lowStockItems : list Product.t;
  alerts : list Alert
}.

(** The JSON documents the handlers send. *)
Inductive Json :=
| JProducts (products : list Product.t)
| JProduct (product : Product.t)
| JMessage (msg : string)
| JError (msg : string) (error : string)
| JMovement (transaction : Transaction.t) (product : Product.t)
| JTransactions (transactions : list Transaction.t)
| JPopulated (transactions : list (Transaction.t * option Product.t))
| JAnalytics (analytics : Analytics)
| JSeeded (msg : string) (count : nat)
| JHealth (status : string) (msg : string) (storageMode : string).

Record Response := mkResponse {
  statusCode : Z;
  json : Json
}.

(** [res.json(x)] and [res.status(c).json(x)]. *)
Definition res_json (x : Json) : Response := mkResponse 200 x.
Definition res_status_json (c : Z) (x : Json) : Response := mkResponse c x.

(** ** Process state *)

(** The two collections of the database, and how many ObjectIds the
    process has generated. *)
Record Mongo := mkMongo {
  productDocs : list Product.t;
  transactionDocs : list Transaction.t;
  objectIds : nat
}.

(** The environment: the successive readings of the clock, and for each
    awaited Mongoose call whether the backend rejects it (with which
    message). *)
Record Env := mkEnv {
  clock : nat -> Z;
  clockReads : nat;
  rejects : nat -> option string;
  awaited : nat
}.

(** The module-level variables of server.js, the database and the
    environment.  [useInMemory] is set when the connection attempt at
    start-up fails; the handlers only read it. *)
Record World := mkWorld {
  useInMemory : bool;
  inMemoryProducts : list Product.t;
  inMemoryTransactions : list Transaction.t;
  productIdCounter : nat;
  transactionIdCounter : nat;
  db : Mongo;
  env : Env
}.

Definition set_inMemoryProducts (v : list Product.t) (w : World) : World :=
  mkWorld (useInMemory w) v (inMemoryTransactions w) (productIdCounter w)
          (transactionIdCounter w) (db w) (env w).

Definition set_inMemoryTransactions (v : list Transaction.t) (w : World) : World :=
  mkWorld (useInMemory w) (inMemoryProducts w) v (productIdCounter w)
          (transactionIdCounter w) (db w) (env w).

Definition set_productIdCounter (v : nat) (w : World) : World :=
  mkWorld (useInMemory w) (inMemoryProducts w) (inMemoryTransactions w) v
          (transactionIdCounter w) (db w) (env w).

Definition set_transactionIdCounter (v : nat) (w : World) : World :=
  mkWorld (useInMemory w) (inMemoryProducts w) (inMemoryTransactions w)
          (productIdCounter w) v (db w) (env w).

Definition set_db (v : Mongo) (w : World) : World :=
  mkWorld (useInMemory w) (inMemoryProducts w) (inMemoryTransactions w)
          (productIdCounter w) (transactionIdCounter w) v (env w).

Definition set_env (v : Env) (w : World) : World :=
  mkWorld (useInMemory w) (inMemoryProducts w) (inMemoryTransactions w)
          (productIdCounter w) (transactionIdCounter w) (db w) v.

Definition set_productDocs (v : list Product.t) (w : World) : World :=
  set_db (mkMongo v (transactionDocs (db w)) (objectIds (db w))) w.

Definition set_transactionDocs (v : list Transaction.t) (w : World) : World :=
  set_db (mkMongo (productDocs (db w)) v (objectIds (db w))) w.

(** ** Handlers as computations: state and exceptions *)

Inductive Outcome (A : Type) :=
| Value (a : A)
| Thrown (e : Error).
Arguments Value {A} a.
Arguments Thrown {A} e.

Definition M (A : Type) : Type := World -> Outcome A * World.

Definition ret {A} (a : A) : M A := fun w => (Value a, w).

Definition bind {A B} (m : M A) (k : A -> M B) : M B :=
  fun w =>
    match m w with
    | (Value a, w') => k a w'
    | (Thrown e, w') => (Thrown e, w')
    end.

Definition throw {A} (e : Error) : M A := fun w => (Thrown e, w).

Definition gets {A} (f : World -> A) : M A := fun w => (Value (f w), w).

Definition modify (f : World -> World) : M unit := fun w => (Value tt, f w).

Declare Scope handler_scope.
Delimit Scope handler_scope with handler.
Notation "x <- c1 ;; c2" := (bind c1 (fun x => c2))
  (at level 100, c1 at next level, right associativity) : handler_scope.
Notation "c1 ;;; c2" := (bind c1 (fun _ => c2))
  (at level 100, right associativity) : handler_scope.
Local Open Scope handler_scope.

(** [try { body } catch (error) { handler }]: the state changes made
    before the exception stay. *)
Definition tryCatch (body : M Response) (handler : Error -> Response)
  : World -> Response * World :=
  fun w =>
    match body w with
    | (Value r, w') => (r, w')
    | (Thrown e, w') => (handler e, w')
    end.

(** [new Date()]. *)
Definition newDate : M Z :=
  fun w =>
    let e := env w in
    (Value (clock e (clockReads e)),
     set_env (mkEnv (clock e) (S (clockReads e)) (rejects e) (awaited e)) w).

(** One awaited call to the backend: it goes through or is rejected. *)
Definition backendCall : M unit :=
  fun w =>
    let e := env w in
    let w' := set_env (mkEnv (clock e) (clockReads e) (rejects e) (S (awaited e))) w in
    match rejects e (awaited e) with
    | Some msg => (Thrown (mkError MongoNetworkError msg), w')
    | None => (Value tt, w')
    end.

(** ObjectIds print as 24 hexadecimal digits. *)
Definition hexDigit (n : nat) : ascii :=
  match n with
  | 0 => "0" | 1 => "1" | 2 => "2" | 3 => "3" | 4 => "4" | 5 => "5"
  | 6 => "6" | 7 => "7" | 8 => "8" | 9 => "9" | 10 => "a" | 11 => "b"
  | 12 => "c" | 13 => "d" | 14 => "e" | _ => "f"
  end%nat%char.

Fixpoint hexOfWidth (width n : nat) : string :=
  match width with
  | O => EmptyString
  | S k => hexOfWidth k (n / 16)%nat +:+ String (hexDigit (n mod 16)%nat) EmptyString
  end.

Definition isHexDigit (c : ascii) : bool :=
  let n := nat_of_ascii c in
  ((48 <=? n) && (n <=? 57) || (97 <=? n) && (n <=? 102) || (65 <=? n) && (n <=? 70))%nat.

Definition isObjectId (s : string) : bool :=
  (String.length s =? 24)%nat && forallb isHexDigit (list_ascii_of_string s).

(** An ObjectId prints in lower case whatever the case of the string it
    was cast from: [String(new ObjectId(s))]. *)
Definition lowerHexDigit (c : ascii) : ascii :=
  let n := nat_of_ascii c in
  if ((65 <=? n) && (n <=? 70))%nat then ascii_of_nat (n + 32) else c.

Fixpoint lowerHex (s : string) : string :=
  match s with
  | EmptyString => EmptyString
  | String c rest => String (lowerHexDigit c) (lowerHex rest)
  end.

(** A fresh ObjectId, as [new Product(...)] and [new Transaction(...)]
    generate one. *)
Definition newObjectId : M string :=
  fun w =>
    let d := db w in
    (Value (hexOfWidth 24 (objectIds d)),
     set_db (mkMongo (productDocs d) (transactionDocs d) (S (objectIds d))) w).

(** [String(n)] for a counter. *)
Definition String_ (n : nat) : string := pretty n.

(** ** The Mongoose models

    The schemas of server.js with the behaviour of the Mongoose calls
    the handlers make: defaults at construction, validation before a
    write, the unique index on [sku], ObjectId casting of ids, and the
    [timestamps] option. *)

(** Dates in sort keys: a missing date sorts below every date. *)
Definition dateLe (a b : option Z) : Prop :=
  match a, b with
  | None, _ => True
  | Some _, None => False
  | Some x, Some y => x <= y
  end.

#[global] Instance dateLe_dec a b : Decision (dateLe a b).
Proof. destruct a, b; simpl; apply _. Defined.

(** The order of [sort({ createdAt: -1 })]: [a] may stand before [b]
    when [a] was not created before [b].  Documents with equal dates
    come out in the order the sort leaves them in. *)
Definition newestFirst {A} (createdAt : A -> option Z) : relation A :=
  fun a b => dateLe (createdAt b) (createdAt a).

#[global] Instance newestFirst_dec {A} (createdAt : A -> option Z) a b :
  Decision (newestFirst createdAt a b).
Proof. unfold newestFirst. apply _. Defined.

(** A string between double quotes. *)
Definition quoted (s : string) : string :=
  String (ascii_of_nat 34) (s +:+ String (ascii_of_nat 34) EmptyString).

Definition requiredMessage (path : string) : string :=
  path +:+ ": Path `" +:+ path +:+ "` is required.".

Definition castNumberMessage (path : string) : string :=
  path +:+ ": Cast to Number failed for value " +:+ quoted "NaN"
    +:+ " (type number) at path " +:+ quoted path.

Definition enumMessage (path value : string) : string :=
  path +:+ ": `" +:+ value +:+ "` is not a valid enum value for path `" +:+ path +:+ "`.".

(** [required: true] on a String path: absent and empty both fail. *)
Definition requiredString (path : string) (v : option string) : list string :=
  match v with
  | Some s => if String.eqb s EmptyString then [requiredMessage path] else []
  | None => [requiredMessage path]
  end.

(** [required: true] on a path that is absent. *)
Definition missing {A} (path : string) (v : option A) : list string :=
  match v with
  | Some _ => []
  | None => [requiredMessage path]
  end.

(** [required: true] on a String path that is set: the empty string
    fails. *)
Definition emptyString (path : string) (v : option string) : list string :=
  match v with
  | Some s => if String.eqb s EmptyString then [requiredMessage path] else []
  | None => []
  end.

(** A Number path that is set: [NaN] does not cast to a Number. *)
Definition castNumber (path : string) (v : jsnum) : list string :=
  match v with
  | Some x => if isNaN x then [castNumberMessage path] else []
  | None => []
  end.

Definition enumString (path : string) (allowed : list string) (v : option string)
  : list string :=
  match v with
  | Some s => if bool_decide (s ∈ allowed) then [] else [enumMessage path s]
  | None => []
  end.

Definition statusEnum : list string := [InStock; LowStock; OutOfStock; Damaged].
Definition typeEnum : list string := ["IN"; "OUT"; "DAMAGE"; "RETURN"].

Definition validationError (prefix : string) (msgs : list string) : Error :=
  mkError ValidationError (prefix +:+ String.concat ", " msgs).

Definition throwIfInvalid (prefix : string) (msgs : list string) : M unit :=
  match msgs with
  | [] => ret tt
  | _ => throw (validationError prefix msgs)
  end.

(** Casting a request's id to an ObjectId: the result is the ObjectId,
    which no longer tells upper-case digits from lower-case ones. *)
Definition castObjectId (model id : string) : M string :=
  if isObjectId id then ret (lowerHex id)
  else throw (mkError CastError
         ("Cast to ObjectId failed for value " +:+ quoted id +:+ " (type string) at path "
          +:+ quoted "_id" +:+ " for model " +:+ quoted model)).

Definition duplicateKey (v : option string) : Error :=
  mkError MongoServerError
    ("E11000 duplicate key error collection: inventory_db.products index: sku_1 dup key: { sku: "
     +:+ quoted (default EmptyString v) +:+ " }").

(** The messages of [validate()] on a product document.  The required
    paths that are absent are reported first, from the last path of the
    schema to the first; the paths that are set follow. *)
Definition productPaths (p : Product.t) : list string :=
  missing "unitPrice" (Product.unitPrice p) ++
  missing "reorderPoint" (Product.reorderPoint p) ++
  missing "quantity" (Product.quantity p) ++
  missing "category" (Product.category p) ++
  missing "sku" (Product.sku p) ++
  missing "name" (Product.name p) ++
  emptyString "name" (Product.name p) ++
  emptyString "sku" (Product.sku p) ++
  emptyString "category" (Product.category p) ++
  castNumber "quantity" (Product.quantity p) ++
  castNumber "reorderPoint" (Product.reorderPoint p) ++
  castNumber "unitPrice" (Product.unitPrice p) ++
  enumString "status" statusEnum (Product.status p).

(** [new Product(body)]: a fresh id and the schema's defaults;
    [lastRestocked] defaults to [Date.now]. *)
Definition newProduct (body : ProductBody.t) : M Product.t :=
  id <- newObjectId ;;
  restocked <- match ProductBody.lastRestocked body with
               | Some d => ret d
               | None => newDate
               end ;;
  ret (Product.mk id
         (ProductBody.name body) (ProductBody.sku body) (ProductBody.category body)
         (Some (default zero (ProductBody.quantity body)))
         (Some (default (ofZ 10) (ProductBody.reorderPoint body)))
         (ProductBody.unitPrice body)
         (Some (default "Main Warehouse" (ProductBody.location body)))
         (Some (default EmptyString (ProductBody.supplier body)))
         (Some restocked)
         (Some (default InStock (ProductBody.status body)))
         None None).

Definition skuTaken (sku : option string) (docs : list Product.t) : bool :=
  bool_decide (Exists (fun d => Product.sku d = sku) docs).

(** [product.save()] on a document that is not stored yet. *)
Definition saveNewProduct (product : Product.t) : M Product.t :=
  throwIfInvalid "Product validation failed: " (productPaths product) ;;;
  now <- newDate ;;
  backendCall ;;;
  docs <- gets (fun w => productDocs (db w)) ;;
  if skuTaken (Product.sku product) docs then throw (duplicateKey (Product.sku product))
  else
    let stored := Product.set_updatedAt (Some now) (Product.set_createdAt (Some now) product) in
    modify (set_productDocs (docs ++ [stored])) ;;;
    ret stored.

(** [product.save()] on a document [loaded] from the collection and
    changed into [product]: nothing is written when nothing changed. *)
Definition saveProduct (loaded product : Product.t) : M Product.t :=
  throwIfInvalid "Product validation failed: " (productPaths product) ;;;
  if bool_decide (product = loaded) then
    backendCall ;;; ret product
  else
    now <- newDate ;;
    backendCall ;;;
    docs <- gets (fun w => productDocs (db w)) ;;
    let stored := Product.set_updatedAt (Some now) product in
    match list_find (fun d => Product._id d = Product._id product) docs with
    | Some (i, _) => modify (set_productDocs (<[i := stored]> docs)) ;;; ret stored
    | None => ret stored
    end.

(** [Product.find().sort({ createdAt: -1 })]. *)
Definition Product_find_sorted : M (list Product.t) :=
  backendCall ;;;
  docs <- gets (fun w => productDocs (db w)) ;;
  ret (merge_sort (newestFirst Product.createdAt) docs).

(** [Product.find()]. *)
Definition Product_find : M (list Product.t) :=
  backendCall ;;;
  gets (fun w => productDocs (db w)).

(** [Product.findById(id)]; an undefined id finds nothing. *)
Definition Product_findById (id : option string) : M (option Product.t) :=
  match id with
  | None => backendCall ;;; ret None
  | Some id =>
      oid <- castObjectId "Product" id ;;
      backendCall ;;;
      docs <- gets (fun w => productDocs (db w)) ;;
      ret (snd <$> list_find (fun d => Product._id d = oid) docs)
  end.

(** The fields of an update that are present replace the stored ones. *)
Definition overlay {A} (new old : option A) : option A :=
  match new with
  | Some v => Some v
  | None => old
  end.

Definition applyBody (body : ProductBody.t) (p : Product.t) : Product.t :=
  Product.mk (Product._id p)
    (overlay (ProductBody.name body) (Product.name p))
    (overlay (ProductBody.sku body) (Product.sku p))
    (overlay (ProductBody.category body) (Product.category p))
    (overlay (ProductBody.quantity body) (Product.quantity p))
    (overlay (ProductBody.reorderPoint body) (Product.reorderPoint p))
    (overlay (ProductBody.unitPrice body) (Product.unitPrice p))
    (overlay (ProductBody.location body) (Product.location p))
    (overlay (ProductBody.supplier body) (Product.supplier p))
    (overlay (ProductBody.lastRestocked body) (Product.lastRestocked p))
    (overlay (ProductBody.status body) (Product.status p))
    (Product.createdAt p) (Product.updatedAt p).

(** The update is cast and its validators ([runValidators: true]) look
    at the paths the update sets. *)
Definition updatePaths (body : ProductBody.t) : list string :=
  emptyString "name" (ProductBody.name body) ++
  emptyString "sku" (ProductBody.sku body) ++
  emptyString "category" (ProductBody.category body) ++
  castNumber "quantity" (ProductBody.quantity body) ++
  castNumber "reorderPoint" (ProductBody.reorderPoint body) ++
  castNumber "unitPrice" (ProductBody.unitPrice body) ++
  enumString "status" statusEnum (ProductBody.status body).

(** [Product.findByIdAndUpdate(id, body, { new: true, runValidators: true })]. *)
Definition Product_findByIdAndUpdate (id : string) (body : ProductBody.t)
  : M (option Product.t) :=
  oid <- castObjectId "Product" id ;;
  throwIfInvalid "Validation failed: " (updatePaths body) ;;;
  now <- newDate ;;
  backendCall ;;;
  docs <- gets (fun w => productDocs (db w)) ;;
  match list_find (fun d => Product._id d = oid) docs with
  | None => ret None
  | Some (i, doc) =>
      let updated := Product.set_updatedAt (Some now) (applyBody body doc) in
      if skuTaken (Product.sku updated) (delete i docs)
      then throw (duplicateKey (Product.sku updated))
      else modify (set_productDocs (<[i := updated]> docs)) ;;; ret (Some updated)
  end.

(** [Product.findByIdAndDelete(id)]. *)
Definition Product_findByIdAndDelete (id : string) : M (option Product.t) :=
  oid <- castObjectId "Product" id ;;
  backendCall ;;;
  docs <- gets (fun w => productDocs (db w)) ;;
  match list_find (fun d => Product._id d = oid) docs with
  | None => ret None
  | Some (i, doc) => modify (set_productDocs (delete i docs)) ;;; ret (Some doc)
  end.

(** [Product.deleteMany({})]. *)
Definition Product_deleteMany : M unit :=
  backendCall ;;;
  modify (set_productDocs []).

(** The documents are written in order; a duplicate key stops the
    write and leaves the earlier documents in the collection. *)
Fixpoint insertInOrder (docs : list Product.t) : M (list Product.t) :=
  match docs with
  | [] => ret []
  | doc :: rest =>
      stored <- gets (fun w => productDocs (db w)) ;;
      if skuTaken (Product.sku doc) stored then throw (duplicateKey (Product.sku doc))
      else
        now <- newDate ;;
        let d := Product.set_updatedAt (Some now) (Product.set_createdAt (Some now) doc) in
        modify (set_productDocs (stored ++ [d])) ;;;
        ds <- insertInOrder rest ;;
        ret (d :: ds)
  end.

(** [Product.insertMany(docs)]: every document is validated first. *)
Definition Product_insertMany (docs : list Product.t) : M (list Product.t) :=
  throwIfInvalid "Product validation failed: " (concat (productPaths <$> docs)) ;;;
  backendCall ;;;
  insertInOrder docs.

(** The messages of [validate()] on a transaction document, in the order
    of [productPaths]. *)
Definition transactionPaths (t : Transaction.t) : list string :=
  missing "quantity" (Transaction.quantity t) ++
  missing "type" (Transaction.type t) ++
  missing "productId" (Transaction.productId t) ++
  enumString "type" typeEnum (Transaction.type t) ++
  castNumber "quantity" (Transaction.quantity t).

(** [new Transaction({ productId, type, quantity, notes, performedBy })]:
    the product id is cast to an ObjectId. *)
Definition newTransaction (body : TransactionBody.t) : M Transaction.t :=
  id <- newObjectId ;;
  ret (Transaction.mk id
         (lowerHex <$> TransactionBody.productId body) (TransactionBody.type body)
         (TransactionBody.quantity body)
         (default EmptyString (TransactionBody.notes body))
         (default "System" (TransactionBody.performedBy body))
         None None).

(** [transaction.save()]. *)
Definition saveNewTransaction (t : Transaction.t) : M Transaction.t :=
  throwIfInvalid "Transaction validation failed: " (transactionPaths t) ;;;
  now <- newDate ;;
  backendCall ;;;
  docs <- gets (fun w => transactionDocs (db w)) ;;
  let stored :=
    Transaction.mk (Transaction._id t) (Transaction.productId t) (Transaction.type t)
      (Transaction.quantity t) (Transaction.notes t) (Transaction.performedBy t)
      (Some now) (Some now) in
  modify (set_transactionDocs (docs ++ [stored])) ;;;
  ret stored.

(** [Transaction.find().populate('productId').sort({ createdAt: -1 }).limit(100)]:
    the stored transactions by descending creation date, the first 100
    of them, each with the product its [productId] refers to. *)
Definition Transaction_find_recent : M (list (Transaction.t * option Product.t)) :=
  backendCall ;;;
  docs <- gets (fun w => transactionDocs (db w)) ;;
  products <- gets (fun w => productDocs (db w)) ;;
  let sorted := merge_sort (newestFirst Transaction.createdAt) docs in
  let populate (t : Transaction.t) :=
    (t, snd <$> list_find (fun d => Some (Product._id d) = Transaction.productId t) products) in
  ret (populate <$> take 100 sorted).

(** ** Route handlers (server.js, [app.get] / [app.post] / [app.put] / [app.delete])

    Each handler is [try { ... } catch (error) { ... }]: the [_try]
    definition is the block under [try], the handler proper wraps it in
    its [catch]. *)

Definition notFound : Response :=
  res_status_json 404 (JMessage "Product not found").

(** [GET /api/health] *)
Definition get_api_health (w : World) : Response * World :=
  (res_json (JHealth "OK" "Server is running"
               (if useInMemory w then "in-memory" else "mongodb")), w).

(** [GET /api/products] *)
Definition get_api_products_try : M Response :=
  inMemory <- gets useInMemory ;;
  if inMemory then
    products <- gets inMemoryProducts ;;
    ret (res_json (JProducts products))
  else
    products <- Product_find_sorted ;;
    ret (res_json (JProducts products)).

Definition get_api_products : World -> Response * World :=
  tryCatch get_api_products_try
    (fun error =>
       res_status_json 500 (JError "Error fetching products" (message error))).

(** [GET /api/products/:id] *)
Definition get_api_products_id_try (id : string) : M Response :=
  inMemory <- gets useInMemory ;;
  if inMemory then
    products <- gets inMemoryProducts ;;
    match list_find (fun p => Product._id p = id) products with
    | None => ret notFound
    | Some (_, product) => ret (res_json (JProduct product))
    end
  else
    found <- Product_findById (Some id) ;;
    match found with
    | None => ret notFound
    | Some product => ret (res_json (JProduct product))
    end.

Definition get_api_products_id (id : string) : World -> Response * World :=
  tryCatch (get_api_products_id_try id)
    (fun error =>
       res_status_json 500 (JError "Error fetching product" (message error))).

(** The object literal [{ _id, ...req.body, createdAt, updatedAt }]. *)
Definition objectOfBody (id : string) (body : ProductBody.t) (created updated : Z)
  : Product.t :=
  Product.mk id
    (ProductBody.name body) (ProductBody.sku body) (ProductBody.category body)
    (ProductBody.quantity body) (ProductBody.reorderPoint body) (ProductBody.unitPrice body)
    (ProductBody.location body) (ProductBody.supplier body)
    (ProductBody.lastRestocked body) (ProductBody.status body)
    (Some created) (Some updated).

(** [POST /api/products] *)
Definition post_api_products_try (body : ProductBody.t) : M Response :=
  inMemory <- gets useInMemory ;;
  if inMemory then
    counter <- gets productIdCounter ;;
    modify (set_productIdCounter (S counter)) ;;;
    created <- newDate ;;
    updated <- newDate ;;
    let newProduct := objectOfBody (String_ counter) body created updated in
    let newProduct := updateProductStatus newProduct in
    products <- gets inMemoryProducts ;;
    modify (set_inMemoryProducts (products ++ [newProduct])) ;;;
    ret (res_status_json 201 (JProduct newProduct))
  else
    product <- newProduct body ;;
    let product := updateProductStatus product in
    product <- saveNewProduct product ;;
    ret (res_status_json 201 (JProduct product)).

Definition post_api_products (body : ProductBody.t) : World -> Response * World :=
  tryCatch (post_api_products_try body)
    (fun error =>
       res_status_json 400 (JError "Error creating product" (message error))).

(** [PUT /api/products/:id] *)
Definition put_api_products_id_try (id : string) (body : ProductBody.t) : M Response :=
  inMemory <- gets useInMemory ;;
  if inMemory then
    products <- gets inMemoryProducts ;;
    match list_find (fun p => Product._id p = id) products with
    | None => ret notFound
    | Some (index, existing) =>
        updated <- newDate ;;
        let updatedProduct :=
          Product.set_updatedAt (Some updated) (applyBody body existing) in
        let updatedProduct := updateProductStatus updatedProduct in
        modify (set_inMemoryProducts (<[index := updatedProduct]> products)) ;;;
        ret (res_json (JProduct updatedProduct))
    end
  else
    found <- Product_findByIdAndUpdate id body ;;
    match found with
    | None => ret notFound
    | Some loaded =>
        let product := updateProductStatus loaded in
        product <- saveProduct loaded product ;;
        ret (res_json (JProduct product))
    end.

Definition put_api_products_id (id : string) (body : ProductBody.t)
  : World -> Response * World :=
  tryCatch (put_api_products_id_try id body)
    (fun error =>
       res_status_json 400 (JError "Error updating product" (message error))).

(** [DELETE /api/products/:id] *)
Definition delete_api_products_id_try (id : string) : M Response :=
  inMemory <- gets useInMemory ;;
  if inMemory then
    products <- gets inMemoryProducts ;;
    match list_find (fun p => Product._id p = id) products with
    | None => ret notFound
    | Some (index, _) =>
        modify (set_inMemoryProducts (delete index products)) ;;;
        ret (res_json (JMessage "Product deleted successfully"))
    end
  else
    found <- Product_findByIdAndDelete id ;;
    match found with
    | None => ret notFound
    | Some _ => ret (res_json (JMessage "Product deleted successfully"))
    end.

Definition delete_api_products_id (id : string) : World -> Response * World :=
  tryCatch (delete_api_products_id_try id)
    (fun error =>
       res_status_json 500 (JError "Error deleting product" (message error))).

(** [type === s] *)
Definition typeIs (type : option string) (s : string) : bool :=
  bool_decide (type = Some s).

(** The quantity update of both branches of [POST /api/transactions]. *)
Definition adjustQuantity (type : option string) (quantity : jsnum) (product : Product.t)
  : Product.t :=
  if typeIs type "IN" || typeIs type "RETURN" then
    Product.set_quantity (jsAdd (Product.quantity product) quantity) product
  else if typeIs type "OUT" || typeIs type "DAMAGE" then
    Product.set_quantity (jsSub (Product.quantity product) quantity) product
  else product.

(** [if (type === 'IN') { product.lastRestocked = new Date(); }] *)
Definition restock (type : option string) (product : Product.t) : M Product.t :=
  if typeIs type "IN" then
    now <- newDate ;;
    ret (Product.set_lastRestocked (Some now) product)
  else ret product.

(** [POST /api/transactions]: in the in-memory branch [product] is the
    object of the array itself, so the assignments change the stored
    product in place. *)
Definition post_api_transactions_try (body : TransactionBody.t) : M Response :=
  let productId := TransactionBody.productId body in
  let type := TransactionBody.type body in
  let quantity := TransactionBody.quantity body in
  let notes := TransactionBody.notes body in
  let performedBy := TransactionBody.performedBy body in
  inMemory <- gets useInMemory ;;
  if inMemory then
    products <- gets inMemoryProducts ;;
    match list_find (fun p => Some (Product._id p) = productId) products with
    | None => ret notFound
    | Some (index, product) =>
        let product := adjustQuantity type quantity product in
        product <- restock type product ;;
        let product := updateProductStatus product in
        updated <- newDate ;;
        let product := Product.set_updatedAt (Some updated) product in
        modify (set_inMemoryProducts (<[index := product]> products)) ;;;
        counter <- gets transactionIdCounter ;;
        modify (set_transactionIdCounter (S counter)) ;;;
        created <- newDate ;;
        let transaction :=
          Transaction.mk (String_ counter) productId type quantity
            (orDefault notes EmptyString) (orDefault performedBy "System")
            (Some created) None in
        transactions <- gets inMemoryTransactions ;;
        modify (set_inMemoryTransactions (transactions ++ [transaction])) ;;;
        ret (res_status_json 201 (JMovement transaction product))
    end
  else
    found <- Product_findById productId ;;
    match found with
    | None => ret notFound
    | Some loaded =>
        let product := adjustQuantity type quantity loaded in
        product <- restock type product ;;
        let product := updateProductStatus product in
        product <- saveProduct loaded product ;;
        transaction <- newTransaction body ;;
        transaction <- saveNewTransaction transaction ;;
        ret (res_status_json 201 (JMovement transaction product))
    end.

Definition post_api_transactions (body : TransactionBody.t) : World -> Response * World :=
  tryCatch (post_api_transactions_try body)
    (fun error =>
       res_status_json 400 (JError "Error creating transaction" (message error))).

(** [GET /api/transactions] *)
Definition get_api_transactions_try : M Response :=
  inMemory <- gets useInMemory ;;
  if inMemory then
    transactions <- gets inMemoryTransactions ;;
    ret (res_json (JTransactions transactions))
  else
    transactions <- Transaction_find_recent ;;
    ret (res_json (JPopulated transactions)).

Definition get_api_transactions : World -> Response * World :=
  tryCatch get_api_transactions_try
    (fun error =>
       res_status_json 500 (JError "Error fetching transactions" (message error))).

(** [p.quantity * p.unitPrice] *)
Definition stockValue (p : Product.t) : jsnum :=
  jsMul (Product.quantity p) (Product.unitPrice p).

(** [p.status === 'Low Stock' || p.status === 'Out of Stock'] *)
Definition isLowStock (p : Product.t) : bool :=
  bool_decide (Product.status p = Some LowStock)
  || bool_decide (Product.status p = Some OutOfStock).

(** [array.sort(compareFn)].  The sort is stable, and it places [a]
    behind [b] when [compareFn(a, b)] is positive (a comparator that
    returns [NaN] has returned [0]).  With a consistent comparator, the
    only case in which the language fixes the outcome, this is what
    inserting the elements one by one gives: each element goes behind
    the elements it must follow and before all the others. *)
Fixpoint insertSorted {A} (compareFn : A -> A -> jsnum) (x : A) (l : list A) : list A :=
  match l with
  | [] => [x]
  | y :: rest =>
      if jsPositive (compareFn x y) then y :: insertSorted compareFn x rest
      else x :: y :: rest
  end.

Definition Array_sort {A} (compareFn : A -> A -> jsnum) (l : list A) : list A :=
  foldr (insertSorted compareFn) [] l.

(** The comparator [(a, b) => value(b) - value(a)]. *)
Definition byValueDescending (a b : Product.t) : jsnum :=
  jsSub (stockValue b) (stockValue a).

(** [acc[p.category] = (acc[p.category] || 0) + 1]; an undefined
    category is the property named undefined. *)
Definition countCategory (acc : gmap string Z) (p : Product.t) : gmap string Z :=
  let key := default "undefined" (Product.category p) in
  <[key := default 0 (acc !! key) + 1]> acc.

Definition alertOf (p : Product.t) : Alert :=
  mkAlert (Product._id p) (Product.name p) (Product.quantity p) (Product.reorderPoint p)
    (if bool_decide (Product.status p = Some OutOfStock) then "critical" else "warning").

(** The dashboard figures computed from the product list. *)
Definition analyticsOf (products : list Product.t) : Analytics :=
  let totalProducts := length products in
  let totalValue := fold_left (fun sum p => jsAdd sum (stockValue p)) products (Some zero) in
  let lowStockItems := List.filter isLowStock products in
  let damagedItems :=
    List.filter (fun p => bool_decide (Product.status p = Some Damaged)) products in
  let categoryBreakdown := fold_left countCategory products ∅ in
  let topProducts := take 5 (Array_sort byValueDescending products) in
  mkAnalytics totalProducts totalValue (length lowStockItems) (length damagedItems)
    categoryBreakdown topProducts (take 10 lowStockItems) (alertOf <$> lowStockItems).

(** [GET /api/analytics] *)
Definition get_api_analytics_try : M Response :=
  inMemory <- gets useInMemory ;;
  products <- (if inMemory then gets inMemoryProducts else Product_find) ;;
  ret (res_json (JAnalytics (analyticsOf products))).

Definition get_api_analytics : World -> Response * World :=
  tryCatch get_api_analytics_try
    (fun error =>
       res_status_json 500 (JError "Error fetching analytics" (message error))).

(** The demo catalog of [POST /api/seed]. *)
Definition sample (name sku category : string) (quantity reorderPoint unitPrice : Z)
    (location supplier : string) : ProductBody.t :=
  ProductBody.mk (Some name) (Some sku) (Some category) (Some (ofZ quantity))
    (Some (ofZ reorderPoint)) (Some (ofZ unitPrice)) (Some location) (Some supplier) None None.

Definition sampleProducts : list ProductBody.t :=
  [ sample "Steel Rods (10mm)" "SR-10MM-001" "Steel" 150 50 450 "Warehouse A" "Steel Corp India";
    sample "Cement Bags (50kg)" "CM-50KG-001" "Cement" 200 100 380 "Warehouse B" "UltraTech";
    sample "Bricks (Red Clay)" "BR-RC-001" "Bricks" 5000 1000 8 "Yard 1" "Local Kiln";
    sample "Sand (per ton)" "SD-T-001" "Aggregates" 25 10 1200 "Yard 2" "Sand Suppliers Ltd";
    sample "Paint (White 20L)" "PT-W20-001" "Paint" 8 15 2500 "Warehouse A" "Asian Paints";
    sample "Tiles (Ceramic 2x2)" "TL-C22-001" "Tiles" 3 20 450 "Warehouse C" "Kajaria";
    sample "Plywood (8mm)" "PW-8MM-001" "Wood" 45 20 1800 "Warehouse A" "Century Ply" ].

(** [list.map((x, i) => f(x, i))] for an [f] with effects. *)
Fixpoint mapWithIndex {A B} (f : A -> nat -> M B) (i : nat) (l : list A) : M (list B) :=
  match l with
  | [] => ret []
  | x :: rest =>
      y <- f x i ;;
      ys <- mapWithIndex f (S i) rest ;;
      ret (y :: ys)
  end.

(** The in-memory seed object: the status is set by a conditional of its
    own, not by [updateProductStatus]. *)
Definition seedObject (p : ProductBody.t) (i : nat) : M Product.t :=
  restocked <- newDate ;;
  created <- newDate ;;
  updated <- newDate ;;
  ret (Product.mk (String_ (i + 1))
         (ProductBody.name p) (ProductBody.sku p) (ProductBody.category p)
         (ProductBody.quantity p) (ProductBody.reorderPoint p) (ProductBody.unitPrice p)
         (ProductBody.location p) (ProductBody.supplier p)
         (Some restocked)
         (Some (if jsLe (ProductBody.quantity p) (ProductBody.reorderPoint p)
                then LowStock else InStock))
         (Some created) (Some updated)).

(** The document the persistent seed builds for a sample. *)
Definition seedDocument (p : ProductBody.t) (i : nat) : M Product.t :=
  product <- newProduct p ;;
  ret (updateProductStatus product).

(** [POST /api/seed] *)
Definition post_api_seed_try : M Response :=
  inMemory <- gets useInMemory ;;
  if inMemory then
    objects <- mapWithIndex seedObject 0 sampleProducts ;;
    modify (set_inMemoryProducts objects) ;;;
    modify (set_productIdCounter (length objects + 1)) ;;;
    ret (res_json (JSeeded "Sample data created successfully" (length objects)))
  else
    Product_deleteMany ;;;
    documents <- mapWithIndex seedDocument 0 sampleProducts ;;
    products <- Product_insertMany documents ;;
    ret (res_json (JSeeded "Sample data created successfully" (length products))).

Definition post_api_seed : World -> Response * World :=
  tryCatch post_api_seed_try
    (fun error =>
       res_status_json 500 (JError "Error seeding data" (message error))).

(** ** The route table *)

Inductive Request :=
| GET_health
| GET_products
| GET_products_id (id : string)
| POST_products (body : ProductBody.t)
| PUT_products_id (id : string) (body : ProductBody.t)
| DELETE_products_id (id : string)
| POST_transactions (body : TransactionBody.t)
| GET_transactions
| GET_analytics
| POST_seed.

Definition handle (req : Request) : World -> Response * World :=
  match req with
  | GET_health => get_api_health
  | GET_products => get_api_products
  | GET_products_id id => get_api_products_id id
  | POST_products body => post_api_products body
  | PUT_products_id id body => put_api_products_id id body
  | DELETE_products_id id => delete_api_products_id id
  | POST_transactions body => post_api_transactions body
  | GET_transactions => get_api_transactions
  | GET_analytics => get_api_analytics
  | POST_seed => post_api_seed
  end.

(** The [try] block of each route. *)
Definition attempt (req : Request) : M Response :=
  match req with
  | GET_health => fun w => (Value (fst (get_api_health w)), w)
  | GET_products => get_api_products_try
  | GET_products_id id => get_api_products_id_try id
  | POST_products body => post_api_products_try body
  | PUT_products_id id body => put_api_products_id_try id body
  | DELETE_products_id id => delete_api_products_id_try id
  | POST_transactions body => post_api_transactions_try body
  | GET_transactions => get_api_transactions_try
  | GET_analytics => get_api_analytics_try
  | POST_seed => post_api_seed_try
  end.

(** The process state at start-up: empty arrays, counters at 1. *)
Definition initialWorld (inMemory : bool) (d : Mongo) (e : Env) : World :=
  mkWorld inMemory [] [] 1 1 d e.

(** ** Vocabulary of the statements *)

(** The products and transactions of the store in use. *)
Definition storedProducts (w : World) : list Product.t :=
  if useInMemory w then inMemoryProducts w else productDocs (db w).

Definition storedTransactions (w : World) : list Transaction.t :=
  if useInMemory w then inMemoryTransactions w else transactionDocs (db w).

(** The id under which the store in use keeps the product that a
    request's id denotes: the id itself in memory, the ObjectId it is
    cast to in the database. *)
Definition storedId (w : World) (id : string) : string :=
  if useInMemory w then id else lowerHex id.

(** The stored product a request's id denotes. *)
Definition lookupProduct (w : World) (id : string) : option Product.t :=
  snd <$> list_find (fun p => Product._id p = storedId w id) (storedProducts w).

(** The next reading of the clock: the time at which a handler that
    starts in [w] first calls [new Date()]. *)
Definition now (w : World) : Z := clock (env w) (clockReads (env w)).

(** The state after one accepted call to the backend. *)
Definition called (w : World) : World :=
  set_env (mkEnv (clock (env w)) (clockReads (env w)) (rejects (env w))
             (S (awaited (env w)))) w.

(** The backend accepts every call from now on. *)
Definition backendAccepts (w : World) : Prop :=
  forall k, (awaited (env w) <= k)%nat -> rejects (env w) k = None.

(** Every product document satisfies the schema and has an ObjectId. *)
Definition validDocument (d : Product.t) : Prop :=
  productPaths d = [] /\ isObjectId (Product._id d) = true.

Definition schemaValid (w : World) : Prop :=
  Forall validDocument (productDocs (db w)).

(** The persistent store is usable: reachable, with valid documents.
    Nothing is required of the in-memory store. *)
Definition serviceable (w : World) : Prop :=
  useInMemory w = false -> backendAccepts w /\ schemaValid w.

(** The three cases of the specification's status rule, for a quantity
    [q], a reorder point [r] and a status [s]. *)
Definition specifiedStatus (q r : Z) (s : option string) : Prop :=
  (s = Some OutOfStock <-> q = 0) /\
  (s = Some LowStock <-> 0 < q <= r) /\
  (s = Some InStock <-> r < q).

(** A product's status is the one its quantity and reorder point derive. *)
Definition statusDerived (p : Product.t) : Prop := updateProductStatus p = p.

(** The five product operations: list, get by id, create, update, delete. *)
Definition isProductOperation (req : Request) : bool :=
  match req with
  | GET_products | GET_products_id _ | POST_products _ | PUT_products_id _ _
  | DELETE_products_id _ => true
  | _ => false
  end.

(** Errors caused by the request, and errors of the backend. *)
Definition invalidInput (e : Error) : Prop :=
  errorName e = ValidationError \/ errorName e = CastError.

Definition backendFailure (e : Error) : Prop :=
  errorName e = MongoNetworkError.

(** What the specification says of a failing request: invalid input is
    answered with 400 and the error's message, a backend failure with
    500. *)
Definition signalsAsSpecified (req : Request) (w : World) : Prop :=
  forall e w', attempt req w = (Thrown e, w') ->
    (invalidInput e ->
     exists m, fst (handle req w) = res_status_json 400 (JError m (message e))) /\
    (backendFailure e -> statusCode (fst (handle req w)) = 500).

(** The status each route's [catch] clause answers with. *)
Definition failureStatus (req : Request) : Z :=
  match req with
  | POST_products _ | PUT_products_id _ _ | POST_transactions _ => 400
  | _ => 500
  end.

(** [x] is a value of the binary64 format. *)
Definition isDouble (x : float) : Prop := valid_binary 53 1024 x = true.

(** The exact value of a Number, counted in units of [2 ^ -1074], the
    smallest positive double, of which every finite double is a whole
    multiple.  The infinities are placed beyond every finite value. *)
Definition exactValue (x : float) : option Z :=
  match x with
  | S754_zero _ => Some 0
  | S754_finite s m e => Some (cond_Zopp s (Zpos m * 2 ^ (e + 1074)))
  | S754_infinity s => Some (cond_Zopp s (2 ^ 2098))
  | S754_nan => None
  end.

(** The field [a] holds exactly the whole number [z]. *)
Definition isInteger (a : jsnum) (z : Z) : Prop :=
  exists x, a = Some x /\ exactValue x = Some (z * 2 ^ 1074).

(** The whole numbers that every double tells apart: those below
    [2 ^ 53] in magnitude. *)
Definition safe (z : Z) : Prop := Z.abs z < 2 ^ 53.

(** What the specification says of a movement that adds [n] to the
    quantity [q] and leaves [q']: for whole numbers, [q'] is the sum. *)
Definition increasedBy (n q q' : jsnum) : Prop :=
  forall a b, isInteger q a -> isInteger n b -> isInteger q' (a + b).

(** Likewise for a movement that takes [n] from [q]. *)
Definition decreasedBy (n q q' : jsnum) : Prop :=
  forall a b, isInteger q a -> isInteger n b -> isInteger q' (a - b).

(** A catalog of whole quantities and prices: the quantity and the unit
    price of each product, in order. *)
Definition hasAmounts (products : list Product.t) (amounts : list (Z * Z)) : Prop :=
  Forall2 (fun p qu => Product.quantity p = Some (ofZ (fst qu)) /\
                       Product.unitPrice p = Some (ofZ (snd qu)))
    products amounts.

(** The sum over all products of quantity times unit price. *)
Definition sumOfAmounts (amounts : list (Z * Z)) : Z :=
  foldr (fun qu total => fst qu * snd qu + total) 0 amounts.

(** The same sum with every term taken positive. *)
Definition sumOfMagnitudes (amounts : list (Z * Z)) : Z :=
  foldr (fun qu total => Z.abs (fst qu * snd qu) + total) 0 amounts.

(** [a] goes behind [b] under a comparator. *)
Definition sortsAfter {A} (compareFn : A -> A -> jsnum) (a b : A) : bool :=
  jsPositive (compareFn a b).

(** A comparator ranks [a] and [b] alike. *)
Definition tied {A} (compareFn : A -> A -> jsnum) (a b : A) : bool :=
  negb (sortsAfter compareFn a b) && negb (sortsAfter compareFn b a).

(** A comparator is consistent on a list: it never places two elements
    behind each other, and not being placed behind is transitive.  It is
    for such comparators that the language fixes what [sort] returns. *)
Definition consistentOn {A} (compareFn : A -> A -> jsnum) (l : list A) : Prop :=
  Forall (fun a => Forall (fun b =>
    (sortsAfter compareFn a b = true -> sortsAfter compareFn b a = false) /\
    Forall (fun c =>
      sortsAfter compareFn a b = false -> sortsAfter compareFn b c = false ->
      sortsAfter compareFn a c = false) l) l) l.

(** The Number [x] is the whole number [v]; a product that is zero may
    be [-0]. *)
Definition isWhole (x : float) (v : Z) : Prop :=
  x = ofZ v \/ (v = 0 /\ x = S754_zero true).

(** Whole quantities and prices whose products stay below [2 ^ 52] in
    magnitude, so that the difference of two values is exact. *)
Definition modestAmounts (amounts : list (Z * Z)) : Prop :=
  Forall (fun qu => safe (fst qu) /\ safe (snd qu) /\ Z.abs (fst qu * snd qu) < 2 ^ 52)
    amounts.

(** Proof vocabulary for the arithmetic of doubles: [m] shifted left by
    [n] bits; the double of a whole number of magnitude [m] below
    [2 ^ 53], normalised; a sign and a magnitude as an integer; the
    magnitude of a finite double in units of [2 ^ -1074]. *)
Definition shl (n : nat) (m : positive) : positive := Nat.iter n xO m.

Definition canon (s : bool) (m : positive) : float :=
  S754_finite s (shl (Z.to_nat (53 - Zpos (Pos.size m))) m) (Zpos (Pos.size m) - 53).

Definition signed (s : bool) (m : positive) : Z := cond_Zopp s (Zpos m).

Definition magnitude (m : positive) (e : Z) : Z := Zpos m * 2 ^ (e + 1074).

(** The transactions a response lists. *)
Definition listedTransactions (r : Response) : list Transaction.t :=
  match json r with
  | JTransactions l => l
  | JPopulated l => fst <$> l
  | _ => []
  end.

(** [returned] is what the specification promises of a listing of the
    [stored] transactions: at most [limit] of them, the most recent
    ones, newest first. *)
Definition recentFirst (limit : nat) (stored returned : list Transaction.t) : Prop :=
  length returned = Nat.min limit (length stored) /\
  StronglySorted (newestFirst Transaction.createdAt) returned /\
  exists older,
    stored ≡ₚ returned ++ older /\
    forall r t, r ∈ returned -> t ∈ older -> newestFirst Transaction.createdAt r t.

(** What [restock] leaves of a product when the clock reads [t]. *)
Definition restockedAt (type : option string) (t : Z) (p : Product.t) : Product.t :=
  if typeIs type "IN" then Product.set_lastRestocked (Some t) p else p.

(** The product a stock movement of [n] units makes of [p] at time [t],
    before [updatedAt] is refreshed. *)
Definition moved (type : option string) (n : jsnum) (t : Z) (p : Product.t) : Product.t :=
  updateProductStatus (restockedAt type t (adjustQuantity type n p)).

(** The invariant of the store in use: every stored product has its
    derived status, and every document of the persistent store is valid. *)
Definition consistent (w : World) : Prop :=
  Forall statusDerived (storedProducts w) /\ (useInMemory w = false -> schemaValid w).

(** A persistent-mode update makes two calls, [findByIdAndUpdate] and
    [product.save()]; the second one is accepted. *)
Definition finalSaveAccepted (req : Request) (w : World) : Prop :=
  match req with
  | PUT_products_id _ _ =>
      useInMemory w = false -> rejects (env w) (S (awaited (env w))) = None
  | _ => True
  end.

(** The statuses the derivation produces. *)
Definition derivedStatuses : list (option string) :=
  [Some InStock; Some LowStock; Some OutOfStock].

(** Serving a sequence of requests. *)
Fixpoint serve (reqs : list Request) (w : World) : World :=
  match reqs with
  | [] => w
  | req :: rest => serve rest (snd (handle req w))
  end.

(** ** Example data *)

Definition stockItem (id : string) (q r : Z) : Product.t :=
  Product.mk id (Some "Nails") (Some "NL-001") (Some "Hardware") (Some (ofZ q)) (Some (ofZ r))
    (Some (ofZ 4)) (Some "Main Warehouse") (Some EmptyString) (Some 900)
    (Some (if q =? 0 then OutOfStock else if q <=? r then LowStock else InStock))
    (Some 900) (Some 900).

Definition oid1 : string := "0000000000000000000000a1".

Definition movementAt (id : string) (created : Z) : Transaction.t :=
  Transaction.mk id (Some "1") (Some "IN") (Some (ofZ 1)) EmptyString "System"
    (Some created) None.

Definition documentAt (id : string) (created : Z) : Transaction.t :=
  Transaction.mk id (Some oid1) (Some "IN") (Some (ofZ 1)) EmptyString "System"
    (Some created) (Some created).

(** A clock that advances by one millisecond per reading. *)
Definition tickingClock (k : nat) : Z := 1000 + Z.of_nat k.

Definition steadyEnv : Env := mkEnv tickingClock 0 (fun _ => None) 0.

(** An environment whose backend rejects the call number [n]. *)
Definition failingEnv (n : nat) : Env :=
  mkEnv tickingClock 0
    (fun k => if (k =? n)%nat then Some "connection timed out" else None) 0.

Definition memoryWorld (products : list Product.t) (transactions : list Transaction.t)
  : World :=
  mkWorld true products transactions (S (length products)) (S (length transactions))
    (mkMongo [] [] 0) steadyEnv.

Definition mongoWorld (e : Env) (products : list Product.t)
    (transactions : list Transaction.t) : World :=
  mkWorld false [] [] 1 1 (mkMongo products transactions 0) e.

(** ** Vocabulary of the further statements *)

(** The id a request addresses a product by. *)
Definition productIdOf (req : Request) : option string :=
  match req with
  | GET_products_id id | PUT_products_id id _ | DELETE_products_id id => Some id
  | POST_transactions body => TransactionBody.productId body
  | _ => None
  end.

(** The requests that only read. *)
Definition isRead (req : Request) : bool :=
  match req with
  | GET_health | GET_products | GET_products_id _ | GET_transactions | GET_analytics => true
  | _ => false
  end.

(** The requests that record a stock movement. *)
Definition isMovement (req : Request) : bool :=
  match req with
  | POST_transactions _ => true
  | _ => false
  end.

(** The in-memory ids were issued by the counters: no two products and
    no two transactions share an id, and every id is the print of a
    number below its counter. *)
Definition idsIssued (w : World) : Prop :=
  NoDup (Product._id <$> inMemoryProducts w) /\
  Forall (fun p => exists k, (k < productIdCounter w)%nat /\ Product._id p = String_ k)
    (inMemoryProducts w) /\
  NoDup (Transaction._id <$> inMemoryTransactions w) /\
  Forall (fun t => exists k, (k < transactionIdCounter w)%nat /\ Transaction._id t = String_ k)
    (inMemoryTransactions w).

(** A movement type outside the schema's enum, or none at all. *)
Definition unknownType (type : option string) : Prop :=
  forall s, s ∈ typeEnum -> type <> Some s.

(** A required string that is absent or empty. *)
Definition blank (s : option string) : Prop := s = None \/ s = Some EmptyString.

(** A product body without one of the fields the schema requires and
    gives no default for. *)
Definition lacksRequired (body : ProductBody.t) : Prop :=
  blank (ProductBody.name body) \/ blank (ProductBody.sku body) \/
  blank (ProductBody.category body) \/ ProductBody.unitPrice body = None.

(** A product body as [JSON.parse] yields it: JSON has no [NaN]. *)
Definition parsedNumbers (body : ProductBody.t) : Prop :=
  castNumber "quantity" (ProductBody.quantity body) = [] /\
  castNumber "reorderPoint" (ProductBody.reorderPoint body) = [] /\
  castNumber "unitPrice" (ProductBody.unitPrice body) = [].

(** The property name under which the analytics count a product's
    category. *)
Definition categoryKey (p : Product.t) : string :=
  default "undefined" (Product.category p).

(** The property names every JavaScript object inherits: under these
    [acc[key]] is not a count, so the analytics count only other
    categories the way [countCategory] does. *)
Definition prototypeNames : list string :=
  ["constructor"; "hasOwnProperty"; "isPrototypeOf"; "propertyIsEnumerable";
   "toLocaleString"; "toString"; "valueOf"; "__proto__";
   "__defineGetter__"; "__defineSetter__"; "__lookupGetter__"; "__lookupSetter__"].

(** How many products of a list are counted under a category. *)
Definition inCategory (c : string) (products : list Product.t) : nat :=
  length (List.filter (fun p => bool_decide (categoryKey p = c)) products).

(** * Verified properties *)

(** ** Arithmetic of doubles

    Whole numbers below [2 ^ 53] in magnitude are doubles, on which
    addition, subtraction and multiplication are exact as long as the
    result stays below [2 ^ 53]; comparing doubles is comparing their
    exact values. *)

Lemma digits2_pos_size (m : positive) : digits2_pos m = Pos.size m.
Proof. induction m; simpl; congruence. Qed.

Lemma iter_pos_iter {A} (f : A -> A) (n : positive) (x : A) :
  SpecFloat.iter_pos f n x = Nat.iter (Pos.to_nat n) f x.
Proof.
  revert x. induction n as [n IH|n IH|]; intros x; simpl SpecFloat.iter_pos.
  - rewrite !IH, Pos2Nat.inj_xI, <- Nat.iter_add, <- Nat.iter_succ_r. f_equal. lia.
  - rewrite !IH, Pos2Nat.inj_xO, <- Nat.iter_add. f_equal. lia.
  - reflexivity.
Qed.

Lemma pos_iter_shl (n : positive) (m : positive) : Pos.iter xO m n = shl (Pos.to_nat n) m.
Proof.
  rewrite Pos2Nat.inj_iter. unfold shl.
  induction (Pos.to_nat n) as [|k IH]; simpl; congruence.
Qed.

Lemma shl_add (j k : nat) (m : positive) : shl j (shl k m) = shl (j + k) m.
Proof. unfold shl. by rewrite Nat.iter_add. Qed.

Lemma size_shl (n : nat) (m : positive) :
  Zpos (Pos.size (shl n m)) = Zpos (Pos.size m) + Z.of_nat n.
Proof.
  induction n as [|n IH]; [simpl; lia|].
  change (shl (S n) m) with (xO (shl n m)). simpl Pos.size. lia.
Qed.

Lemma Zpos_shl (n : nat) (m : positive) : Zpos (shl n m) = Zpos m * 2 ^ Z.of_nat n.
Proof.
  induction n as [|n IH]; [simpl; lia|].
  change (shl (S n) m) with (xO (shl n m)).
  rewrite Pos2Z.inj_xO, IH, Nat2Z.inj_succ, Z.pow_succ_r by lia. lia.
Qed.

Lemma shr_shl (n : nat) (m : positive) :
  Nat.iter n shr_1 (Build_shr_record (Zpos (shl n m)) false false) =
  Build_shr_record (Zpos m) false false.
Proof.
  induction n as [|n IH]; [reflexivity|].
  rewrite Nat.iter_succ_r. change (shl (S n) m) with (xO (shl n m)). exact IH.
Qed.

Lemma fexp_normal (t : Z) : -1021 <= t -> fexp 53 1024 t = t - 53.
Proof. intros H. unfold fexp, emin. lia. Qed.

Lemma size_bounds (m : positive) :
  2 ^ (Zpos (Pos.size m) - 1) <= Zpos m < 2 ^ Zpos (Pos.size m).
Proof.
  induction m as [m IH|m IH|].
  - simpl Pos.size. rewrite Pos2Z.inj_succ, (Pos2Z.inj_xI m).
    replace (Z.succ (Zpos (Pos.size m)) - 1) with (Z.succ (Zpos (Pos.size m) - 1)) by lia.
    rewrite (Z.pow_succ_r 2 (Zpos (Pos.size m))), (Z.pow_succ_r 2 (Zpos (Pos.size m) - 1)) by lia.
    lia.
  - simpl Pos.size. rewrite Pos2Z.inj_succ, (Pos2Z.inj_xO m).
    replace (Z.succ (Zpos (Pos.size m)) - 1) with (Z.succ (Zpos (Pos.size m) - 1)) by lia.
    rewrite (Z.pow_succ_r 2 (Zpos (Pos.size m))), (Z.pow_succ_r 2 (Zpos (Pos.size m) - 1)) by lia.
    lia.
  - simpl. lia.
Qed.

Lemma size_le_53 (m : positive) : Zpos m < 2 ^ 53 <-> Zpos (Pos.size m) <= 53.
Proof.
  pose proof (size_bounds m) as [Hlo Hhi]. split; intros H.
  - destruct (Z.le_gt_cases (Zpos (Pos.size m)) 53) as [|Hgt]; [done|].
    assert (2 ^ 53 <= 2 ^ (Zpos (Pos.size m) - 1)) by (apply Z.pow_le_mono_r; lia). lia.
  - assert (2 ^ Zpos (Pos.size m) <= 2 ^ 53) by (apply Z.pow_le_mono_r; lia). lia.
Qed.

(** Rounding a mantissa that is an integer of at most 53 bits followed
    by enough zero bits: the integer comes out, normalised. *)
Lemma binary_round_aux_exact (s : bool) (m : positive) (k : nat) :
  Zpos (Pos.size m) <= 53 ->
  53 - Zpos (Pos.size m) <= Z.of_nat k ->
  binary_round_aux 53 1024 s (Zpos (shl k m)) (- Z.of_nat k) loc_Exact = canon s m.
Proof.
  intros Hd Hk. set (d := Zpos (Pos.size m)) in *.
  assert (Hd1 : 1 <= d) by (unfold d; lia).
  unfold binary_round_aux, shr_fexp, Zdigits2.
  rewrite digits2_pos_size, size_shl. fold d.
  rewrite fexp_normal by lia.
  set (j := Z.to_nat (53 - d)).
  assert (Hm' : Zpos (Pos.size (shl j m)) = 53) by (rewrite size_shl; fold d; lia).
  assert (Hshift : shr 
            (shr_record_of_loc (Zpos (shl k m)) loc_Exact) (- Z.of_nat k)
            (d + Z.of_nat k + - Z.of_nat k - 53 - - Z.of_nat k) =
          (Build_shr_record (Zpos (shl j m)) false false, d - 53)).
  { unfold shr. destruct (d + Z.of_nat k + - Z.of_nat k - 53 - - Z.of_nat k) as [|p|p] eqn:Hn.
    - simpl. replace k with j by lia. f_equal. lia.
    - rewrite iter_pos_iter. simpl shr_record_of_loc.
      replace k with (Pos.to_nat p + j)%nat by lia.
      rewrite <- shl_add, shr_shl. f_equal. lia.
    - lia. }
  rewrite Hshift. simpl shr_m. simpl loc_of_shr_record. simpl round_nearest_even.
  unfold Zdigits2. rewrite digits2_pos_size, Hm'.
  rewrite fexp_normal by lia.
  replace (53 + (d - 53) - 53 - (d - 53)) with 0 by lia.
  cbn [shr shr_m].
  destruct (Z.leb_spec (d - 53) (1024 - 53)) as [_|Hgt]; [reflexivity|lia].
Qed.

Lemma binary_round_exact (s : bool) (m : positive) (k : nat) :
  Zpos (Pos.size m) <= 53 ->
  binary_round 53 1024 s (shl k m) (- Z.of_nat k) = canon s m.
Proof.
  intros Hd. set (d := Zpos (Pos.size m)) in *.
  assert (Hd1 : 1 <= d) by (unfold d; lia).
  unfold binary_round. rewrite digits2_pos_size, size_shl. fold d.
  rewrite fexp_normal by lia.
  unfold shl_align.
  destruct (d + Z.of_nat k + - Z.of_nat k - 53 - - Z.of_nat k) as [|p|p] eqn:Hn.
  - apply binary_round_aux_exact; fold d; lia.
  - apply binary_round_aux_exact; fold d; lia.
  - rewrite pos_iter_shl, shl_add.
    replace (d + Z.of_nat k + - Z.of_nat k - 53) with (- Z.of_nat (Pos.to_nat p + k)) by lia.
    apply binary_round_aux_exact; fold d; lia.
Qed.

Lemma ofZ_pos (m : positive) : Zpos m < 2 ^ 53 -> ofZ (Zpos m) = canon false m.
Proof. intros H%size_le_53. apply (binary_round_exact false m 0 H). Qed.

Lemma ofZ_neg (m : positive) : Zpos m < 2 ^ 53 -> ofZ (Zneg m) = canon true m.
Proof. intros H%size_le_53. apply (binary_round_exact true m 0 H). Qed.

(** Normalising an integer below [2 ^ 53] written with [k] more zero bits. *)
Lemma binary_normalize_shifted (z : Z) (k : nat) :
  safe z -> binary_normalize 53 1024 (z * 2 ^ Z.of_nat k) (- Z.of_nat k) false = ofZ z.
Proof.
  unfold safe. intros Hz. destruct z as [|m|m]; [reflexivity| |].
  - rewrite <- Zpos_shl. simpl binary_normalize.
    rewrite binary_round_exact, ofZ_pos; [reflexivity|lia|apply size_le_53; lia].
  - change (Zneg m) with (- Zpos m). rewrite Z.mul_opp_l, <- Zpos_shl.
    simpl binary_normalize.
    rewrite binary_round_exact; [|apply size_le_53; lia].
    symmetry. apply ofZ_neg. lia.
Qed.

Lemma shl_align_down (m : positive) (e ez : Z) :
  ez <= e -> fst (shl_align m e ez) = shl (Z.to_nat (e - ez)) m.
Proof.
  intros H. unfold shl_align. destruct (ez - e) as [|p|p] eqn:Hn.
  - replace (e - ez) with 0 by lia. reflexivity.
  - lia.
  - simpl. rewrite pos_iter_shl. f_equal. lia.
Qed.

Lemma size_mono (a b : positive) : (a <= b)%positive -> Zpos (Pos.size a) <= Zpos (Pos.size b).
Proof.
  intros Hab. pose proof (size_bounds a) as [Ha _]. pose proof (size_bounds b) as [_ Hb].
  assert (Hlt : 2 ^ (Zpos (Pos.size a) - 1) < 2 ^ Zpos (Pos.size b)) by lia.
  apply Z.pow_lt_mono_r_iff in Hlt; lia.
Qed.

Lemma signed_shl (s : bool) (m : positive) (k : nat) :
  cond_Zopp s (Zpos (shl k m)) = signed s m * 2 ^ Z.of_nat k.
Proof. unfold signed. rewrite Zpos_shl. destruct s; simpl; lia. Qed.

Lemma ofZ_signed (s : bool) (m : positive) :
  Zpos (Pos.size m) <= 53 -> ofZ (signed s m) = canon s m.
Proof.
  intros H%size_le_53. destruct s; simpl; [by apply ofZ_neg|by apply ofZ_pos].
Qed.

Lemma safe_signed (s : bool) (m : positive) : safe (signed s m) <-> Zpos (Pos.size m) <= 53.
Proof. rewrite <- size_le_53. unfold safe, signed. destruct s; simpl; lia. Qed.

Lemma aligned (s s' : bool) (m m' : positive) :
  Zpos (Pos.size m) <= 53 -> Zpos (Pos.size m') <= 53 ->
  let e := Zpos (Pos.size m) - 53 in
  let e' := Zpos (Pos.size m') - 53 in
  exists k : nat,
    Z.min e e' = - Z.of_nat k /\
    cond_Zopp s (Zpos (fst (shl_align (shl (Z.to_nat (53 - Zpos (Pos.size m))) m) e
                              (Z.min e e'))))
      = signed s m * 2 ^ Z.of_nat k /\
    cond_Zopp s' (Zpos (fst (shl_align (shl (Z.to_nat (53 - Zpos (Pos.size m'))) m') e'
                               (Z.min e e'))))
      = signed s' m' * 2 ^ Z.of_nat k.
Proof.
  intros Hd Hd' e e'. exists (Z.to_nat (- Z.min e e')).
  split; [unfold e, e'; lia|].
  rewrite !shl_align_down, !shl_add, !signed_shl by lia.
  split; do 2 f_equal; unfold e, e'; lia.
Qed.

Lemma fadd_canon (s s' : bool) (m m' : positive) :
  Zpos (Pos.size m) <= 53 -> Zpos (Pos.size m') <= 53 ->
  safe (signed s m + signed s' m') ->
  SFadd 53 1024 (canon s m) (canon s' m') = ofZ (signed s m + signed s' m').
Proof.
  intros Hd Hd' Hsum. unfold canon, SFadd.
  destruct (aligned s s' m m' Hd Hd') as (k & Hez & Ha & Hb).
  cbv zeta in *. rewrite Ha, Hb, <- Z.mul_add_distr_r, Hez.
  by apply binary_normalize_shifted.
Qed.

Lemma fsub_canon (s s' : bool) (m m' : positive) :
  Zpos (Pos.size m) <= 53 -> Zpos (Pos.size m') <= 53 ->
  safe (signed s m - signed s' m') ->
  SFsub 53 1024 (canon s m) (canon s' m') = ofZ (signed s m - signed s' m').
Proof.
  intros Hd Hd' Hsum. unfold canon, SFsub.
  destruct (aligned s s' m m' Hd Hd') as (k & Hez & Ha & Hb).
  cbv zeta in *. rewrite Ha, Hb, <- Z.mul_sub_distr_r, Hez.
  by apply binary_normalize_shifted.
Qed.

Lemma fmul_canon (s s' : bool) (m m' : positive) :
  Zpos (Pos.size (m * m')) <= 53 ->
  SFmul 53 1024 (canon s m) (canon s' m') = canon (xorb s s') (m * m').
Proof.
  intros Hd.
  assert (Hm : Zpos (Pos.size m) <= Zpos (Pos.size (m * m'))) by (apply size_mono; nia).
  assert (Hm' : Zpos (Pos.size m') <= Zpos (Pos.size (m * m'))) by (apply size_mono; nia).
  unfold canon at 1 2. unfold SFmul.
  set (j := Z.to_nat (53 - Zpos (Pos.size m))). set (j' := Z.to_nat (53 - Zpos (Pos.size m'))).
  assert (Hprod : (shl j m * shl j' m')%positive = shl (j + j') (m * m')).
  { apply Pos2Z.inj. rewrite Pos2Z.inj_mul, !Zpos_shl, Pos2Z.inj_mul, Nat2Z.inj_add,
      Z.pow_add_r by lia. lia. }
  rewrite Hprod.
  replace (Zpos (Pos.size m) - 53 + (Zpos (Pos.size m') - 53)) with (- Z.of_nat (j + j'))
    by (unfold j, j'; lia).
  apply binary_round_aux_exact; [exact Hd|unfold j, j'; lia].
Qed.

(** Every integer is zero or a sign and a magnitude. *)
Lemma signed_cases (z : Z) : z = 0 \/ exists s m, z = signed s m.
Proof.
  destruct z as [|m|m]; [by left|right; by exists false, m|right; by exists true, m].
Qed.

(** ** Arithmetic on the integers below [2 ^ 53] is exact *)

Lemma fadd_ofZ (a b : Z) :
  safe a -> safe b -> safe (a + b) -> fadd (ofZ a) (ofZ b) = ofZ (a + b).
Proof.
  intros Ha Hb Hab. unfold fadd.
  destruct (signed_cases a) as [->|(s & m & ->)], (signed_cases b) as [->|(s' & m' & ->)].
  - reflexivity.
  - apply safe_signed in Hb. rewrite Z.add_0_l, ofZ_signed by done. reflexivity.
  - apply safe_signed in Ha. rewrite Z.add_0_r, ofZ_signed by done. reflexivity.
  - apply safe_signed in Ha, Hb. rewrite !ofZ_signed by done. by apply fadd_canon.
Qed.

Lemma signed_opp (s : bool) (m : positive) : - signed s m = signed (negb s) m.
Proof. by destruct s. Qed.

Lemma fsub_ofZ (a b : Z) :
  safe a -> safe b -> safe (a - b) -> fsub (ofZ a) (ofZ b) = ofZ (a - b).
Proof.
  intros Ha Hb Hab. unfold fsub.
  destruct (signed_cases a) as [->|(s & m & ->)], (signed_cases b) as [->|(s' & m' & ->)].
  - reflexivity.
  - apply safe_signed in Hb. rewrite Z.sub_0_l, signed_opp, !ofZ_signed by done. reflexivity.
  - apply safe_signed in Ha. rewrite Z.sub_0_r, ofZ_signed by done. reflexivity.
  - apply safe_signed in Ha, Hb. rewrite !ofZ_signed by done. by apply fsub_canon.
Qed.

Lemma signed_mul (s s' : bool) (m m' : positive) :
  signed s m * signed s' m' = signed (xorb s s') (m * m').
Proof. destruct s, s'; simpl; lia. Qed.

(** A product that is zero may come out as [-0]; added to a total it
    counts as [0] all the same. *)
Lemma fadd_fmul_ofZ (t a b : Z) :
  safe t -> safe a -> safe b -> safe (a * b) -> safe (t + a * b) ->
  fadd (ofZ t) (fmul (ofZ a) (ofZ b)) = ofZ (t + a * b).
Proof.
  intros Ht Ha Hb Hab Hsum. unfold fmul.
  destruct (signed_cases a) as [->|(s & m & ->)], (signed_cases b) as [->|(s' & m' & ->)].
  - rewrite Z.add_0_r. destruct (signed_cases t) as [->|(st & mt & ->)]; [reflexivity|].
    apply safe_signed in Ht. rewrite ofZ_signed by done. reflexivity.
  - apply safe_signed in Hb. rewrite ofZ_signed, Z.mul_0_l, Z.add_0_r by done.
    destruct (signed_cases t) as [->|(st & mt & ->)]; [by destruct s'|].
    apply safe_signed in Ht. rewrite ofZ_signed by done. reflexivity.
  - apply safe_signed in Ha. rewrite ofZ_signed, Z.mul_0_r, Z.add_0_r by done.
    destruct (signed_cases t) as [->|(st & mt & ->)]; [by destruct s|].
    apply safe_signed in Ht. rewrite ofZ_signed by done. reflexivity.
  - rewrite signed_mul in *. pose proof Hab as Hd%safe_signed.
    apply safe_signed in Ha, Hb. rewrite !ofZ_signed by done.
    rewrite fmul_canon, <- ofZ_signed by done. by apply fadd_ofZ.
Qed.

Lemma fmul_ofZ (a b : Z) :
  safe (a * b) -> a * b <> 0 -> fmul (ofZ a) (ofZ b) = ofZ (a * b).
Proof.
  intros Hab Hne. unfold fmul.
  destruct (signed_cases a) as [->|(s & m & ->)]; [lia|].
  destruct (signed_cases b) as [->|(s' & m' & ->)]; [lia|].
  rewrite signed_mul in *. pose proof Hab as Hd%safe_signed.
  assert (Hm : Zpos (Pos.size m) <= 53) by (etrans; [apply size_mono|exact Hd]; nia).
  assert (Hm' : Zpos (Pos.size m') <= 53) by (etrans; [apply size_mono|exact Hd]; nia).
  rewrite !ofZ_signed by done. by apply fmul_canon.
Qed.

(** ** Comparison of doubles is comparison of their exact values *)

Lemma isDouble_finite (s : bool) (m : positive) (e : Z) :
  isDouble (S754_finite s m e) ->
  -1074 <= e <= 971 /\ Zpos (Pos.size m) <= 53 /\ (-1074 < e -> Zpos (Pos.size m) = 53).
Proof.
  unfold isDouble, valid_binary, bounded, canonical_mantissa, fexp, emin.
  rewrite digits2_pos_size. intros [Hc He]%andb_true_iff.
  apply Z.eqb_eq in Hc. apply Z.leb_le in He. lia.
Qed.

Lemma magnitude_bounds (s : bool) (m : positive) (e : Z) :
  isDouble (S754_finite s m e) -> 0 < magnitude m e < 2 ^ 2098.
Proof.
  intros (He & Hd & _)%isDouble_finite. unfold magnitude.
  pose proof (size_bounds m) as [_ Hm].
  assert (Hm53 : Zpos m < 2 ^ 53).
  { eapply Z.lt_le_trans; [exact Hm|]. apply Z.pow_le_mono_r; lia. }
  assert (Hpos : 0 < 2 ^ (e + 1074)) by (apply Z.pow_pos_nonneg; lia).
  assert (Hle : 2 ^ (e + 1074) <= 2 ^ 2045) by (apply Z.pow_le_mono_r; lia).
  replace (2 ^ 2098) with (2 ^ 53 * 2 ^ 2045) by (rewrite <- Z.pow_add_r by lia; reflexivity).
  split; [lia|]. 
  apply Z.le_lt_trans with (Zpos m * 2 ^ 2045); [|apply Z.mul_lt_mono_pos_r; lia].
  apply Z.mul_le_mono_nonneg_l; lia.
Qed.

Lemma magnitude_lt (s s' : bool) (m m' : positive) (e e' : Z) :
  isDouble (S754_finite s m e) -> isDouble (S754_finite s' m' e') ->
  e < e' -> magnitude m e < magnitude m' e'.
Proof.
  intros (He & Hd & _)%isDouble_finite (He' & _ & Hn')%isDouble_finite Hlt. unfold magnitude.
  pose proof (size_bounds m) as [_ Hm]. pose proof (size_bounds m') as [Hm' _].
  rewrite Hn' in Hm' by lia.
  assert (Hm53 : Zpos m < 2 ^ 53).
  { eapply Z.lt_le_trans; [exact Hm|]. apply Z.pow_le_mono_r; lia. }
  assert (Hpos : 0 < 2 ^ (e + 1074)) by (apply Z.pow_pos_nonneg; lia).
  assert (Hstep : 2 * 2 ^ (e + 1074) <= 2 ^ (e' + 1074)).
  { rewrite <- Z.pow_succ_r by lia. apply Z.pow_le_mono_r; lia. }
  change (2 ^ (53 - 1)) with (2 ^ 52) in Hm'.
  assert (H53 : 2 ^ 53 = 2 * 2 ^ 52) by reflexivity.
  apply Z.lt_le_trans with (2 ^ 53 * 2 ^ (e + 1074)); [apply Z.mul_lt_mono_pos_r; lia|].
  rewrite H53, <- Z.mul_assoc, (Z.mul_comm 2 (2 ^ 52 * _)), <- Z.mul_assoc.
  apply Z.mul_le_mono_nonneg; lia.
Qed.

Lemma magnitude_compare (s s' : bool) (m m' : positive) (e e' : Z) :
  isDouble (S754_finite s m e) -> isDouble (S754_finite s' m' e') ->
  (magnitude m e ?= magnitude m' e') =
  match e ?= e' with
  | Lt => Lt
  | Gt => Gt
  | Eq => Pos.compare_cont Eq m m'
  end.
Proof.
  intros Hv Hv'. destruct (Z.compare_spec e e') as [->|Hlt|Hgt].
  - unfold magnitude. pose proof Hv as (He & _)%isDouble_finite.
    rewrite <- Zmult_compare_compat_r by (apply Z.lt_gt, Z.pow_pos_nonneg; lia). reflexivity.
  - apply Z.compare_lt_iff. by eapply magnitude_lt.
  - apply Z.compare_gt_iff. by eapply magnitude_lt.
Qed.

Lemma compare_exact (x y : float) (q r : Z) :
  isDouble x -> isDouble y -> exactValue x = Some q -> exactValue y = Some r ->
  SFcompare x y = Some (q ?= r).
Proof.
  intros Hx Hy Hq Hr.
  destruct x as [sx|sx| |sx mx ex], y as [sy|sy| |sy my ey]; try discriminate.
  all: injection Hq as <-; injection Hr as <-.
  all: try pose proof (magnitude_bounds _ _ _ Hx) as Bx.
  all: try pose proof (magnitude_bounds _ _ _ Hy) as By.
  all: repeat match goal with
       | |- context [Zpos ?m * 2 ^ (?e + 1074)] => fold (magnitude m e)
       end.
  all: try (destruct sx, sy; cbn [SFcompare cond_Zopp]; f_equal; symmetry;
            first [reflexivity | apply Z.compare_lt_iff; lia | apply Z.compare_gt_iff; lia];
            fail).
  pose proof (magnitude_compare _ _ _ _ _ _ Hx Hy) as Hc.
  pose proof (magnitude_compare _ _ _ _ _ _ Hy Hx) as Hc'.
  destruct sx, sy; cbn [SFcompare cond_Zopp]; f_equal.
  - rewrite Z.compare_opp, Hc'. rewrite (Z.compare_antisym ey ex).
    destruct (ey ?= ex); simpl; try reflexivity.
    by rewrite Pos.compare_cont_antisym.
  - symmetry. apply Z.compare_lt_iff. lia.
  - symmetry. apply Z.compare_gt_iff. lia.
  - by rewrite Hc.
Qed.

(** An integer below [2 ^ 53] is a double, exactly. *)
Lemma ofZ_exact (z : Z) : safe z -> isDouble (ofZ z) /\ exactValue (ofZ z) = Some (z * 2 ^ 1074).
Proof.
  intros Hz. destruct (signed_cases z) as [->|(s & m & ->)]; [by split|].
  apply safe_signed in Hz. rewrite ofZ_signed by done. unfold canon.
  set (d := Zpos (Pos.size m)) in *. assert (1 <= d) by (unfold d; lia).
  split.
  - unfold isDouble, valid_binary, bounded, canonical_mantissa.
    rewrite digits2_pos_size, size_shl. fold d. rewrite fexp_normal by lia.
    apply andb_true_iff. split; [apply Z.eqb_eq|apply Z.leb_le]; lia.
  - simpl. f_equal. rewrite Zpos_shl.
    replace (2 ^ 1074) with (2 ^ Z.of_nat (Z.to_nat (53 - d)) * 2 ^ (d - 53 + 1074))
      by (rewrite <- Z.pow_add_r by lia; f_equal; lia).
    unfold signed. destruct s; simpl; lia.
Qed.

Lemma compare_ofZ (a b : Z) : safe a -> safe b -> SFcompare (ofZ a) (ofZ b) = Some (a ?= b).
Proof.
  intros [Va Ea]%ofZ_exact [Vb Eb]%ofZ_exact.
  rewrite (compare_exact _ _ _ _ Va Vb Ea Eb). f_equal.
  symmetry. apply Zmult_compare_compat_r. reflexivity.
Qed.

(** ** Status derivation *)

Lemma updateProductStatus_status (p : Product.t) :
  Product.status (updateProductStatus p) =
  Some (if jsIsZero (Product.quantity p) then OutOfStock
        else if jsLe (Product.quantity p) (Product.reorderPoint p) then LowStock
        else InStock).
Proof.
  unfold updateProductStatus.
  destruct (jsIsZero _); [reflexivity|].
  destruct (jsLe _ _); reflexivity.
Qed.

Lemma isDouble_zero : isDouble zero.
Proof. reflexivity. Qed.

(** [x === 0] and [x <= y] on doubles, through their exact values. *)
Lemma jsIsZero_exact (x : float) (q : Z) :
  isDouble x -> exactValue x = Some q -> jsIsZero (Some x) = (q =? 0).
Proof.
  intros Hx Hq. unfold jsIsZero, SFeqb.
  rewrite (compare_exact x zero q 0 Hx isDouble_zero Hq eq_refl).
  rewrite Z.eqb_compare. by destruct (q ?= 0).
Qed.

Lemma jsLe_exact (x y : float) (q r : Z) :
  isDouble x -> isDouble y -> exactValue x = Some q -> exactValue y = Some r ->
  jsLe (Some x) (Some y) = (q <=? r).
Proof.
  intros Hx Hy Hq Hr. unfold jsLe, SFleb. simpl toNumber.
  rewrite (compare_exact x y q r Hx Hy Hq Hr).
  unfold Z.leb. by destruct (q ?= r).
Qed.

(** C1, as amended.  For every quantity and reorder point, doubles of
    exact values [q] and [r] (whole or fractional, finite or infinite),
    the derived status is Out of Stock iff [q = 0], Low Stock iff [q] is
    not zero and [q <= r], In Stock iff [q] is not zero and [r < q];
    when neither number is negative these are the three cases of the
    specification. *)
Theorem updateProductStatus_cases (p : Product.t) (x y : float) (q r : Z) :
  Product.quantity p = Some x ->
  Product.reorderPoint p = Some y ->
  isDouble x -> isDouble y ->
  exactValue x = Some q -> exactValue y = Some r ->
  let s := Product.status (updateProductStatus p) in
  (s = Some OutOfStock <-> q = 0) /\
  (s = Some LowStock <-> q <> 0 /\ q <= r) /\
  (s = Some InStock <-> q <> 0 /\ r < q) /\
  (0 <= q -> 0 <= r -> specifiedStatus q r s).
Proof.
  intros Hx Hy Vx Vy Hq Hr s. subst s.
  rewrite updateProductStatus_status, Hx, Hy.
  rewrite (jsIsZero_exact x q Vx Hq), (jsLe_exact x y q r Vx Vy Hq Hr).
  unfold specifiedStatus, OutOfStock, LowStock, InStock.
  destruct (Z.eqb_spec q 0) as [E|E]; [|destruct (Z.leb_spec q r)];
    repeat split; intros; try discriminate; try lia; try reflexivity;
    try (exfalso; lia);
    match goal with H : _ /\ _ |- _ => exfalso; lia | _ => idtac end.
Qed.

Lemma updateProductStatus_cases_witness :
  let p := stockItem "1" 5 10 in
  Product.quantity p = Some (ofZ 5) /\ Product.reorderPoint p = Some (ofZ 10) /\
  exactValue (ofZ 5) = Some (5 * 2 ^ 1074) /\ exactValue (ofZ 10) = Some (10 * 2 ^ 1074) /\
  Product.status (updateProductStatus p) = Some LowStock.
Proof.
  split; [reflexivity|]. split; [reflexivity|].
  destruct (ofZ_exact 5) as [V5 E5]; [reflexivity|].
  destruct (ofZ_exact 10) as [V10 E10]; [reflexivity|].
  split; [exact E5|]. split; [exact E10|].
  destruct (updateProductStatus_cases (stockItem "1" 5 10) (ofZ 5) (ofZ 10)
              (5 * 2 ^ 1074) (10 * 2 ^ 1074) eq_refl eq_refl V5 V10 E5 E10)
    as (_ & Hlow & _).
  apply Hlow. assert (0 < 2 ^ 1074) by (apply Z.pow_pos_nonneg; lia). lia.
Defined.

(** C1, as the specification states it, fails at a negative quantity:
    with [q = -5] and [r = 10] the function answers Low Stock although
    [0 < q] does not hold. *)
Lemma specifiedStatus_fails_negative_quantity :
  let p := stockItem "1" (-5) 10 in
  Product.quantity p = Some (ofZ (-5)) /\ Product.reorderPoint p = Some (ofZ 10) /\
  Product.status (updateProductStatus p) = Some LowStock /\
  ~ specifiedStatus (-5) 10 (Product.status (updateProductStatus p)).
Proof.
  split; [reflexivity|]. split; [reflexivity|].
  assert (Hs : Product.status (updateProductStatus (stockItem "1" (-5) 10)) = Some LowStock)
    by (vm_compute; reflexivity).
  split; [exact Hs|].
  intros (_ & Hlow & _).
  assert (0 < -5 <= 10) by (apply Hlow; exact Hs). lia.
Qed.

(** ** Stepping through a handler *)

Ltac unfold_handlers :=
  unfold handle,
    get_api_products, get_api_products_try,
    get_api_products_id, get_api_products_id_try,
    post_api_products, post_api_products_try,
    put_api_products_id, put_api_products_id_try,
    delete_api_products_id, delete_api_products_id_try,
    post_api_transactions, post_api_transactions_try,
    get_api_transactions, get_api_transactions_try,
    get_api_analytics, get_api_analytics_try,
    post_api_seed, post_api_seed_try in *.

Ltac unfold_models :=
  unfold Product_find_sorted, Product_find, Product_findById, Product_findByIdAndUpdate,
    Product_findByIdAndDelete, Product_deleteMany, Product_insertMany,
    Transaction_find_recent, saveNewProduct, saveProduct, saveNewTransaction,
    newProduct, newTransaction, restock, castObjectId, throwIfInvalid in *.

Ltac unfold_monad :=
  unfold tryCatch, bind, ret, throw, gets, modify, newDate, backendCall, newObjectId,
    set_productDocs, set_transactionDocs, set_inMemoryProducts, set_inMemoryTransactions,
    set_productIdCounter, set_transactionIdCounter, set_db, set_env in *.

Ltac destruct_world w :=
  let inMemory := fresh "inMemory" in
  let products := fresh "products" in
  let transactions := fresh "transactions" in
  let pc := fresh "productCounter" in
  let tc := fresh "transactionCounter" in
  let docs := fresh "docs" in
  let tdocs := fresh "tdocs" in
  let oids := fresh "oids" in
  let clk := fresh "clk" in
  let reads := fresh "reads" in
  let rej := fresh "rej" in
  let calls := fresh "calls" in
  destruct w as [inMemory products transactions pc tc [docs tdocs oids] [clk reads rej calls]].

Lemma bind_value {A B} (m : M A) (k : A -> M B) (w w' : World) (a : A) :
  m w = (Value a, w') -> bind m k w = k a w'.
Proof. unfold bind. intros ->. reflexivity. Qed.

Lemma bind_thrown {A B} (m : M A) (k : A -> M B) (w w' : World) (e : Error) :
  m w = (Thrown e, w') -> bind m k w = (Thrown e, w').
Proof. unfold bind. intros ->. reflexivity. Qed.

Lemma backendCall_accepted (w : World) :
  rejects (env w) (awaited (env w)) = None -> backendCall w = (Value tt, called w).
Proof. unfold backendCall. intros ->. reflexivity. Qed.

(** Runs the first action of a sequence by computation, when it returns. *)
Ltac compute_step :=
  match goal with
  | |- context [bind ?m ?k ?w0] =>
      let v := eval lazy -[hexOfWidth] in (m w0) in
      lazymatch v with
      | (Value ?a, ?w1) =>
          let H := fresh in
          assert (H : m w0 = (Value a, w1)) by (lazy -[hexOfWidth]; reflexivity);
          rewrite (bind_value m k w0 w1 a H); clear H; cbv beta
      end
  end.

(** Runs a backend call that the environment accepts. *)
Ltac accepted_step H :=
  match goal with
  | |- context [bind backendCall ?k ?w0] =>
      rewrite (bind_value backendCall k w0 _ _ (backendCall_accepted w0 H)); cbv beta
  end.

(** ** Deleting a product *)

(** C9.  Deleting a product leaves the transaction store as it was, in
    both storage modes and whatever the outcome of the request: no
    transaction is removed or changed, also not those of the deleted
    product. *)
Theorem delete_keeps_transactions (id : string) (w : World) :
  let w' := snd (delete_api_products_id id w) in
  inMemoryTransactions w' = inMemoryTransactions w /\
  transactionDocs (db w') = transactionDocs (db w) /\
  storedTransactions w' = storedTransactions w.
Proof.
  destruct_world w. unfold storedTransactions.
  unfold_handlers. unfold_models. unfold_monad. simpl.
  destruct inMemory; simpl.
  - destruct (list_find _ products) as [[i p]|]; simpl; auto.
  - destruct (isObjectId id); simpl; [|auto].
    destruct (rej calls); simpl; [auto|].
    destruct (list_find _ docs) as [[i p]|]; simpl; auto.
Qed.

(** ** Stock movements *)

Arguments hexOfWidth : simpl never.
Arguments isObjectId : simpl never.
Arguments lowerHex : simpl never.
Arguments quoted : simpl never.
Arguments String_ : simpl never.
Arguments productPaths : simpl never.
Arguments transactionPaths : simpl never.
Arguments updatePaths : simpl never.
Arguments updateProductStatus : simpl never.
Arguments adjustQuantity : simpl never.
Arguments applyBody : simpl never.
Arguments validationError : simpl never.
Arguments duplicateKey : simpl never.
Arguments skuTaken : simpl never.
Arguments ofZ : simpl never.
Arguments fadd : simpl never.
Arguments fsub : simpl never.
Arguments fmul : simpl never.
Arguments jsAdd : simpl never.
Arguments jsSub : simpl never.
Arguments jsMul : simpl never.

Lemma find_by_optional_id (id : string) (l : list Product.t) :
  list_find (fun p => Some (Product._id p) = Some id) l =
  list_find (fun p => Product._id p = id) l.
Proof. apply list_find_ext. intros x. split; congruence. Qed.

(** Overwriting the element that [find] returns with another element that
    satisfies the predicate: [find] now returns the new element. *)
Lemma list_find_replace (P : Product.t -> Prop) `{!forall x, Decision (P x)}
    (l : list Product.t) i x y :
  list_find P l = Some (i, x) -> P y -> list_find P (<[i := y]> l) = Some (i, y).
Proof.
  intros Hfind Hy. apply list_find_Some in Hfind as (Hi & Hx & Hleast).
  apply list_find_insert_Some. right. left.
  split_and!; eauto using lookup_lt_Some.
Qed.

Lemma set_updatedAt_self p : Product.set_updatedAt (Product.updatedAt p) p = p.
Proof. by destruct p. Qed.

Lemma updateProductStatus_id p : Product._id (updateProductStatus p) = Product._id p.
Proof. unfold updateProductStatus. repeat case_match; reflexivity. Qed.

Lemma updateProductStatus_quantity p :
  Product.quantity (updateProductStatus p) = Product.quantity p.
Proof. unfold updateProductStatus. repeat case_match; reflexivity. Qed.

Lemma updateProductStatus_reorderPoint p :
  Product.reorderPoint (updateProductStatus p) = Product.reorderPoint p.
Proof. unfold updateProductStatus. repeat case_match; reflexivity. Qed.

Lemma updateProductStatus_lastRestocked p :
  Product.lastRestocked (updateProductStatus p) = Product.lastRestocked p.
Proof. unfold updateProductStatus. repeat case_match; reflexivity. Qed.

Lemma adjustQuantity_id type n p : Product._id (adjustQuantity type n p) = Product._id p.
Proof. unfold adjustQuantity. repeat case_match; reflexivity. Qed.

Lemma adjustQuantity_lastRestocked type n p :
  Product.lastRestocked (adjustQuantity type n p) = Product.lastRestocked p.
Proof. unfold adjustQuantity. repeat case_match; reflexivity. Qed.

Lemma restockedAt_id type t p : Product._id (restockedAt type t p) = Product._id p.
Proof. unfold restockedAt. case_match; reflexivity. Qed.

Lemma restockedAt_quantity type t p :
  Product.quantity (restockedAt type t p) = Product.quantity p.
Proof. unfold restockedAt. case_match; reflexivity. Qed.

Lemma moved_id type n t p : Product._id (moved type n t p) = Product._id p.
Proof.
  unfold moved. by rewrite updateProductStatus_id, restockedAt_id, adjustQuantity_id.
Qed.

Lemma moved_quantity type n t p :
  Product.quantity (moved type n t p) = Product.quantity (adjustQuantity type n p).
Proof. unfold moved. by rewrite updateProductStatus_quantity, restockedAt_quantity. Qed.

Lemma enumString_derived (p : Product.t) :
  enumString "status" statusEnum (Product.status (updateProductStatus p)) = [].
Proof.
  rewrite updateProductStatus_status. unfold enumString.
  destruct (jsIsZero _); [reflexivity|]. destruct (jsLe _ _); reflexivity.
Qed.

(** Casting to an ObjectId keeps the digits but for their case. *)
Lemma isHexDigit_lowerHexDigit (c : ascii) : isHexDigit (lowerHexDigit c) = isHexDigit c.
Proof. destruct c as [[] [] [] [] [] [] [] []]; reflexivity. Qed.

Lemma isObjectId_lowerHex (s : string) : isObjectId (lowerHex s) = isObjectId s.
Proof.
  unfold isObjectId. f_equal.
  - f_equal. induction s as [|c s IH]; [reflexivity|].
    unfold lowerHex; fold lowerHex. simpl. by rewrite IH.
  - induction s as [|c s IH]; [reflexivity|].
    unfold lowerHex; fold lowerHex. simpl. by rewrite IH, isHexDigit_lowerHexDigit.
Qed.

Lemma requiredString_parts path (v : option string) :
  requiredString path v = [] <-> missing path v = [] /\ emptyString path v = [].
Proof.
  destruct v as [s|]; simpl; [|split; [discriminate|intros [H _]; discriminate H]].
  destruct (String.eqb s EmptyString); split; try done. by intros [_ H].
Qed.

Lemma isNumber_parts path (v : jsnum) :
  isNumber v = true <-> missing path v = [] /\ castNumber path v = [].
Proof.
  destruct v as [x|]; simpl; [|split; [discriminate|intros [H _]; discriminate H]].
  destruct (isNaN x); split; try done. by intros [_ H].
Qed.

(** What it takes for a product document to pass validation. *)
Lemma productPaths_nil (p : Product.t) :
  productPaths p = [] <->
  requiredString "name" (Product.name p) = [] /\
  requiredString "sku" (Product.sku p) = [] /\
  requiredString "category" (Product.category p) = [] /\
  isNumber (Product.quantity p) = true /\
  isNumber (Product.reorderPoint p) = true /\
  isNumber (Product.unitPrice p) = true /\
  enumString "status" statusEnum (Product.status p) = [].
Proof.
  unfold productPaths. rewrite !app_nil, !requiredString_parts.
  rewrite (isNumber_parts "quantity"), (isNumber_parts "reorderPoint"),
    (isNumber_parts "unitPrice").
  tauto.
Qed.

(** A sum or a difference that is a number has numbers for operands. *)
Lemma isNumber_jsAdd (a b : jsnum) : isNumber (jsAdd a b) = true -> isNumber b = true.
Proof.
  unfold jsAdd, fadd. destruct a as [[]|], b as [[]|]; simpl; intros H;
    try reflexivity; try discriminate H.
Qed.

Lemma isNumber_jsSub (a b : jsnum) : isNumber (jsSub a b) = true -> isNumber b = true.
Proof.
  unfold jsSub, fsub. destruct a as [[]|], b as [[]|]; simpl; intros H;
    try reflexivity; try discriminate H.
Qed.

Lemma typeEnum_cases (type : string) :
  type ∈ typeEnum -> type = "IN" \/ type = "OUT" \/ type = "DAMAGE" \/ type = "RETURN".
Proof.
  unfold typeEnum. rewrite !elem_of_cons. intros [?|[?|[?|[?|H]]]]; auto.
  by apply elem_of_nil in H.
Qed.

Lemma adjustQuantity_in n p :
  adjustQuantity (Some "IN") n p = Product.set_quantity (jsAdd (Product.quantity p) n) p.
Proof. reflexivity. Qed.

Lemma adjustQuantity_return n p :
  adjustQuantity (Some "RETURN") n p = Product.set_quantity (jsAdd (Product.quantity p) n) p.
Proof. reflexivity. Qed.

Lemma adjustQuantity_out n p :
  adjustQuantity (Some "OUT") n p = Product.set_quantity (jsSub (Product.quantity p) n) p.
Proof. reflexivity. Qed.

Lemma adjustQuantity_damage n p :
  adjustQuantity (Some "DAMAGE") n p = Product.set_quantity (jsSub (Product.quantity p) n) p.
Proof. reflexivity. Qed.

(** A movement that leaves a number moved a number. *)
Lemma adjusted_number (type : string) (n : jsnum) (p : Product.t) :
  type ∈ typeEnum ->
  isNumber (Product.quantity (adjustQuantity (Some type) n p)) = true ->
  isNumber n = true.
Proof.
  intros [-> | [-> | [-> | ->]]]%typeEnum_cases.
  - rewrite adjustQuantity_in. apply isNumber_jsAdd.
  - rewrite adjustQuantity_out. apply isNumber_jsSub.
  - rewrite adjustQuantity_damage. apply isNumber_jsSub.
  - rewrite adjustQuantity_return. apply isNumber_jsAdd.
Qed.

(** A valid document stays valid under a stock movement that leaves its
    quantity a number. *)
Lemma productPaths_moved type n t p :
  productPaths p = [] ->
  isNumber (Product.quantity (adjustQuantity type n p)) = true ->
  productPaths (moved type n t p) = [].
Proof.
  rewrite !productPaths_nil. intros (Hn & Hs & Hc & Hq & Hr & Hu & _) Hnum.
  split_and!; try apply enumString_derived.
  4: by rewrite moved_quantity.
  all: unfold moved, updateProductStatus, restockedAt, adjustQuantity;
    repeat case_match; simpl; eauto.
Qed.

Lemma transactionPaths_ok id type n t notes by_ c u :
  type ∈ typeEnum -> isNumber n = true ->
  transactionPaths (Transaction.mk t (Some id) (Some type) n notes by_ c u) = [].
Proof.
  intros H Hn. unfold transactionPaths, enumString. simpl.
  rewrite bool_decide_eq_true_2 by done.
  destruct n as [x|]; [|discriminate Hn]. simpl in *.
  by destruct (isNaN x).
Qed.

(** The in-memory branch of [POST /api/transactions] on an existing
    product: the stored object itself becomes the moved product. *)
Lemma movement_in_memory (w : World) (body : TransactionBody.t) (id : string)
    (p : Product.t) :
  useInMemory w = true ->
  TransactionBody.productId body = Some id ->
  lookupProduct w id = Some p ->
  exists t p' u w',
    post_api_transactions body w = (res_status_json 201 (JMovement t p'), w') /\
    lookupProduct w' id = Some p' /\
    storedTransactions w' = storedTransactions w ++ [t] /\
    p' = Product.set_updatedAt u
           (moved (TransactionBody.type body) (TransactionBody.quantity body) (now w) p).
Proof.
  destruct_world w. destruct body as [pid type qty notes by_]. simpl.
  intros -> -> Hfind.
  unfold lookupProduct, storedId, storedProducts, storedTransactions in *.
  simpl in *.
  apply fmap_Some in Hfind as ([i p0] & Hfind & ->). simpl.
  pose proof Hfind as (_ & Hid & _)%list_find_Some.
  unfold_handlers. unfold_models. unfold_monad. simpl.
  rewrite find_by_optional_id, Hfind. simpl.
  pose proof (moved_id type qty (clk reads) p0) as Hmid.
  unfold moved, restockedAt, now in *. simpl.
  destruct (typeIs type "IN"); simpl.
  all: do 4 eexists; split; [reflexivity|]; simpl.
  all: erewrite list_find_replace; [|exact Hfind|simpl; congruence].
  all: split_and!; reflexivity.
Qed.

(** The persistent branch, when the backend accepts the three calls
    ([findById], [product.save()], [transaction.save()]), the stored
    documents are valid and the movement leaves a number. *)
Lemma movement_persistent (w : World) (body : TransactionBody.t) (id type : string)
    (p : Product.t) :
  useInMemory w = false ->
  backendAccepts w -> schemaValid w ->
  TransactionBody.productId body = Some id ->
  TransactionBody.type body = Some type -> type ∈ typeEnum ->
  lookupProduct w id = Some p ->
  isNumber (Product.quantity
              (adjustQuantity (Some type) (TransactionBody.quantity body) p)) = true ->
  exists t p' u w',
    post_api_transactions body w = (res_status_json 201 (JMovement t p'), w') /\
    lookupProduct w' id = Some p' /\
    storedTransactions w' = storedTransactions w ++ [t] /\
    p' = Product.set_updatedAt u (moved (Some type) (TransactionBody.quantity body) (now w) p).
Proof.
  destruct_world w. destruct body as [pid ty qty notes by_]. simpl.
  intros -> Hup Hvalid -> -> Hty Hfind Hnum.
  unfold lookupProduct, storedId, storedProducts, storedTransactions, backendAccepts,
    schemaValid in *.
  simpl in *.
  apply fmap_Some in Hfind as ([i p0] & Hfind & ->). simpl in Hnum |- *.
  pose proof Hfind as (Hi & Hid & _)%list_find_Some.
  assert (Hdoc : validDocument p0) by (eapply Forall_lookup_1; eauto).
  destruct Hdoc as [Hpaths Hoid]. rewrite Hid, isObjectId_lowerHex in Hoid.
  pose proof (Hup calls (le_n _)) as H0.
  pose proof (Hup (S calls) ltac:(lia)) as H1.
  pose proof (Hup (S (S calls)) ltac:(lia)) as H2.
  unfold_handlers. unfold_models. unfold_monad. simpl.
  rewrite Hoid. simpl. rewrite H0. simpl. rewrite Hfind. simpl.
  pose proof (productPaths_moved (Some type) qty (clk reads) p0 Hpaths Hnum) as Hmoved.
  pose proof (moved_id (Some type) qty (clk reads) p0) as Hmid.
  unfold moved, restockedAt, now in *. simpl.
  assert (Htx : forall t c u, transactionPaths
            (Transaction.mk t (Some (lowerHex id)) (Some type) qty
               (default EmptyString notes) (default "System" by_) c u) = []).
  { intros. apply transactionPaths_ok; [done|]. by eapply adjusted_number. }
  destruct (typeIs (Some type) "IN"); simpl.
  all: rewrite Hmoved; simpl; case_bool_decide as Hsame; simpl.
  all: rewrite H1; simpl; rewrite ?Hmid, ?Hid, ?Hfind; simpl.
  all: rewrite Htx; simpl; rewrite H2; simpl.
  all: do 4 eexists; split; [reflexivity|]; simpl.
  1,3: rewrite Hfind; simpl; split_and!;
         [by rewrite Hsame|reflexivity|symmetry; apply set_updatedAt_self].
  all: erewrite list_find_replace; [|exact Hfind|simpl; congruence].
  all: split_and!; reflexivity.
Qed.

(** Both branches together. *)
Lemma movement_applied (w : World) (body : TransactionBody.t) (id type : string)
    (p : Product.t) :
  serviceable w ->
  TransactionBody.productId body = Some id ->
  TransactionBody.type body = Some type -> type ∈ typeEnum ->
  lookupProduct w id = Some p ->
  (useInMemory w = false ->
   isNumber (Product.quantity
               (adjustQuantity (Some type) (TransactionBody.quantity body) p)) = true) ->
  exists t p' u,
    fst (post_api_transactions body w) = res_status_json 201 (JMovement t p') /\
    lookupProduct (snd (post_api_transactions body w)) id = Some p' /\
    storedTransactions (snd (post_api_transactions body w)) = storedTransactions w ++ [t] /\
    p' = Product.set_updatedAt u (moved (Some type) (TransactionBody.quantity body) (now w) p).
Proof.
  intros Hs Hid Hty Hin Hp Hnum. destruct (useInMemory w) eqn:Hmode.
  - destruct (movement_in_memory w body id p Hmode Hid Hp)
      as (t & p' & u & w' & Hrun & Hl & Ht & Heq).
    rewrite Hrun, <- Hty. simpl. eauto 10.
  - destruct (Hs Hmode) as [Hup Hvalid].
    destruct (movement_persistent w body id type p Hmode Hup Hvalid Hid Hty Hin Hp
                (Hnum eq_refl))
      as (t & p' & u & w' & Hrun & Hl & Ht & Heq).
    rewrite Hrun. simpl. eauto 10.
Qed.

Lemma moved_in_quantity n t p :
  Product.quantity (moved (Some "IN") n t p) = jsAdd (Product.quantity p) n.
Proof. by rewrite moved_quantity. Qed.

Lemma moved_in_lastRestocked n t p :
  Product.lastRestocked (moved (Some "IN") n t p) = Some t.
Proof. unfold moved. by rewrite updateProductStatus_lastRestocked. Qed.

Lemma moved_return_quantity n t p :
  Product.quantity (moved (Some "RETURN") n t p) = jsAdd (Product.quantity p) n.
Proof. by rewrite moved_quantity. Qed.

Lemma moved_return_lastRestocked n t p :
  Product.lastRestocked (moved (Some "RETURN") n t p) = Product.lastRestocked p.
Proof. unfold moved. by rewrite updateProductStatus_lastRestocked. Qed.

Lemma moved_out_quantity n t p :
  Product.quantity (moved (Some "OUT") n t p) = jsSub (Product.quantity p) n.
Proof. by rewrite moved_quantity. Qed.

Lemma moved_damage_quantity n t p :
  Product.quantity (moved (Some "DAMAGE") n t p) = jsSub (Product.quantity p) n.
Proof. by rewrite moved_quantity. Qed.

Lemma typeEnum_IN : "IN" ∈ typeEnum.
Proof. unfold typeEnum. rewrite !elem_of_cons. tauto. Qed.

Lemma typeEnum_OUT : "OUT" ∈ typeEnum.
Proof. unfold typeEnum. rewrite !elem_of_cons. tauto. Qed.

Lemma typeEnum_DAMAGE : "DAMAGE" ∈ typeEnum.
Proof. unfold typeEnum. rewrite !elem_of_cons. tauto. Qed.

Lemma typeEnum_RETURN : "RETURN" ∈ typeEnum.
Proof. unfold typeEnum. rewrite !elem_of_cons. tauto. Qed.

(** Sums and differences of whole numbers below [2 ^ 53]. *)
Lemma jsAdd_ofZ (a b : Z) :
  safe a -> safe b -> safe (a + b) -> jsAdd (Some (ofZ a)) (Some (ofZ b)) = Some (ofZ (a + b)).
Proof. intros Ha Hb Hab. unfold jsAdd. simpl. by rewrite fadd_ofZ. Qed.

Lemma jsSub_ofZ (a b : Z) :
  safe a -> safe b -> safe (a - b) -> jsSub (Some (ofZ a)) (Some (ofZ b)) = Some (ofZ (a - b)).
Proof. intros Ha Hb Hab. unfold jsSub. simpl. by rewrite fsub_ofZ. Qed.

Lemma jsAdd_undefined (n : jsnum) : jsAdd None n = Some S754_nan.
Proof. reflexivity. Qed.

Lemma jsSub_undefined (n : jsnum) : jsSub None n = Some S754_nan.
Proof. reflexivity. Qed.

(** The example worlds are serviceable. *)
Lemma memoryWorld_serviceable products transactions :
  serviceable (memoryWorld products transactions).
Proof. intros H. discriminate H. Defined.

Lemma stockItem_valid (id : string) (q r : Z) :
  safe q -> safe r -> productPaths (stockItem id q r) = [].
Proof.
  intros [_ Hq]%ofZ_exact [_ Hr]%ofZ_exact. apply productPaths_nil. simpl.
  assert (Hn : forall z v, exactValue (ofZ z) = Some v -> negb (isNaN (ofZ z)) = true).
  { intros z v H. by destruct (ofZ z). }
  split_and!; try reflexivity; eauto.
  destruct (q =? 0); [reflexivity|]. destruct (q <=? r); reflexivity.
Qed.

Lemma mongoWorld_serviceable q r transactions :
  safe q -> safe r ->
  serviceable (mongoWorld steadyEnv [stockItem oid1 q r] transactions).
Proof.
  intros Hq Hr _. split.
  - intros k _. reflexivity.
  - repeat constructor. by apply stockItem_valid.
Qed.

(** C2, as amended.  In both storage modes, an IN transaction of amount
    [n] on an existing product of quantity [q] answers 201 and leaves
    the product stored with the quantity [q + n] of double-precision
    arithmetic and with [lastRestocked] set to the time of the
    transaction.  The sum is the exact one when quantity, amount and sum
    are whole numbers below [2 ^ 53] in magnitude; it is [NaN] when the
    product has no quantity.  In persistent mode this is so whenever the
    backend accepts the calls and the sum is a number. *)
Theorem in_transaction_restocks (w : World) (body : TransactionBody.t) (id : string)
    (p : Product.t) :
  serviceable w ->
  lookupProduct w id = Some p ->
  TransactionBody.productId body = Some id ->
  TransactionBody.type body = Some "IN" ->
  (useInMemory w = false ->
   isNumber (jsAdd (Product.quantity p) (TransactionBody.quantity body)) = true) ->
  exists t p',
    fst (post_api_transactions body w) = res_status_json 201 (JMovement t p') /\
    lookupProduct (snd (post_api_transactions body w)) id = Some p' /\
    Product.quantity p' = jsAdd (Product.quantity p) (TransactionBody.quantity body) /\
    Product.lastRestocked p' = Some (now w) /\
    (forall a b,
       Product.quantity p = Some (ofZ a) -> TransactionBody.quantity body = Some (ofZ b) ->
       safe a -> safe b -> safe (a + b) ->
       Product.quantity p' = Some (ofZ (a + b))) /\
    (Product.quantity p = None -> Product.quantity p' = Some S754_nan).
Proof.
  intros Hs Hp Hid Hty Hnum.
  destruct (movement_applied w body id "IN" p Hs Hid Hty typeEnum_IN Hp Hnum)
    as (t & p' & u & Hr & Hl & _ & ->).
  eexists t, _. split_and!; [exact Hr|exact Hl| | | |]; simpl.
  - apply moved_in_quantity.
  - apply moved_in_lastRestocked.
  - intros a b Hq Hn Ha Hb Hab. rewrite moved_in_quantity, Hq, Hn. by apply jsAdd_ofZ.
  - intros Hq. rewrite moved_in_quantity, Hq. apply jsAdd_undefined.
Qed.

Lemma in_transaction_restocks_witness :
  let w := mongoWorld steadyEnv [stockItem oid1 5 10] [] in
  let body := TransactionBody.mk (Some oid1) (Some "IN") (Some (ofZ 20)) None None in
  (Product.quantity <$> lookupProduct w oid1) = Some (Some (ofZ 5)) /\
  (Product.quantity <$> lookupProduct (snd (post_api_transactions body w)) oid1)
    = Some (Some (ofZ 25)) /\
  (Product.lastRestocked <$> lookupProduct (snd (post_api_transactions body w)) oid1)
    = Some (Some 1000).
Proof.
  intros w body. split; [reflexivity|].
  destruct (in_transaction_restocks w body oid1 (stockItem oid1 5 10)
              (mongoWorld_serviceable 5 10 [] eq_refl eq_refl) eq_refl eq_refl eq_refl
              (fun _ => eq_refl))
    as (t & p' & _ & Hl & _ & Hlr & Hq & _).
  rewrite Hl. simpl. rewrite Hlr, (Hq 5 20 eq_refl eq_refl eq_refl eq_refl eq_refl).
  split; reflexivity.
Defined.

(** C2, as the specification states it, fails where doubles end.  An IN
    of 1 on a product of quantity [2 ^ 53] is answered 201 and leaves
    the quantity at [2 ^ 53]; an IN of 5 on a product created without a
    quantity (in-memory mode sets no default) is answered 201 and leaves
    [NaN]. *)
Lemma in_transaction_not_exact :
  let w := memoryWorld [stockItem "1" (2 ^ 53) 10] [] in
  let one := TransactionBody.mk (Some "1") (Some "IN") (Some (ofZ 1)) None None in
  let q' := Product.quantity <$> lookupProduct (snd (post_api_transactions one w)) "1" in
  let bare := snd (post_api_products ProductBody.empty (memoryWorld [] [])) in
  let five := TransactionBody.mk (Some "1") (Some "IN") (Some (ofZ 5)) None None in
  isInteger (Some (ofZ (2 ^ 53))) (2 ^ 53) /\ isInteger (Some (ofZ 1)) 1 /\
  (Product.quantity <$> lookupProduct w "1") = Some (Some (ofZ (2 ^ 53))) /\
  statusCode (fst (post_api_transactions one w)) = 201 /\
  q' = Some (Some (ofZ (2 ^ 53))) /\
  ~ increasedBy (Some (ofZ 1)) (Some (ofZ (2 ^ 53))) (Some (ofZ (2 ^ 53))) /\
  (Product.quantity <$> lookupProduct bare "1") = Some None /\
  statusCode (fst (post_api_transactions five bare)) = 201 /\
  (Product.quantity <$> lookupProduct (snd (post_api_transactions five bare)) "1")
    = Some (Some S754_nan).
Proof.
  intros w one q' bare five.
  assert (Hbig : isInteger (Some (ofZ (2 ^ 53))) (2 ^ 53)).
  { eexists. split; [reflexivity|]. vm_compute. reflexivity. }
  assert (Hone : isInteger (Some (ofZ 1)) 1).
  { eexists. split; [reflexivity|]. vm_compute. reflexivity. }
  split_and!; try exact Hbig; try exact Hone; try (vm_compute; reflexivity).
  intros Hinc. destruct (Hinc _ _ Hbig Hone) as (x & [= <-] & Hx).
  vm_compute in Hx. discriminate Hx.
Qed.

(** C3, as amended.  An OUT or DAMAGE transaction of amount [n] on an
    existing product of quantity [q] leaves it stored with the quantity
    [q - n] of double-precision arithmetic: nothing clamps the result.
    The difference is the exact one when quantity, amount and difference
    are whole numbers below [2 ^ 53] in magnitude, and it is then
    negative whenever the amount exceeds the quantity; it is [NaN] when
    the product has no quantity.  In persistent mode this is so whenever
    the backend accepts the calls and the difference is a number. *)
Theorem out_transaction_subtracts (w : World) (body : TransactionBody.t) (id : string)
    (p : Product.t) :
  serviceable w ->
  lookupProduct w id = Some p ->
  TransactionBody.productId body = Some id ->
  TransactionBody.type body = Some "OUT" \/ TransactionBody.type body = Some "DAMAGE" ->
  (useInMemory w = false ->
   isNumber (jsSub (Product.quantity p) (TransactionBody.quantity body)) = true) ->
  exists t p',
    fst (post_api_transactions body w) = res_status_json 201 (JMovement t p') /\
    lookupProduct (snd (post_api_transactions body w)) id = Some p' /\
    Product.quantity p' = jsSub (Product.quantity p) (TransactionBody.quantity body) /\
    (forall a b,
       Product.quantity p = Some (ofZ a) -> TransactionBody.quantity body = Some (ofZ b) ->
       safe a -> safe b -> safe (a - b) ->
       Product.quantity p' = Some (ofZ (a - b)) /\
       (a < b -> SFltb (ofZ (a - b)) zero = true)) /\
    (Product.quantity p = None -> Product.quantity p' = Some S754_nan).
Proof.
  intros Hs Hp Hid Hty Hnum.
  assert (Hfacts : forall q' : jsnum,
    q' = jsSub (Product.quantity p) (TransactionBody.quantity body) ->
    (forall a b,
       Product.quantity p = Some (ofZ a) -> TransactionBody.quantity body = Some (ofZ b) ->
       safe a -> safe b -> safe (a - b) ->
       q' = Some (ofZ (a - b)) /\ (a < b -> SFltb (ofZ (a - b)) zero = true)) /\
    (Product.quantity p = None -> q' = Some S754_nan)).
  { intros q' ->. split.
    - intros a b Hq Hn Ha Hb Hab. rewrite Hq, Hn. split; [by apply jsSub_ofZ|].
      intros Hlt. unfold SFltb.
      change zero with (ofZ 0). rewrite compare_ofZ by (done || reflexivity).
      by rewrite (proj2 (Z.compare_lt_iff (a - b) 0)) by lia.
    - intros Hq. rewrite Hq. apply jsSub_undefined. }
  destruct Hty as [Hty|Hty].
  - destruct (movement_applied w body id "OUT" p Hs Hid Hty typeEnum_OUT Hp Hnum)
      as (t & p' & u & Hr & Hl & _ & ->).
    eexists t, _. split; [exact Hr|]. split; [exact Hl|]. simpl.
    split; [apply moved_out_quantity|]. apply Hfacts, moved_out_quantity.
  - destruct (movement_applied w body id "DAMAGE" p Hs Hid Hty typeEnum_DAMAGE Hp Hnum)
      as (t & p' & u & Hr & Hl & _ & ->).
    eexists t, _. split; [exact Hr|]. split; [exact Hl|]. simpl.
    split; [apply moved_damage_quantity|]. apply Hfacts, moved_damage_quantity.
Qed.

Lemma out_transaction_subtracts_witness :
  let w := memoryWorld [stockItem "1" 5 10] [] in
  let body := TransactionBody.mk (Some "1") (Some "OUT") (Some (ofZ 8)) None None in
  (Product.quantity <$> lookupProduct w "1") = Some (Some (ofZ 5)) /\
  (Product.quantity <$> lookupProduct (snd (post_api_transactions body w)) "1")
    = Some (Some (ofZ (-3))) /\
  SFltb (ofZ (-3)) zero = true.
Proof.
  intros w body. split; [reflexivity|].
  destruct (out_transaction_subtracts w body "1" (stockItem "1" 5 10)
              (memoryWorld_serviceable _ _) eq_refl eq_refl
              (or_introl eq_refl) (fun H : true = false => False_ind _ (eq_true_false_abs _ eq_refl H)))
    as (t & p' & _ & Hl & _ & Hq & _).
  rewrite Hl. simpl.
  destruct (Hq 5 8 eq_refl eq_refl eq_refl eq_refl eq_refl) as [-> Hneg].
  split; [reflexivity|]. apply Hneg. lia.
Defined.

(** C3, as the specification states it, fails where doubles end: an OUT
    of 1 on a product of quantity [- 2 ^ 53] is answered 201 and leaves
    the quantity at [- 2 ^ 53]; an OUT on a product created without a
    quantity leaves [NaN]. *)
Lemma out_transaction_not_exact :
  let w := memoryWorld [stockItem "1" (- 2 ^ 53) 10] [] in
  let one := TransactionBody.mk (Some "1") (Some "OUT") (Some (ofZ 1)) None None in
  let bare := snd (post_api_products ProductBody.empty (memoryWorld [] [])) in
  let five := TransactionBody.mk (Some "1") (Some "DAMAGE") (Some (ofZ 5)) None None in
  isInteger (Some (ofZ (- 2 ^ 53))) (- 2 ^ 53) /\ isInteger (Some (ofZ 1)) 1 /\
  (Product.quantity <$> lookupProduct w "1") = Some (Some (ofZ (- 2 ^ 53))) /\
  statusCode (fst (post_api_transactions one w)) = 201 /\
  (Product.quantity <$> lookupProduct (snd (post_api_transactions one w)) "1")
    = Some (Some (ofZ (- 2 ^ 53))) /\
  ~ decreasedBy (Some (ofZ 1)) (Some (ofZ (- 2 ^ 53))) (Some (ofZ (- 2 ^ 53))) /\
  statusCode (fst (post_api_transactions five bare)) = 201 /\
  (Product.quantity <$> lookupProduct (snd (post_api_transactions five bare)) "1")
    = Some (Some S754_nan).
Proof.
  intros w one bare five.
  assert (Hbig : isInteger (Some (ofZ (- 2 ^ 53))) (- 2 ^ 53)).
  { eexists. split; [reflexivity|]. vm_compute. reflexivity. }
  assert (Hone : isInteger (Some (ofZ 1)) 1).
  { eexists. split; [reflexivity|]. vm_compute. reflexivity. }
  split_and!; try exact Hbig; try exact Hone; try (vm_compute; reflexivity).
  intros Hdec. destruct (Hdec _ _ Hbig Hone) as (x & [= <-] & Hx).
  vm_compute in Hx. discriminate Hx.
Qed.

(** C4, as amended.  A RETURN transaction of amount [n] on an existing
    product of quantity [q] leaves it stored with the quantity [q + n]
    of double-precision arithmetic (the exact sum for whole numbers
    below [2 ^ 53] in magnitude, [NaN] when the product has no
    quantity) and with the [lastRestocked] it had.  In persistent mode
    this is so whenever the backend accepts the calls and the sum is a
    number. *)
Theorem return_transaction_keeps_lastRestocked (w : World) (body : TransactionBody.t)
    (id : string) (p : Product.t) :
  serviceable w ->
  lookupProduct w id = Some p ->
  TransactionBody.productId body = Some id ->
  TransactionBody.type body = Some "RETURN" ->
  (useInMemory w = false ->
   isNumber (jsAdd (Product.quantity p) (TransactionBody.quantity body)) = true) ->
  exists t p',
    fst (post_api_transactions body w) = res_status_json 201 (JMovement t p') /\
    lookupProduct (snd (post_api_transactions body w)) id = Some p' /\
    Product.quantity p' = jsAdd (Product.quantity p) (TransactionBody.quantity body) /\
    Product.lastRestocked p' = Product.lastRestocked p /\
    (forall a b,
       Product.quantity p = Some (ofZ a) -> TransactionBody.quantity body = Some (ofZ b) ->
       safe a -> safe b -> safe (a + b) ->
       Product.quantity p' = Some (ofZ (a + b))) /\
    (Product.quantity p = None -> Product.quantity p' = Some S754_nan).
Proof.
  intros Hs Hp Hid Hty Hnum.
  destruct (movement_applied w body id "RETURN" p Hs Hid Hty typeEnum_RETURN Hp Hnum)
    as (t & p' & u & Hr & Hl & _ & ->).
  eexists t, _. split_and!; [exact Hr|exact Hl| | | |]; simpl.
  - apply moved_return_quantity.
  - apply moved_return_lastRestocked.
  - intros a b Hq Hn Ha Hb Hab. rewrite moved_return_quantity, Hq, Hn. by apply jsAdd_ofZ.
  - intros Hq. rewrite moved_return_quantity, Hq. apply jsAdd_undefined.
Qed.

Lemma return_transaction_keeps_lastRestocked_witness :
  let w := mongoWorld steadyEnv [stockItem oid1 5 10] [] in
  let body := TransactionBody.mk (Some oid1) (Some "RETURN") (Some (ofZ 2)) None None in
  (Product.lastRestocked <$> lookupProduct w oid1) = Some (Some 900) /\
  (Product.quantity <$> lookupProduct (snd (post_api_transactions body w)) oid1)
    = Some (Some (ofZ 7)) /\
  (Product.lastRestocked <$> lookupProduct (snd (post_api_transactions body w)) oid1)
    = Some (Some 900).
Proof.
  intros w body. split; [reflexivity|].
  destruct (return_transaction_keeps_lastRestocked w body oid1 (stockItem oid1 5 10)
              (mongoWorld_serviceable 5 10 [] eq_refl eq_refl) eq_refl eq_refl eq_refl
              (fun _ => eq_refl))
    as (t & p' & _ & Hl & _ & Hlr & Hq & _).
  rewrite Hl. simpl. rewrite Hlr, (Hq 5 2 eq_refl eq_refl eq_refl eq_refl eq_refl).
  split; reflexivity.
Defined.

(** C4, as the specification states it, fails where doubles end: a
    RETURN of 1 on a product of quantity [2 ^ 53] is answered 201 and
    leaves the quantity at [2 ^ 53] (the [lastRestocked] is kept). *)
Lemma return_transaction_not_exact :
  let w := memoryWorld [stockItem "1" (2 ^ 53) 10] [] in
  let one := TransactionBody.mk (Some "1") (Some "RETURN") (Some (ofZ 1)) None None in
  let p' := lookupProduct (snd (post_api_transactions one w)) "1" in
  isInteger (Some (ofZ (2 ^ 53))) (2 ^ 53) /\ isInteger (Some (ofZ 1)) 1 /\
  (Product.quantity <$> lookupProduct w "1") = Some (Some (ofZ (2 ^ 53))) /\
  statusCode (fst (post_api_transactions one w)) = 201 /\
  Product.quantity <$> p' = Some (Some (ofZ (2 ^ 53))) /\
  Product.lastRestocked <$> p' = Some (Some 900) /\
  ~ increasedBy (Some (ofZ 1)) (Some (ofZ (2 ^ 53))) (Some (ofZ (2 ^ 53))).
Proof.
  intros w one p'.
  assert (Hbig : isInteger (Some (ofZ (2 ^ 53))) (2 ^ 53)).
  { eexists. split; [reflexivity|]. vm_compute. reflexivity. }
  assert (Hone : isInteger (Some (ofZ 1)) 1).
  { eexists. split; [reflexivity|]. vm_compute. reflexivity. }
  split_and!; try exact Hbig; try exact Hone; try (vm_compute; reflexivity).
  intros Hinc. destruct (Hinc _ _ Hbig Hone) as (x & [= <-] & Hx).
  vm_compute in Hx. discriminate Hx.
Qed.

(** ** Listing transactions *)

Lemma dateLe_trans a b c : dateLe a b -> dateLe b c -> dateLe a c.
Proof. destruct a, b, c; simpl; try tauto. lia. Qed.

Lemma dateLe_total a b : dateLe a b \/ dateLe b a.
Proof. destruct a, b; simpl; try tauto. lia. Qed.

#[local] Instance newestFirst_transitive {A} (createdAt : A -> option Z) :
  Transitive (newestFirst createdAt).
Proof. intros a b c Hab Hbc. unfold newestFirst in *. eauto using dateLe_trans. Qed.

#[local] Instance newestFirst_total {A} (createdAt : A -> option Z) :
  Total (newestFirst createdAt).
Proof. intros a b. unfold newestFirst. apply dateLe_total. Qed.

(** The first [limit] documents of the sorted collection are what the
    specification asks for. *)
Lemma take_sorted_recentFirst (limit : nat) (stored : list Transaction.t) :
  recentFirst limit stored
    (take limit (merge_sort (newestFirst Transaction.createdAt) stored)).
Proof.
  set (sorted := merge_sort (newestFirst Transaction.createdAt) stored).
  assert (Hperm : sorted ≡ₚ stored) by apply merge_sort_Permutation.
  assert (Hsorted : StronglySorted (newestFirst Transaction.createdAt) sorted)
    by (apply StronglySorted_merge_sort; apply _).
  rewrite <- (take_drop limit sorted) in Hsorted.
  apply StronglySorted_app in Hsorted as (Hcross & Hfirst & _).
  split_and!.
  - by rewrite length_take, (Permutation_length Hperm).
  - exact Hfirst.
  - exists (drop limit sorted). split; [|exact Hcross].
    by rewrite take_drop.
Qed.

(** C5, as amended.  In persistent mode, when the backend answers,
    [GET /api/transactions] returns at most 100 transactions, the most
    recent ones, newest first, each with its product resolved; in
    in-memory mode it returns every stored transaction, in the order of
    the array. *)
Theorem get_api_transactions_lists (w : World) :
  (useInMemory w = true ->
   get_api_transactions w = (res_json (JTransactions (inMemoryTransactions w)), w)) /\
  (useInMemory w = false ->
   rejects (env w) (awaited (env w)) = None ->
   exists l,
     fst (get_api_transactions w) = res_json (JPopulated l) /\
     (length l <= 100)%nat /\
     recentFirst 100 (transactionDocs (db w)) (fst <$> l) /\
     Forall (fun tp => snd tp = snd <$> list_find
               (fun d => Some (Product._id d) = Transaction.productId (fst tp))
               (productDocs (db w))) l).
Proof.
  destruct_world w. simpl. split; intros ->.
  - reflexivity.
  - intros Hup. unfold_handlers. unfold_models. unfold_monad. simpl. rewrite Hup. simpl.
    eexists. split; [reflexivity|].
    rewrite <- list_fmap_compose, list_fmap_id.
    split_and!.
    + rewrite length_fmap, length_take. lia.
    + apply take_sorted_recentFirst.
    + apply Forall_fmap, Forall_true. intros t. reflexivity.
Qed.

Lemma get_api_transactions_lists_witness :
  let w := mongoWorld steadyEnv []
             [documentAt "0000000000000000000000b1" 10;
              documentAt "0000000000000000000000b2" 30;
              documentAt "0000000000000000000000b3" 20] in
  rejects (env w) (awaited (env w)) = None /\
  (Transaction.createdAt <$> listedTransactions (fst (get_api_transactions w)))
    = [Some 30; Some 20; Some 10] /\
  recentFirst 100 (transactionDocs (db w))
    (listedTransactions (fst (get_api_transactions w))).
Proof.
  intros w. split; [reflexivity|]. split; [reflexivity|].
  destruct (get_api_transactions_lists w) as [_ H].
  destruct (H eq_refl eq_refl) as (l & Hr & _ & Hrecent & _).
  unfold listedTransactions. rewrite Hr. exact Hrecent.
Defined.

(** C5, as the specification states it, fails in in-memory mode: the
    array is returned whole and in insertion order.  Two transactions
    come back oldest first, and 101 transactions come back all. *)
Lemma in_memory_listing_not_recentFirst :
  let w := memoryWorld [] [movementAt "1" 10; movementAt "2" 20] in
  let many := memoryWorld [] (replicate 101 (movementAt "1" 10)) in
  listedTransactions (fst (get_api_transactions w)) = [movementAt "1" 10; movementAt "2" 20] /\
  ~ recentFirst 100 (storedTransactions w) (listedTransactions (fst (get_api_transactions w))) /\
  length (listedTransactions (fst (get_api_transactions many))) = 101%nat /\
  ~ recentFirst 100 (storedTransactions many)
      (listedTransactions (fst (get_api_transactions many))).
Proof.
  intros w many. split; [reflexivity|]. split; [|split; [reflexivity|]].
  - intros (_ & Hsorted & _). simpl in Hsorted.
    apply StronglySorted_cons in Hsorted as [Hfirst _].
    apply Forall_cons in Hfirst as [Hle _].
    unfold newestFirst in Hle. simpl in Hle. lia.
  - intros (Hlen & _). vm_compute in Hlen. discriminate Hlen.
Qed.

(** ** Failures *)

(** Each handler is its [try] block followed by its [catch] clause. *)
Lemma handle_value (req : Request) (w w' : World) (r : Response) :
  attempt req w = (Value r, w') -> handle req w = (r, w').
Proof.
  destruct req; simpl; unfold_handlers; unfold tryCatch.
  1: unfold get_api_health; simpl; congruence.
  all: intros ->; reflexivity.
Qed.

(** In in-memory mode no handler throws. *)
Lemma in_memory_never_throws (req : Request) (w : World) :
  useInMemory w = true -> exists r w', attempt req w = (Value r, w').
Proof.
  destruct_world w. simpl. intros ->.
  destruct req; simpl.
  10: { match goal with |- exists r w', ?run = _ =>
          let v := eval vm_compute in run in
          match v with
          | (Value ?r, ?w') => exists r, w'; vm_cast_no_check (eq_refl v)
          end
        end. }
  all: unfold_handlers; unfold_models; unfold_monad; simpl;
    try (repeat case_match; simpl; eauto; fail).
  destruct body as [pid type qty notes by_]. simpl.
  destruct (list_find _ products) as [[i p]|]; simpl; [|eauto].
  destruct (typeIs type "IN"); simpl; eauto.
Qed.

(** C6, as amended.  Every failure of a product operation is answered
    by the [catch] clause of its handler with the handler's one status
    and the message of the error, whatever the kind of the error: 400
    for create and update, 500 for list, get by id and delete.  The state
    is the one the [try] block left. *)
Theorem failure_signalled_by_route (req : Request) (w w' : World) (e : Error) :
  isProductOperation req = true ->
  attempt req w = (Thrown e, w') ->
  exists m,
    handle req w = (res_status_json (failureStatus req) (JError m (message e)), w').
Proof.
  intros Hop Hthrown.
  destruct req; try discriminate Hop; simpl in *;
    unfold_handlers; unfold tryCatch; rewrite Hthrown; eauto.
Qed.

Lemma failure_signalled_by_route_witness :
  let w := mongoWorld steadyEnv [] [] in
  let req := POST_products ProductBody.empty in
  exists e w',
    attempt req w = (Thrown e, w') /\
    invalidInput e /\
    handle req w =
      (res_status_json 400 (JError "Error creating product" (message e)), w') /\
    message e =
      "Product validation failed: unitPrice: Path `unitPrice` is required., category: Path `category` is required., sku: Path `sku` is required., name: Path `name` is required.".
Proof.
  intros w req.
  destruct (attempt req w) as [[r|e] w'] eqn:Hrun; [discriminate Hrun|].
  exists e, w'. split; [reflexivity|].
  destruct (failure_signalled_by_route req w w' e eq_refl Hrun) as [m Hm].
  injection Hrun as <- <-.
  split; [left; reflexivity|]. split; reflexivity.
Defined.

(** C6, as the specification states it, fails both ways.  A create
    request that the backend rejects is answered with 400, not 500; a
    get-by-id request whose id is no ObjectId (invalid input) is
    answered with 500, not 400. *)
Lemma failures_not_signalled_as_specified :
  let down := mongoWorld (failingEnv 0) [] [] in
  let create := POST_products (ProductBody.mk (Some "Nails") (Some "NL-001")
                  (Some "Hardware") (Some (ofZ 5)) (Some (ofZ 10)) (Some (ofZ 4))
                  None None None None) in
  let up := mongoWorld steadyEnv [] [] in
  let get := GET_products_id "42" in
  (exists e w', attempt create down = (Thrown e, w') /\ backendFailure e /\
                statusCode (fst (handle create down)) = 400) /\
  ~ signalsAsSpecified create down /\
  (exists e w', attempt get up = (Thrown e, w') /\ invalidInput e /\
                statusCode (fst (handle get up)) = 500) /\
  ~ signalsAsSpecified get up.
Proof.
  intros down create up get.
  assert (Hc : exists e w', attempt create down = (Thrown e, w') /\ backendFailure e /\
                statusCode (fst (handle create down)) = 400).
  { destruct (attempt create down) as [[r|e] w'] eqn:Hrun; [discriminate Hrun|].
    exists e, w'. split; [reflexivity|]. injection Hrun as <- <-.
    split; reflexivity. }
  assert (Hg : exists e w', attempt get up = (Thrown e, w') /\ invalidInput e /\
                statusCode (fst (handle get up)) = 500).
  { destruct (attempt get up) as [[r|e] w'] eqn:Hrun; [discriminate Hrun|].
    exists e, w'. split; [reflexivity|]. injection Hrun as <- <-.
    split; [right|]; reflexivity. }
  split_and!; [exact Hc| |exact Hg|].
  - destruct Hc as (e & w' & Hrun & Hkind & Hcode). intros Hspec.
    destruct (Hspec e w' Hrun) as [_ H500]. specialize (H500 Hkind).
    rewrite Hcode in H500. discriminate H500.
  - destruct Hg as (e & w' & Hrun & Hkind & Hcode). intros Hspec.
    destruct (Hspec e w' Hrun) as [H400 _]. destruct (H400 Hkind) as [m Hm].
    rewrite Hm in Hcode. discriminate Hcode.
Qed.

(** ** Analytics *)

Lemma sumOfAmounts_bound (amounts : list (Z * Z)) :
  Z.abs (sumOfAmounts amounts) <= sumOfMagnitudes amounts.
Proof. induction amounts as [|[q u] rest IH]; simpl; lia. Qed.

Lemma isInteger_ofZ (z : Z) : safe z -> isInteger (Some (ofZ z)) z.
Proof. intros [_ H]%ofZ_exact. eexists. by split. Qed.

(** The running total of [reduce] over a catalog of whole quantities
    and prices, while the magnitudes add up to less than [2 ^ 53]: every
    product and every partial sum is exact. *)
Lemma fold_left_total (products : list Product.t) (amounts : list (Z * Z)) (t : Z) :
  hasAmounts products amounts ->
  Forall (fun qu => safe (fst qu) /\ safe (snd qu)) amounts ->
  Z.abs t + sumOfMagnitudes amounts < 2 ^ 53 ->
  fold_left (fun sum p => jsAdd sum (stockValue p)) products (Some (ofZ t)) =
  Some (ofZ (t + sumOfAmounts amounts)).
Proof.
  intros H. revert t.
  induction H as [|p [q u] ps qs [Hq Hu] Hrest IH]; intros t Hsafe Hbound.
  - simpl. by rewrite Z.add_0_r.
  - apply Forall_cons in Hsafe as [[Sq Su] Hsafe]. simpl in *.
    pose proof (sumOfAmounts_bound qs) as Hqs.
    assert (Hstep : jsAdd (Some (ofZ t)) (stockValue p) = Some (ofZ (t + q * u))).
    { unfold stockValue. rewrite Hq, Hu. unfold jsAdd, jsMul. simpl.
      rewrite fadd_fmul_ofZ; unfold safe in *; try done; lia. }
    rewrite Hstep, IH by (try done; lia). do 2 f_equal. lia.
Qed.

(** C7, as amended.  In both storage modes (persistent mode: when the
    backend answers) the analytics endpoint reports as [totalProducts]
    the number of stored products and as [totalValue] what adding up
    quantity times unit price in double-precision arithmetic gives,
    product after product from 0 in the order of the list.  This is the
    sum itself when quantities and prices are whole numbers below
    [2 ^ 53] whose products add up, in magnitude, to less than [2 ^ 53].
    The request changes no product. *)
Theorem analytics_totals (w : World) :
  (useInMemory w = false -> rejects (env w) (awaited (env w)) = None) ->
  exists a,
    fst (get_api_analytics w) = res_json (JAnalytics a) /\
    totalValue a =
      fold_left (fun sum p => jsAdd sum (jsMul (Product.quantity p) (Product.unitPrice p)))
        (storedProducts w) (Some zero) /\
    totalProducts a = length (storedProducts w) /\
    storedProducts (snd (get_api_analytics w)) = storedProducts w /\
    forall amounts,
      hasAmounts (storedProducts w) amounts ->
      Forall (fun qu => safe (fst qu) /\ safe (snd qu)) amounts ->
      sumOfMagnitudes amounts < 2 ^ 53 ->
      totalValue a = Some (ofZ (sumOfAmounts amounts)) /\
      isInteger (totalValue a) (sumOfAmounts amounts).
Proof.
  destruct_world w. unfold storedProducts. simpl. intros Hup.
  assert (Hsum : forall l amounts,
    hasAmounts l amounts ->
    Forall (fun qu => safe (fst qu) /\ safe (snd qu)) amounts ->
    sumOfMagnitudes amounts < 2 ^ 53 ->
    totalValue (analyticsOf l) = Some (ofZ (sumOfAmounts amounts)) /\
    isInteger (totalValue (analyticsOf l)) (sumOfAmounts amounts)).
  { intros l amounts Hl Hsafe Hbound. pose proof (sumOfAmounts_bound amounts) as Hb.
    assert (Heq : totalValue (analyticsOf l) = Some (ofZ (sumOfAmounts amounts))).
    { unfold analyticsOf. simpl. change zero with (ofZ 0).
      by rewrite (fold_left_total l amounts 0 Hl Hsafe). }
    split; [exact Heq|]. rewrite Heq. apply isInteger_ofZ. unfold safe. lia. }
  unfold_handlers. unfold_models. unfold_monad. simpl.
  destruct inMemory; simpl.
  - eexists. split; [reflexivity|]. split_and!; try reflexivity. apply Hsum.
  - rewrite (Hup eq_refl). simpl.
    eexists. split; [reflexivity|]. split_and!; try reflexivity. apply Hsum.
Qed.

Lemma analytics_totals_witness :
  let w := mongoWorld steadyEnv [stockItem oid1 5 10; stockItem "0000000000000000000000a2" 30 10] [] in
  (useInMemory w = false -> rejects (env w) (awaited (env w)) = None) /\
  exists a,
    fst (get_api_analytics w) = res_json (JAnalytics a) /\
    totalValue a = Some (ofZ 140) /\ totalProducts a = 2%nat.
Proof.
  intros w.
  assert (Hup : useInMemory w = false -> rejects (env w) (awaited (env w)) = None)
    by (intros _; reflexivity).
  split; [exact Hup|].
  destruct (analytics_totals w Hup) as (a & Hr & _ & Hn & _ & Hv).
  exists a. split; [exact Hr|]. split; [|exact Hn].
  apply (Hv [(5, 4); (30, 4)]).
  - repeat constructor.
  - repeat constructor.
  - reflexivity.
Defined.

(** C7, as the specification states it, fails where doubles end.  Three
    products of quantities [2 ^ 53], 1 and 1 at unit price 1 are worth
    [2 ^ 53 + 2], which is a double; the endpoint reports [2 ^ 53],
    since each 1 is lost when it is added to the running total.  Listed
    in another order the same products are reported at [2 ^ 53 + 2]: the
    reported total depends on the order of the list. *)
Lemma totalValue_not_the_sum :
  let item id q :=
    Product.mk id (Some "Bolt") (Some id) (Some "Hardware") (Some (ofZ q)) (Some (ofZ 10))
      (Some (ofZ 1)) None None None (Some InStock) (Some 900) (Some 900) in
  let amounts := [(2 ^ 53, 1); (1, 1); (1, 1)] in
  let w := memoryWorld [item "1" (2 ^ 53); item "2" 1; item "3" 1] [] in
  let w' := memoryWorld [item "2" 1; item "3" 1; item "1" (2 ^ 53)] [] in
  hasAmounts (storedProducts w) amounts /\
  sumOfAmounts amounts = 2 ^ 53 + 2 /\
  isInteger (Some (ofZ (2 ^ 53 + 2))) (2 ^ 53 + 2) /\
  storedProducts w ≡ₚ storedProducts w' /\
  exists a a',
    fst (get_api_analytics w) = res_json (JAnalytics a) /\
    fst (get_api_analytics w') = res_json (JAnalytics a') /\
    totalValue a = Some (ofZ (2 ^ 53)) /\
    ~ isInteger (totalValue a) (sumOfAmounts amounts) /\
    totalValue a' = Some (ofZ (2 ^ 53 + 2)).
Proof.
  intros item amounts w w'.
  split; [repeat constructor|]. split; [reflexivity|].
  split; [eexists; split; [reflexivity|vm_compute; reflexivity]|].
  split.
  { unfold w, w', memoryWorld, storedProducts. simpl.
    apply (Permutation_cons_append [item "2" 1; item "3" 1]). }
  eexists _, _. split; [reflexivity|]. split; [reflexivity|].
  split; [vm_compute; reflexivity|]. split; [|vm_compute; reflexivity].
  intros (x & Hx & Hv). vm_compute in Hx. injection Hx as <-.
  vm_compute in Hv. discriminate Hv.
Qed.

(** ** Seeding *)



(** ** The status invariant *)

Lemma isHexDigit_hexDigit (m : nat) : isHexDigit (hexDigit m) = true.
Proof. do 16 (destruct m as [|m]; [reflexivity|]). reflexivity. Qed.

Lemma append_hexDigit (s : string) (c : ascii) :
  forallb isHexDigit (list_ascii_of_string s) = true ->
  isHexDigit c = true ->
  String.length (s +:+ String c EmptyString) = S (String.length s) /\
  forallb isHexDigit (list_ascii_of_string (s +:+ String c EmptyString)) = true.
Proof.
  intros Hs Hc. induction s as [|a s IH]; simpl in *.
  - rewrite Hc. split; reflexivity.
  - apply andb_true_iff in Hs as [Ha Hs]. destruct (IH Hs) as [Hlen Hhex].
    rewrite Ha. simpl. split; [by f_equal|exact Hhex].
Qed.

Lemma hexOfWidth_spec (width n : nat) :
  String.length (hexOfWidth width n) = width /\
  forallb isHexDigit (list_ascii_of_string (hexOfWidth width n)) = true.
Proof.
  revert n. induction width as [|k IH]; intros n; [split; reflexivity|].
  destruct (IH (n / 16)%nat) as [Hlen Hhex].
  destruct (append_hexDigit (hexOfWidth k (n / 16)) (hexDigit (n mod 16)) Hhex
              (isHexDigit_hexDigit _)) as [Hlen' Hhex'].
  unfold hexOfWidth; fold hexOfWidth. rewrite Hlen', Hlen. split; [reflexivity|exact Hhex'].
Qed.

Lemma isObjectId_hexOfWidth (n : nat) : isObjectId (hexOfWidth 24 n) = true.
Proof.
  unfold isObjectId. destruct (hexOfWidth_spec 24 n) as [-> ->]. reflexivity.
Qed.

Lemma statusDerived_updateProductStatus p : statusDerived (updateProductStatus p).
Proof.
  unfold statusDerived, updateProductStatus.
  destruct (jsIsZero (Product.quantity p)) eqn:Hz; simpl; rewrite ?Hz; [reflexivity|].
  destruct (jsLe (Product.quantity p) (Product.reorderPoint p)) eqn:Hle; simpl;
    rewrite ?Hz, ?Hle; reflexivity.
Qed.

Lemma statusDerived_set_updatedAt u p :
  statusDerived p -> statusDerived (Product.set_updatedAt u p).
Proof.
  unfold statusDerived, updateProductStatus. destruct p; simpl.
  repeat case_match; intros [= <-]; reflexivity.
Qed.

Lemma statusDerived_set_createdAt u p :
  statusDerived p -> statusDerived (Product.set_createdAt u p).
Proof.
  unfold statusDerived, updateProductStatus. destruct p; simpl.
  repeat case_match; intros [= <-]; reflexivity.
Qed.

Lemma validDocument_set_updatedAt u p :
  validDocument p -> validDocument (Product.set_updatedAt u p).
Proof. by destruct p. Qed.

Lemma validDocument_set_createdAt u p :
  validDocument p -> validDocument (Product.set_createdAt u p).
Proof. by destruct p. Qed.

Lemma statusDerived_status p :
  statusDerived p ->
  Product.status p ∈ derivedStatuses.
Proof.
  intros <-. rewrite updateProductStatus_status. unfold derivedStatuses.
  repeat case_match; set_solver.
Qed.

Ltac close_consistent :=
  unfold consistent, storedProducts, schemaValid in *; simpl in *;
  repeat match goal with
  | H : _ /\ _ |- _ => destruct H
  | |- _ /\ _ => split
  | |- _ -> _ => intros ?
  | H : ?a = ?a -> _ |- _ => specialize (H eq_refl)
  | H : true = false |- _ => discriminate H
  end;
  eauto 8 using Forall_app_2, Forall_insert, Forall_delete, Forall_nil_2, Forall_cons_2,
    statusDerived_updateProductStatus, statusDerived_set_updatedAt,
    statusDerived_set_createdAt, validDocument_set_updatedAt, validDocument_set_createdAt.

Ltac case_find :=
  match goal with
  | |- context [list_find ?P ?l] => destruct (list_find P l) as [[? ?]|] eqn:?
  end.

Lemma in_memory_consistent (req : Request) (w : World) :
  useInMemory w = true -> consistent w -> consistent (snd (handle req w)).
Proof.
  destruct_world w. simpl. intros -> Hc.
  destruct req; cbn [handle].
  10: { unfold consistent, storedProducts, schemaValid. vm_compute.
        split; [repeat constructor|intros H; discriminate H]. }
  all: unfold_handlers; unfold get_api_health; unfold_models; unfold_monad; simpl.
  all: try case_find; simpl.
  all: try (close_consistent; fail).
  destruct (typeIs _ "IN"); simpl; close_consistent.
Qed.

Ltac case_inner :=
  match goal with
  | |- context [match ?x with _ => _ end] =>
      lazymatch x with
      | context [match _ with _ => _ end] => fail
      | _ => destruct x eqn:?
      end
  end.

Lemma productPaths_updateProductStatus p :
  productPaths p = [] -> productPaths (updateProductStatus p) = [].
Proof.
  rewrite !productPaths_nil. intros (Hn & Hs & Hc & Hq & Hr & Hu & _).
  split_and!; try apply enumString_derived.
  all: unfold updateProductStatus; repeat case_match; simpl; eauto.
Qed.

Lemma productPaths_set_updatedAt u p :
  productPaths (Product.set_updatedAt u p) = productPaths p.
Proof. by destruct p. Qed.

Lemma productPaths_set_createdAt u p :
  productPaths (Product.set_createdAt u p) = productPaths p.
Proof. by destruct p. Qed.

Lemma updatePaths_nil (body : ProductBody.t) :
  updatePaths body = [] ->
  (forall s, ProductBody.name body = Some s -> requiredString "name" (Some s) = []) /\
  (forall s, ProductBody.sku body = Some s -> requiredString "sku" (Some s) = []) /\
  (forall s, ProductBody.category body = Some s -> requiredString "category" (Some s) = []) /\
  (forall x, ProductBody.quantity body = Some x -> isNumber (Some x) = true) /\
  (forall x, ProductBody.reorderPoint body = Some x -> isNumber (Some x) = true) /\
  (forall x, ProductBody.unitPrice body = Some x -> isNumber (Some x) = true) /\
  enumString "status" statusEnum (ProductBody.status body) = [].
Proof.
  unfold updatePaths. rewrite !app_nil. intros (Hn & Hs & Hc & Hq & Hr & Hu & He).
  split_and!; [| | | | | |exact He]; intros s Heq; rewrite Heq in *; simpl in *;
    try assumption.
  all: by destruct (isNaN s).
Qed.

Lemma productPaths_applyBody (body : ProductBody.t) (p : Product.t) :
  productPaths p = [] -> updatePaths body = [] -> productPaths (applyBody body p) = [].
Proof.
  rewrite !productPaths_nil. intros (Hn & Hs & Hc & Hq & Hr & Hu & He).
  intros (Bn & Bs & Bc & Bq & Br & Bu & Be)%updatePaths_nil.
  unfold applyBody, overlay. simpl.
  split_and!.
  - destruct (ProductBody.name body) eqn:E; eauto.
  - destruct (ProductBody.sku body) eqn:E; eauto.
  - destruct (ProductBody.category body) eqn:E; eauto.
  - destruct (ProductBody.quantity body) eqn:E; eauto.
  - destruct (ProductBody.reorderPoint body) eqn:E; eauto.
  - destruct (ProductBody.unitPrice body) eqn:E; eauto.
  - destruct (ProductBody.status body); eauto.
Qed.

Lemma applyBody_id body p : Product._id (applyBody body p) = Product._id p.
Proof. reflexivity. Qed.

Lemma persistent_reads_consistent (req : Request) (w : World) :
  useInMemory w = false ->
  match req with
  | GET_health | GET_products | GET_products_id _ | GET_transactions | GET_analytics
  | DELETE_products_id _ => True
  | _ => False
  end ->
  consistent w -> consistent (snd (handle req w)).
Proof.
  destruct_world w. simpl. intros -> Hreq Hc.
  destruct req; try contradiction; cbn [handle].
  all: unfold_handlers; unfold get_api_health; unfold_models; unfold_monad; simpl.
  all: repeat (case_inner; simpl).
  all: close_consistent.
Qed.

Lemma persistent_create_consistent (body : ProductBody.t) (w : World) :
  useInMemory w = false ->
  consistent w -> consistent (snd (post_api_products body w)).
Proof.
  destruct_world w. simpl. intros -> Hc.
  unfold_handlers; unfold_models; unfold_monad; simpl.
  destruct (ProductBody.lastRestocked body); simpl.
  all: repeat (case_inner; simpl); try (close_consistent; fail).
  all: close_consistent.
  all: apply Forall_app_2; [assumption|]; repeat constructor.
  all: simpl; rewrite ?updateProductStatus_id; simpl; auto using isObjectId_hexOfWidth.
Qed.

Lemma persistent_update_consistent (id : string) (body : ProductBody.t) (w : World) :
  useInMemory w = false ->
  rejects (env w) (S (awaited (env w))) = None ->
  consistent w -> consistent (snd (put_api_products_id id body w)).
Proof.
  destruct_world w. simpl. intros -> Hsave Hc.
  unfold_handlers; unfold_models; unfold_monad; simpl.
  destruct (isObjectId id) eqn:Hoid; simpl; [|close_consistent].
  destruct (updatePaths body) eqn:Hbody; simpl; [|close_consistent].
  destruct (rej calls) eqn:Hfirst; simpl; [close_consistent|].
  destruct (list_find _ docs) as [[i doc]|] eqn:Hfind; simpl; [|close_consistent].
  destruct (skuTaken _ _) eqn:Hsku; simpl; [close_consistent|].
  pose proof Hfind as (Hi & Hid & _)%list_find_Some.
  destruct Hc as [Hderived Hvalid]. specialize (Hvalid eq_refl).
  unfold storedProducts, schemaValid in *. simpl in *.
  destruct (Forall_lookup_1 _ _ _ _ Hvalid Hi) as [Hpaths Hdocid].
  set (updated := Product.set_updatedAt (Some (clk reads)) (applyBody body doc)) in *.
  assert (Hupdated : productPaths updated = []).
  { unfold updated. rewrite productPaths_set_updatedAt. by apply productPaths_applyBody. }
  assert (Hvu : validDocument updated) by (split; [exact Hupdated|exact Hdocid]).
  rewrite (productPaths_updateProductStatus _ Hupdated). simpl.
  case_bool_decide as Hsame; simpl.
  - rewrite Hsave. simpl. unfold consistent, storedProducts, schemaValid. simpl.
    split; [|intros _]; apply Forall_insert; auto.
  - rewrite Hsave. simpl. rewrite updateProductStatus_id.
    change (Product._id updated) with (Product._id doc). rewrite Hid.
    erewrite list_find_replace; [|exact Hfind|exact Hid].
    simpl. unfold consistent, storedProducts, schemaValid. simpl.
    rewrite list_insert_insert_eq.
    split; [|intros _]; apply Forall_insert; auto.
    + apply statusDerived_set_updatedAt, statusDerived_updateProductStatus.
    + apply validDocument_set_updatedAt. split.
      * by apply productPaths_updateProductStatus.
      * by rewrite updateProductStatus_id.
Qed.

Lemma list_find_valid (P : Product.t -> Prop) `{!forall x, Decision (P x)}
    (docs : list Product.t) i p :
  Forall validDocument docs -> list_find P docs = Some (i, p) -> validDocument p.
Proof.
  intros Hvalid (Hi & _)%list_find_Some. eapply Forall_lookup_1; eauto.
Qed.

Lemma persistent_transaction_consistent (body : TransactionBody.t) (w : World) :
  useInMemory w = false ->
  consistent w -> consistent (snd (post_api_transactions body w)).
Proof.
  destruct_world w. simpl. intros -> Hc.
  destruct body as [[id|] type qty notes by_].
  all: unfold_handlers; unfold_models; unfold_monad; simpl.
  2: { repeat (case_inner; simpl); close_consistent. }
  destruct (isObjectId id) eqn:Hoid; simpl; [|close_consistent].
  destruct (rej calls) eqn:Hfirst; simpl; [close_consistent|].
  destruct (list_find _ docs) as [[i p0]|] eqn:Hfind; simpl; [|close_consistent].
  destruct Hc as [Hderived Hvalid]. specialize (Hvalid eq_refl).
  unfold storedProducts, schemaValid in *. simpl in *.
  destruct (list_find_valid _ _ _ _ Hvalid Hfind) as [Hpaths Hdocid].
  destruct (typeIs type "IN"); simpl.
  all: repeat (case_inner; simpl).
  all: unfold consistent, storedProducts, schemaValid; simpl.
  all: try (split; [|intros _]; assumption).
  all: split; [|intros _]; apply Forall_insert; try assumption.
  all: try (apply statusDerived_set_updatedAt, statusDerived_updateProductStatus).
  all: apply validDocument_set_updatedAt; split; try assumption.
  all: rewrite updateProductStatus_id; simpl; rewrite ?adjustQuantity_id; assumption.
Qed.

Lemma backendCall_rejected (w : World) (msg : string) :
  rejects (env w) (awaited (env w)) = Some msg ->
  backendCall w = (Thrown (mkError MongoNetworkError msg), called w).
Proof. unfold backendCall. intros ->. reflexivity. Qed.

Ltac rejected_step H :=
  match goal with
  | |- context [bind backendCall ?k ?w0] =>
      rewrite (bind_thrown backendCall k w0 _ _ (backendCall_rejected w0 _ H))
  end.

Lemma persistent_seed_consistent (w : World) :
  useInMemory w = false ->
  consistent w -> consistent (snd (post_api_seed w)).
Proof.
  destruct_world w. simpl. intros -> Hc.
  unfold post_api_seed, tryCatch, post_api_seed_try.
  compute_step. cbv iota.
  unfold Product_deleteMany.
  destruct (rej calls) as [msg|] eqn:Hfirst.
  - erewrite bind_thrown; [|rejected_step Hfirst; reflexivity].
    unfold called. close_consistent.
  - erewrite bind_value; [|accepted_step Hfirst; reflexivity].
    compute_step.
    unfold Product_insertMany.
    destruct (rej (S calls)) as [msg|] eqn:Hsecond.
    + erewrite bind_thrown; [|compute_step; rejected_step Hsecond; reflexivity].
      unfold called. unfold consistent, storedProducts, schemaValid. simpl.
      split; [|intros _]; constructor.
    + erewrite bind_value;
        [|compute_step; accepted_step Hsecond; lazy -[hexOfWidth]; reflexivity].
      lazy -[hexOfWidth statusDerived validDocument].
      split; [|intros _]; repeat constructor; apply isObjectId_hexOfWidth.
Qed.

(** The storage mode is chosen at start-up; no handler changes it. *)
Lemma in_memory_stays (req : Request) (w : World) :
  useInMemory w = true -> useInMemory (snd (handle req w)) = true.
Proof.
  destruct_world w. simpl. intros ->.
  destruct req; cbn [handle].
  10: { vm_compute. reflexivity. }
  all: unfold_handlers; unfold get_api_health; unfold_models; unfold_monad; simpl.
  all: try case_find; simpl.
  all: try reflexivity.
  destruct (typeIs _ "IN"); reflexivity.
Qed.

(** C10, as amended.  Every request keeps the invariant that each
    stored product has the status its quantity and reorder point derive
    (so one of In Stock, Low Stock, Out of Stock), in both storage
    modes and whether the request succeeds or fails, provided that the
    backend accepts the final [product.save()] of a persistent-mode
    update. *)
Theorem status_invariant_kept (req : Request) (w : World) :
  consistent w ->
  finalSaveAccepted req w ->
  consistent (snd (handle req w)) /\
  Forall (fun p => Product.status p ∈ derivedStatuses /\ Product.status p <> Some Damaged)
    (storedProducts (snd (handle req w))).
Proof.
  intros Hc Hsave.
  assert (Hkept : consistent (snd (handle req w))).
  { destruct (useInMemory w) eqn:Hmode.
    - by apply in_memory_consistent.
    - destruct req; simpl in Hsave.
      + by apply persistent_reads_consistent.
      + by apply persistent_reads_consistent.
      + by apply persistent_reads_consistent.
      + by apply persistent_create_consistent.
      + apply persistent_update_consistent; auto.
      + by apply persistent_reads_consistent.
      + by apply persistent_transaction_consistent.
      + by apply persistent_reads_consistent.
      + by apply persistent_reads_consistent.
      + by apply persistent_seed_consistent. }
  split; [exact Hkept|].
  destruct Hkept as [Hderived _].
  eapply Forall_impl; [exact Hderived|]. intros p Hp.
  pose proof (statusDerived_status p Hp) as Hin. split; [exact Hin|].
  intros Heq. rewrite Heq in Hin. unfold derivedStatuses in Hin.
  rewrite !elem_of_cons in Hin. destruct Hin as [H|[H|[H|H]]]; try discriminate H.
  by apply elem_of_nil in H.
Qed.

Lemma status_invariant_kept_witness :
  let w := mongoWorld steadyEnv [stockItem oid1 5 10] [] in
  let body := ProductBody.mk None None None (Some zero) None None None None None
                (Some Damaged) in
  consistent w /\
  finalSaveAccepted (PUT_products_id oid1 body) w /\
  (Product.status <$> lookupProduct (snd (handle (PUT_products_id oid1 body) w)) oid1)
    = Some (Some OutOfStock) /\
  Forall (fun p => Product.status p ∈ derivedStatuses /\ Product.status p <> Some Damaged)
    (storedProducts (snd (handle (PUT_products_id oid1 body) w))).
Proof.
  intros w body.
  assert (Hc : consistent w).
  { split; [|intros _]; repeat constructor. }
  assert (Hsave : finalSaveAccepted (PUT_products_id oid1 body) w).
  { intros _. reflexivity. }
  split; [exact Hc|]. split; [exact Hsave|]. split; [reflexivity|].
  exact (proj2 (status_invariant_kept (PUT_products_id oid1 body) w Hc Hsave)).
Defined.

(** C10, as the specification states it, fails for a persistent-mode
    update.  [findByIdAndUpdate] stores the request's status before the
    handler derives one: a supplied Damaged is in the collection once
    that call returns, and it stays there when the backend rejects the
    [product.save()] that follows (the request is answered 400). *)
Lemma damaged_stored_by_persistent_update :
  let body := ProductBody.mk None None None None None None None None None (Some Damaged) in
  let req := PUT_products_id oid1 body in
  let up := mongoWorld steadyEnv [stockItem oid1 5 10] [] in
  let failing := mongoWorld (failingEnv 1) [stockItem oid1 5 10] [] in
  (Product.status <$> lookupProduct (snd (Product_findByIdAndUpdate oid1 body up)) oid1)
    = Some (Some Damaged) /\
  consistent failing /\
  statusCode (fst (handle req failing)) = 400 /\
  (Product.status <$> lookupProduct (snd (handle req failing)) oid1) = Some (Some Damaged) /\
  ~ consistent (snd (handle req failing)).
Proof.
  intros body req up failing.
  split; [reflexivity|].
  split; [split; [|intros _]; repeat constructor|].
  split; [reflexivity|]. split; [reflexivity|].
  intros [Hderived _].
  assert (Hstored : storedProducts (snd (handle req failing)) =
                    [Product.set_updatedAt (Some 1000)
                       (Product.set_status (Some Damaged) (stockItem oid1 5 10))])
    by reflexivity.
  rewrite Hstored in Hderived. apply Forall_cons in Hderived as [Hp _].
  unfold statusDerived in Hp. vm_compute in Hp. discriminate Hp.
Qed.

(** In in-memory mode the invariant holds after every sequence of
    requests. *)
Lemma in_memory_serve_consistent (reqs : list Request) (w : World) :
  useInMemory w = true ->
  consistent w ->
  consistent (serve reqs w) /\ useInMemory (serve reqs w) = true.
Proof.
  revert w. induction reqs as [|req rest IH]; intros w Hmode Hc; [by split|].
  simpl. apply IH.
  - by apply in_memory_stays.
  - by apply in_memory_consistent.
Qed.

(** A process that starts in in-memory mode never stores Damaged. *)
Lemma in_memory_never_stores_damaged (reqs : list Request) (d : Mongo) (e : Env) :
  Forall (fun p => Product.status p <> Some Damaged)
    (inMemoryProducts (serve reqs (initialWorld true d e))).
Proof.
  assert (Hc : consistent (initialWorld true d e)).
  { split; [constructor|discriminate]. }
  destruct (in_memory_serve_consistent reqs (initialWorld true d e) eq_refl Hc)
    as [[Hderived _] Hmode].
  unfold storedProducts in Hderived. rewrite Hmode in Hderived.
  eapply Forall_impl; [exact Hderived|]. intros p Hp Heq.
  apply statusDerived_status in Hp. rewrite Heq in Hp. unfold derivedStatuses in Hp.
  rewrite !elem_of_cons in Hp. destruct Hp as [H|[H|[H|H]]]; try discriminate H.
  by apply elem_of_nil in H.
Qed.

(** ** Worked examples *)

(** The scenario of the specification: a product created with quantity 5
    and reorder point 10 is Low Stock; an IN of 20 makes it 25 and In
    Stock; an OUT of 25 makes it 0 and Out of Stock.  In-memory mode. *)
Example scenario_in_memory :
  let body := ProductBody.mk (Some "Nails") (Some "NL-001") (Some "Hardware")
                (Some (ofZ 5)) (Some (ofZ 10)) (Some (ofZ 4)) None None None None in
  let movement type n :=
    TransactionBody.mk (Some "1") (Some type) (Some (ofZ n)) None None in
  let w1 := snd (post_api_products body (memoryWorld [] [])) in
  let w2 := snd (post_api_transactions (movement "IN" 20) w1) in
  let w3 := snd (post_api_transactions (movement "OUT" 25) w2) in
  let observe w := (fun p => (Product.quantity p, Product.status p)) <$> lookupProduct w "1" in
  observe w1 = Some (Some (ofZ 5), Some LowStock) /\
  observe w2 = Some (Some (ofZ 25), Some InStock) /\
  observe w3 = Some (Some (ofZ 0), Some OutOfStock).
Proof. repeat split; vm_compute; reflexivity. Qed.

(** The same scenario in persistent mode, the movements addressing the
    product by its id in upper case. *)
Example scenario_persistent :
  let body := ProductBody.mk (Some "Nails") (Some "NL-001") (Some "Hardware")
                (Some (ofZ 5)) (Some (ofZ 10)) (Some (ofZ 4)) None None None None in
  let id := hexOfWidth 24 10 in
  let ID := "00000000000000000000000A" in
  let movement type n :=
    TransactionBody.mk (Some ID) (Some type) (Some (ofZ n)) None None in
  let w0 := mkWorld false [] [] 1 1 (mkMongo [] [] 10) steadyEnv in
  let w1 := snd (post_api_products body w0) in
  let w2 := snd (post_api_transactions (movement "IN" 20) w1) in
  let w3 := snd (post_api_transactions (movement "OUT" 25) w2) in
  let observe w := (fun p => (Product.quantity p, Product.status p)) <$> lookupProduct w id in
  id = "00000000000000000000000a" /\
  observe w1 = Some (Some (ofZ 5), Some LowStock) /\
  observe w2 = Some (Some (ofZ 25), Some InStock) /\
  observe w3 = Some (Some (ofZ 0), Some OutOfStock) /\
  Transaction.productId <$> storedTransactions w3 = [Some id; Some id].
Proof. repeat split; vm_compute; reflexivity. Qed.

(** A negative quantity is reached through the API, and is Low Stock:
    an OUT of 10 on a product of quantity 5 and reorder point 10. *)
Example negative_quantity_low_stock :
  let w := memoryWorld [stockItem "1" 5 10] [] in
  let out := TransactionBody.mk (Some "1") (Some "OUT") (Some (ofZ 10)) None None in
  (fun p => (Product.quantity p, Product.status p))
    <$> lookupProduct (snd (post_api_transactions out w)) "1"
  = Some (Some (ofZ (-5)), Some LowStock).
Proof. vm_compute. reflexivity. Qed.

(** Quantities need not be whole: 0.5 taken from 0.75 leaves 0.25. *)
Example fractional_quantity :
  let threeQuarters := S754_finite false (shl 51 3) (-53) in
  let half := S754_finite false (shl 52 1) (-53) in
  let quarter := S754_finite false (shl 52 1) (-54) in
  let item := Product.set_quantity (Some threeQuarters) (stockItem "1" 1 10) in
  let out := TransactionBody.mk (Some "1") (Some "OUT") (Some half) None None in
  fmul quarter (ofZ 4) = ofZ 1 /\ fmul half (ofZ 2) = ofZ 1 /\
  fmul threeQuarters (ofZ 4) = ofZ 3 /\
  isDouble quarter /\ isDouble half /\ isDouble threeQuarters /\
  (fun p => (Product.quantity p, Product.status p))
    <$> lookupProduct (snd (post_api_transactions out (memoryWorld [item] []))) "1"
  = Some (Some quarter, Some LowStock).
Proof. repeat split; vm_compute; reflexivity. Qed.

(** Deleting a product with a recorded movement: the product is gone,
    the movement is still listed. *)
Example delete_leaves_history :
  let w := memoryWorld [stockItem "1" 5 10] [movementAt "1" 950] in
  let w' := snd (delete_api_products_id "1" w) in
  lookupProduct w' "1" = None /\
  fst (get_api_transactions w') = res_json (JTransactions [movementAt "1" 950]).
Proof. split; reflexivity. Qed.

(** In in-memory mode a product created without a quantity has none,
    and is In Stock: no default applies there. *)
Example in_memory_create_without_quantity :
  let w := snd (post_api_products ProductBody.empty (memoryWorld [] [])) in
  (fun p => (Product.quantity p, Product.status p)) <$> lookupProduct w "1"
  = Some (None, Some InStock).
Proof. reflexivity. Qed.

(** * Further properties of the handlers *)

(** ** Transactions are only ever appended *)

Ltac solve_appended :=
  unfold storedTransactions; simpl;
  split; [reflexivity|];
  first
    [ exists []; rewrite app_nil_r; split_and!;
        [reflexivity | simpl; lia | intros H; exfalso; apply H; reflexivity]
    | eexists [_]; split_and!;
        [reflexivity | simpl; lia | intros _; split; [eauto|reflexivity]] ].

(** No request changes the storage mode, and each request leaves the
    stored transactions in place, adding at most one. *)
Lemma handle_appends (req : Request) (w : World) :
  useInMemory (snd (handle req w)) = useInMemory w /\
  exists added,
    storedTransactions (snd (handle req w)) = storedTransactions w ++ added /\
    (length added <= 1)%nat /\
    (added <> [] ->
     (exists body, req = POST_transactions body) /\
     statusCode (fst (handle req w)) = 201).
Proof.
  destruct_world w. destruct inMemory.
  - destruct req; cbn [handle].
    10: { split; [vm_compute; reflexivity|]. exists []. rewrite app_nil_r.
          split_and!; [vm_compute; reflexivity|simpl; lia|
                       intros H; exfalso; apply H; reflexivity]. }
    all: unfold_handlers; unfold get_api_health; unfold_models; unfold_monad; simpl.
    all: try case_find; simpl.
    all: try (solve_appended; fail).
    destruct (typeIs _ "IN"); simpl; solve_appended.
  - destruct req; cbn [handle].
    10: { unfold post_api_seed, tryCatch, post_api_seed_try.
          compute_step. cbv iota. unfold Product_deleteMany.
          destruct (rej calls) as [msg|] eqn:Hfirst.
          - erewrite bind_thrown; [|rejected_step Hfirst; reflexivity].
            unfold called. solve_appended.
          - erewrite bind_value; [|accepted_step Hfirst; reflexivity].
            compute_step. unfold Product_insertMany.
            destruct (rej (S calls)) as [msg|] eqn:Hsecond.
            + erewrite bind_thrown; [|compute_step; rejected_step Hsecond; reflexivity].
              unfold called. solve_appended.
            + erewrite bind_value;
                [|compute_step; accepted_step Hsecond; lazy -[hexOfWidth]; reflexivity].
              lazy -[hexOfWidth app length]. solve_appended. }
    all: unfold_handlers; unfold get_api_health; unfold_models; unfold_monad; simpl.
    all: try (destruct body as [[id|] type qty notes by_]; simpl).
    all: try (destruct (ProductBody.lastRestocked body); simpl).
    all: repeat (case_inner; simpl).
    all: solve_appended.
Qed.

Lemma serve_keeps_mode (reqs : list Request) (w : World) :
  useInMemory (serve reqs w) = useInMemory w.
Proof.
  revert w. induction reqs as [|req rest IH]; intros w; [reflexivity|].
  simpl. rewrite IH. apply handle_appends.
Qed.

(** X1.  Transactions are append-only.  Along any sequence of requests,
    in both modes and whatever fails on the way, the storage mode stays
    and the stored transactions stay in place: the list afterwards is
    the list before followed by new records, at most one per
    [POST /api/transactions] request of the sequence. *)
Theorem transactions_append_only (reqs : list Request) (w : World) :
  useInMemory (serve reqs w) = useInMemory w /\
  exists added,
    storedTransactions (serve reqs w) = storedTransactions w ++ added /\
    (length added <= length (List.filter isMovement reqs))%nat.
Proof.
  split; [apply serve_keeps_mode|].
  revert w. induction reqs as [|req rest IH]; intros w.
  - exists []. simpl. by rewrite app_nil_r.
  - simpl. destruct (IH (snd (handle req w))) as (later & Hlater & Hlen).
    destruct (handle_appends req w) as (_ & added & Hadded & Hone & Honly).
    exists (added ++ later). rewrite Hlater, Hadded, <- app_assoc. split; [reflexivity|].
    rewrite length_app.
    destruct added as [|t added].
    + simpl. destruct (isMovement req); simpl; lia.
    + destruct Honly as [[body ->] _]; [discriminate|]. simpl in *. lia.
Qed.

(** ** Reading requests *)

(** X2.  The five reading requests (health, product list, product by
    id, transaction list, analytics) change neither store nor counter nor
    mode, in both modes and also when they fail. *)
Theorem reads_change_nothing (req : Request) (w : World) :
  isRead req = true ->
  let w' := snd (handle req w) in
  useInMemory w' = useInMemory w /\
  inMemoryProducts w' = inMemoryProducts w /\
  inMemoryTransactions w' = inMemoryTransactions w /\
  productIdCounter w' = productIdCounter w /\
  transactionIdCounter w' = transactionIdCounter w /\
  db w' = db w.
Proof.
  destruct_world w. intros Hread.
  destruct req; try discriminate Hread; cbn [handle].
  all: unfold_handlers; unfold get_api_health; unfold_models; unfold_monad; simpl.
  all: destruct inMemory; simpl.
  all: repeat (case_inner; simpl).
  all: split_and!; reflexivity.
Qed.

Lemma reads_change_nothing_witness :
  let w := mongoWorld (failingEnv 0) [stockItem oid1 5 10] [documentAt oid1 950] in
  isRead GET_analytics = true /\
  statusCode (fst (handle GET_analytics w)) = 500 /\
  db (snd (handle GET_analytics w)) = db w.
Proof.
  intros w. split; [reflexivity|]. split; [reflexivity|].
  apply (reads_change_nothing GET_analytics w eq_refl).
Defined.

(** ** Requests for a product that is not stored *)

(** X3.  A request that addresses a product by an id that denotes no
    stored product (get, update, delete, stock movement) is answered 404
    with the message Product not found and changes neither the products
    nor the transactions.  In persistent mode the id denotes the
    document whose ObjectId it is cast to, whatever the case of its
    digits; this is so when the id is an ObjectId, the update body
    passes the validators and the backend answers the one call. *)
Theorem missing_product_not_found (req : Request) (id : string) (w : World) :
  productIdOf req = Some id ->
  lookupProduct w id = None ->
  (useInMemory w = false ->
   isObjectId id = true /\
   rejects (env w) (awaited (env w)) = None /\
   (forall body, req = PUT_products_id id body -> updatePaths body = [])) ->
  fst (handle req w) = res_status_json 404 (JMessage "Product not found") /\
  storedProducts (snd (handle req w)) = storedProducts w /\
  storedTransactions (snd (handle req w)) = storedTransactions w.
Proof.
  destruct_world w. unfold lookupProduct, storedId, storedProducts, storedTransactions. simpl.
  intros Hid Hnone Hpersistent.
  apply fmap_None in Hnone.
  destruct req; try discriminate Hid; simpl in Hid.
  1-3: injection Hid as ->.
  4: destruct body as [pid type qty notes by_]; simpl in Hid; subst pid.
  all: cbn [handle]; unfold_handlers; unfold_models; unfold_monad; simpl.
  all: destruct inMemory; simpl in *.
  all: rewrite ?find_by_optional_id, ?Hnone; simpl; try (split_and!; reflexivity).
  all: destruct (Hpersistent eq_refl) as (Hoid & Hup & Hbody).
  all: rewrite Hoid; simpl; rewrite ?(Hbody _ eq_refl); simpl.
  all: rewrite Hup; simpl; rewrite ?Hnone; simpl; split_and!; reflexivity.
Qed.

Lemma missing_product_not_found_witness :
  let w := mongoWorld steadyEnv [stockItem oid1 5 10] [] in
  let id := "0000000000000000000000FF" in
  let req := POST_transactions
               (TransactionBody.mk (Some id) (Some "IN") (Some (ofZ 3)) None None) in
  lookupProduct w id = None /\
  fst (handle req w) = res_status_json 404 (JMessage "Product not found") /\
  storedTransactions (snd (handle req w)) = [].
Proof.
  intros w id req. split; [reflexivity|].
  destruct (missing_product_not_found req id w eq_refl eq_refl) as (Hr & _ & Ht).
  - intros _. split_and!; [reflexivity|reflexivity|]. intros body H. discriminate H.
  - split; [exact Hr|exact Ht].
Defined.

(** ** In-memory mode *)

(** X4.  In in-memory mode no request (with a parsed body) is answered
    with an error status: every answer is 200, 201 or 404. *)
Theorem in_memory_never_errors (req : Request) (w : World) :
  useInMemory w = true ->
  statusCode (fst (handle req w)) = 200 \/
  statusCode (fst (handle req w)) = 201 \/
  statusCode (fst (handle req w)) = 404.
Proof.
  destruct_world w. simpl. intros ->.
  destruct req; cbn [handle].
  10: { left. vm_compute. reflexivity. }
  all: unfold_handlers; unfold get_api_health; unfold_models; unfold_monad; simpl.
  all: try case_find; simpl; auto.
  destruct (typeIs _ "IN"); simpl; auto.
Qed.

Lemma in_memory_never_errors_witness :
  let w := memoryWorld [] [] in
  let req := POST_products ProductBody.empty in
  useInMemory w = true /\ statusCode (fst (handle req w)) = 201.
Proof.
  intros w req. split; [reflexivity|].
  destruct (in_memory_never_errors req w eq_refl) as [H|[H|H]];
    [discriminate H|exact H|discriminate H].
Defined.

Lemma String__inj (j k : nat) : String_ j = String_ k -> j = k.
Proof. unfold String_. apply (inj pretty). Qed.

(** Appending an element whose id is the print of the counter. *)
Lemma issued_snoc {A} (f : A -> string) (l : list A) (x : A) (counter : nat) :
  NoDup (f <$> l) ->
  Forall (fun y => exists k, (k < counter)%nat /\ f y = String_ k) l ->
  f x = String_ counter ->
  NoDup (f <$> (l ++ [x])) /\
  Forall (fun y => exists k, (k < S counter)%nat /\ f y = String_ k) (l ++ [x]).
Proof.
  intros Hnodup Hissued Hx. split.
  - rewrite fmap_app. apply NoDup_app. split_and!; [exact Hnodup| |apply NoDup_singleton].
    intros id (y & -> & Hy)%list_elem_of_fmap Hin. simpl in Hin.
    apply list_elem_of_singleton in Hin.
    rewrite Forall_forall in Hissued. destruct (Hissued y Hy) as (k & Hk & Heq).
    rewrite Heq, Hx in Hin. apply String__inj in Hin. lia.
  - apply Forall_app. split.
    + eapply Forall_impl; [exact Hissued|]. intros y (k & Hk & Heq). exists k. split; [lia|done].
    + repeat constructor. exists counter. split; [lia|done].
Qed.

(** Overwriting an element by one with the same id. *)
Lemma issued_insert {A} (f : A -> string) (l : list A) (i : nat) (x y : A) (counter : nat) :
  l !! i = Some x -> f y = f x ->
  NoDup (f <$> l) ->
  Forall (fun y => exists k, (k < counter)%nat /\ f y = String_ k) l ->
  NoDup (f <$> <[i := y]> l) /\
  Forall (fun y => exists k, (k < counter)%nat /\ f y = String_ k) (<[i := y]> l).
Proof.
  intros Hi Hf Hnodup Hissued. split.
  - rewrite list_fmap_insert, Hf, list_insert_id; [exact Hnodup|].
    by rewrite list_lookup_fmap, Hi.
  - apply Forall_insert; [exact Hissued|]. rewrite Hf.
    eapply (Forall_lookup_1 _ _ _ _ Hissued Hi).
Qed.

Lemma in_memory_idsIssued (req : Request) (w : World) :
  useInMemory w = true -> idsIssued w -> idsIssued (snd (handle req w)).
Proof.
  destruct_world w. unfold idsIssued. simpl. intros -> (Hp & Hpk & Ht & Htk).
  destruct req; cbn [handle].
  10: { lazy -[String_ Nat.add lt]. split_and!; [| |exact Ht|exact Htk].
        - apply (bool_decide_unpack _). vm_compute. reflexivity.
        - repeat constructor; eexists; (split; [|reflexivity]); simpl; lia. }
  all: unfold_handlers; unfold get_api_health; unfold_models; unfold_monad; simpl.
  all: try case_find; simpl.
  all: try (split_and!; assumption).
  all: try match goal with H : list_find _ _ = Some _ |- _ =>
      pose proof H as (Hi & _)%list_find_Some end.
  - (* create *)
    split_and!; [| |exact Ht|exact Htk].
    + eapply (proj1 (issued_snoc _ _ _ _ Hp Hpk _)).
    + eapply (proj2 (issued_snoc _ _ _ _ Hp Hpk _)).
  - (* update *)
    split_and!; [| |exact Ht|exact Htk].
    + eapply (proj1 (issued_insert _ _ _ _ _ _ Hi _ Hp Hpk)).
    + eapply (proj2 (issued_insert _ _ _ _ _ _ Hi _ Hp Hpk)).
  - (* delete *)
    split_and!; [| |exact Ht|exact Htk].
    + rewrite list_fmap_delete. eapply sublist_NoDup; [exact Hp|apply sublist_delete].
    + by apply Forall_delete.
  - (* stock movement *)
    destruct (typeIs _ "IN"); simpl.
    all: split_and!.
    all: first
      [ eapply (proj1 (issued_insert _ _ _ _ _ _ Hi _ Hp Hpk))
      | eapply (proj2 (issued_insert _ _ _ _ _ _ Hi _ Hp Hpk))
      | eapply (proj1 (issued_snoc _ _ _ _ Ht Htk _))
      | eapply (proj2 (issued_snoc _ _ _ _ Ht Htk _)) ].
    Unshelve.
    all: simpl; rewrite ?updateProductStatus_id; simpl; rewrite ?adjustQuantity_id;
      reflexivity.
Qed.

Lemma serve_idsIssued (reqs : list Request) (w : World) :
  useInMemory w = true -> idsIssued w -> idsIssued (serve reqs w).
Proof.
  revert w. induction reqs as [|req rest IH]; intros w Hmode Hids; [exact Hids|].
  simpl. apply IH.
  - by apply in_memory_stays.
  - by apply in_memory_idsIssued.
Qed.

Lemma initialWorld_idsIssued (d : Mongo) (e : Env) : idsIssued (initialWorld true d e).
Proof. unfold idsIssued. simpl. split_and!; constructor. Qed.


(** Ids are unique among the products in store, not over time: seeding
    issues the ids 1 to 7 again, so that the id of a product created
    before names a seeded product afterwards. *)
Example seeding_reissues_ids :
  let body := ProductBody.mk (Some "Nails") (Some "NL-001") (Some "Hardware")
                (Some (ofZ 5)) (Some (ofZ 10)) (Some (ofZ 4)) None None None None in
  let w1 := snd (post_api_products body (initialWorld true (mkMongo [] [] 0) steadyEnv)) in
  let w2 := snd (post_api_seed w1) in
  Product.name <$> lookupProduct w1 "1" = Some (Some "Nails") /\
  Product.name <$> lookupProduct w2 "1" = Some (Some "Steel Rods (10mm)") /\
  productIdCounter w2 = 8%nat.
Proof. repeat split; vm_compute; reflexivity. Qed.

(** Creating a product in in-memory mode, when the ids were issued by
    the counter: the new product is the one its id finds. *)
Lemma in_memory_create_lookup (body : ProductBody.t) (w : World) :
  useInMemory w = true -> idsIssued w ->
  exists p,
    post_api_products body w =
      (res_status_json 201 (JProduct p),
       snd (post_api_products body w)) /\
    inMemoryProducts (snd (post_api_products body w)) = inMemoryProducts w ++ [p] /\
    Product._id p = String_ (productIdCounter w) /\
    p = updateProductStatus (objectOfBody (String_ (productIdCounter w)) body
          (now w) (clock (env w) (S (clockReads (env w))))) /\
    lookupProduct (snd (post_api_products body w)) (Product._id p) = Some p.
Proof.
  destruct_world w. unfold idsIssued, lookupProduct, storedId, storedProducts, now. simpl.
  intros -> (Hp & Hpk & _).
  unfold_handlers; unfold_models; unfold_monad; simpl.
  eexists. split_and!; try reflexivity.
  - apply updateProductStatus_id.
  - rewrite updateProductStatus_id. simpl.
    rewrite list_find_app_r.
    + simpl. rewrite decide_True by apply updateProductStatus_id. reflexivity.
    + apply list_find_None. rewrite Forall_forall in Hpk |- *.
      intros p Hin Heq. destruct (Hpk p Hin) as (k & Hk & Hid).
      rewrite Hid in Heq. apply String__inj in Heq. lia.
Qed.


(** ** Deleting and updating a product *)

(** Removing an element that a search does not look for. *)
Lemma list_find_delete_other {A} (P : A -> Prop) `{!forall x, Decision (P x)}
    (l : list A) (i : nat) (x : A) :
  l !! i = Some x -> ~ P x ->
  snd <$> list_find P (delete i l) = snd <$> list_find P l.
Proof.
  revert i. induction l as [|y l IH]; intros i Hi Hx; [discriminate Hi|].
  destruct i as [|i]; simpl in *.
  - injection Hi as ->. rewrite decide_False by exact Hx.
    by destruct (list_find P l) as [[j z]|].
  - destruct (decide (P y)); [reflexivity|].
    specialize (IH i Hi Hx).
    destruct (list_find P (delete i l)) as [[j z]|], (list_find P l) as [[j' z']|];
      simpl in *; congruence.
Qed.

(** Overwriting an element that a search does not look for by another
    such element. *)
Lemma list_find_insert_other {A} (P : A -> Prop) `{!forall x, Decision (P x)}
    (l : list A) (i : nat) (x y : A) :
  l !! i = Some x -> ~ P x -> ~ P y ->
  list_find P (<[i := y]> l) = list_find P l.
Proof.
  revert i. induction l as [|z l IH]; intros i Hi Hx Hy; [discriminate Hi|].
  destruct i as [|i]; simpl in *.
  - injection Hi as ->. by rewrite !decide_False.
  - destruct (decide (P z)); [reflexivity|]. by rewrite (IH i Hi Hx Hy).
Qed.

(** With unique ids, the id of a deleted element finds nothing. *)
Lemma list_find_delete_same (l : list Product.t) (i : nat) (x : Product.t) :
  l !! i = Some x ->
  NoDup (Product._id <$> l) ->
  list_find (fun p => Product._id p = Product._id x) (delete i l) = None.
Proof.
  intros Hi Hnodup. apply list_find_None, Forall_forall. intros y Hy Heq.
  assert (Hids : (Product._id <$> l) !! i = Some (Product._id x))
    by (by rewrite list_lookup_fmap, Hi).
  rewrite <- (take_drop_middle _ _ _ Hids) in Hnodup.
  apply NoDup_app in Hnodup as (_ & Hdisjoint & Hrest).
  apply NoDup_cons in Hrest as [Hnotin _].
  assert (Hin : Product._id y ∈ delete i (Product._id <$> l)).
  { rewrite <- list_fmap_delete. apply list_elem_of_fmap. eauto. }
  rewrite delete_take_drop in Hin. apply elem_of_app in Hin as [Hin|Hin].
  - apply (Hdisjoint _ Hin). rewrite Heq. apply list_elem_of_here.
  - rewrite Heq in Hin. contradiction.
Qed.

(** X7.  Deleting a stored product (found under its id) is answered 200,
    removes exactly one product and leaves every product stored under
    another id as it was; when ids are unique the deleted id then finds
    nothing.  Persistent mode: when the id is an ObjectId and the
    backend answers; ids that differ in the case of their digits only
    are the same ObjectId there. *)
Theorem delete_removes (id : string) (w : World) (p : Product.t) :
  lookupProduct w id = Some p ->
  (useInMemory w = false ->
   isObjectId id = true /\ rejects (env w) (awaited (env w)) = None) ->
  let w' := snd (delete_api_products_id id w) in
  fst (delete_api_products_id id w) = res_json (JMessage "Product deleted successfully") /\
  S (length (storedProducts w')) = length (storedProducts w) /\
  (forall id', storedId w id' <> storedId w id ->
               lookupProduct w' id' = lookupProduct w id') /\
  (NoDup (Product._id <$> storedProducts w) -> lookupProduct w' id = None).
Proof.
  destruct_world w. unfold lookupProduct, storedId, storedProducts. simpl.
  intros Hfind Hpersistent.
  apply fmap_Some in Hfind as ([i p0] & Hfind & ->). simpl.
  pose proof Hfind as (Hi & Hid & _)%list_find_Some.
  unfold_handlers; unfold_models; unfold_monad; simpl.
  destruct inMemory; simpl in *.
  2: destruct (Hpersistent eq_refl) as [Hoid Hup]; rewrite Hoid; simpl; rewrite Hup; simpl.
  all: rewrite Hfind; simpl.
  all: split_and!; [reflexivity| | |].
  all: try (rewrite length_delete by eauto;
            apply lookup_lt_Some in Hi; lia).
  all: try (intros id' Hne; apply (list_find_delete_other _ _ _ _ Hi); congruence).
  all: intros Hnodup; rewrite <- Hid; by rewrite (list_find_delete_same _ _ _ Hi Hnodup).
Qed.

Lemma delete_removes_witness :
  let w := mongoWorld steadyEnv [stockItem oid1 5 10; stockItem "0000000000000000000000a2" 0 3] [] in
  lookupProduct w oid1 = Some (stockItem oid1 5 10) /\
  lookupProduct (snd (delete_api_products_id oid1 w)) oid1 = None /\
  lookupProduct (snd (delete_api_products_id oid1 w)) "0000000000000000000000a2"
    = Some (stockItem "0000000000000000000000a2" 0 3).
Proof.
  intros w. split; [reflexivity|].
  destruct (delete_removes oid1 w (stockItem oid1 5 10) eq_refl) as (_ & _ & Hothers & Hgone).
  - intros _. split; reflexivity.
  - split.
    + apply Hgone. apply (bool_decide_unpack _). vm_compute. reflexivity.
    + rewrite Hothers; [reflexivity|]. vm_compute. discriminate.
Defined.

Lemma updateProductStatus_set_updatedAt u p :
  updateProductStatus (Product.set_updatedAt u p) =
  Product.set_updatedAt u (updateProductStatus p).
Proof. unfold updateProductStatus. destruct p; simpl. repeat case_match; reflexivity. Qed.

Lemma set_updatedAt_twice u v p :
  Product.set_updatedAt u (Product.set_updatedAt v p) = Product.set_updatedAt u p.
Proof. by destruct p. Qed.

(** X8.  Updating a stored product (found at index [i] under its id)
    is answered 200 with the product that is then stored under the id:
    the fields of the body laid over the stored ones, the status
    derived anew, [updatedAt] refreshed, the id kept.  The number of
    products stays and products under other ids are untouched.
    Persistent mode: when the id is an ObjectId (in whichever case), the
    stored document and the body are valid, no other document has the
    resulting sku and the backend accepts both calls. *)
Theorem update_merges (id : string) (body : ProductBody.t) (w : World)
    (i : nat) (p : Product.t) :
  list_find (fun d => Product._id d = storedId w id) (storedProducts w) = Some (i, p) ->
  (useInMemory w = false ->
   isObjectId id = true /\ productPaths p = [] /\ updatePaths body = [] /\
   skuTaken (overlay (ProductBody.sku body) (Product.sku p))
     (delete i (storedProducts w)) = false /\
   rejects (env w) (awaited (env w)) = None /\
   rejects (env w) (S (awaited (env w))) = None) ->
  let w' := snd (put_api_products_id id body w) in
  exists p' u,
    fst (put_api_products_id id body w) = res_json (JProduct p') /\
    lookupProduct w' id = Some p' /\
    p' = Product.set_updatedAt u (updateProductStatus (applyBody body p)) /\
    Product._id p' = storedId w id /\
    length (storedProducts w') = length (storedProducts w) /\
    (forall id', storedId w id' <> storedId w id ->
                 lookupProduct w' id' = lookupProduct w id').
Proof.
  destruct_world w. unfold lookupProduct, storedId, storedProducts. simpl.
  intros Hfind Hpersistent.
  pose proof Hfind as (Hi & Hid & _)%list_find_Some.
  unfold_handlers; unfold_models; unfold_monad; simpl.
  destruct inMemory; simpl in *.
  - rewrite Hfind. simpl. rewrite updateProductStatus_set_updatedAt.
    do 2 eexists. split_and!; [reflexivity| |reflexivity| | |].
    + erewrite list_find_replace; [reflexivity|exact Hfind|].
      simpl. by rewrite updateProductStatus_id.
    + simpl. by rewrite updateProductStatus_id.
    + apply length_insert.
    + intros id' Hne. f_equal. apply (list_find_insert_other _ _ _ _ _ Hi); simpl.
      * congruence.
      * rewrite updateProductStatus_id. simpl. congruence.
  - destruct (Hpersistent eq_refl) as (Hoid & Hpaths & Hbody & Hsku & Hfirst & Hsecond).
    rewrite Hoid. simpl. rewrite Hbody. simpl. rewrite Hfirst. simpl.
    rewrite Hfind. simpl. rewrite Hsku. simpl.
    set (updated := Product.set_updatedAt (Some (clk reads)) (applyBody body p)) in *.
    assert (Hupdated : productPaths updated = []).
    { unfold updated. rewrite productPaths_set_updatedAt. by apply productPaths_applyBody. }
    rewrite (productPaths_updateProductStatus _ Hupdated). simpl.
    case_bool_decide as Hsame; simpl; rewrite Hsecond; simpl.
    + rewrite Hsame. exists updated, (Some (clk reads)). split_and!; try reflexivity.
      * erewrite list_find_replace; [reflexivity|exact Hfind|exact Hid].
      * unfold updated. rewrite <- updateProductStatus_set_updatedAt. by symmetry.
      * exact Hid.
      * apply length_insert.
      * intros id' Hne. f_equal. apply (list_find_insert_other _ _ _ _ _ Hi); simpl; congruence.
    + rewrite updateProductStatus_id.
      change (Product._id updated) with (Product._id p). rewrite Hid.
      erewrite list_find_replace; [|exact Hfind|exact Hid]. simpl.
      rewrite list_insert_insert_eq.
      do 2 eexists. split_and!; [reflexivity| | | | |].
      * erewrite list_find_replace; [reflexivity|exact Hfind|].
        simpl. rewrite updateProductStatus_id. exact Hid.
      * unfold updated. rewrite updateProductStatus_set_updatedAt, set_updatedAt_twice.
        reflexivity.
      * simpl. rewrite updateProductStatus_id. exact Hid.
      * apply length_insert.
      * intros id' Hne. f_equal. apply (list_find_insert_other _ _ _ _ _ Hi); simpl.
        -- congruence.
        -- rewrite updateProductStatus_id. simpl. congruence.
Qed.

Lemma update_merges_witness :
  let w := mongoWorld steadyEnv [stockItem oid1 5 10] [] in
  let body := ProductBody.mk (Some "Screws") None None (Some (ofZ 0)) None None None None None
                (Some Damaged) in
  exists p',
    lookupProduct (snd (put_api_products_id oid1 body w)) oid1 = Some p' /\
    Product.name p' = Some "Screws" /\ Product.sku p' = Some "NL-001" /\
    Product.quantity p' = Some (ofZ 0) /\ Product.status p' = Some OutOfStock.
Proof.
  intros w body.
  destruct (update_merges oid1 body w 0 (stockItem oid1 5 10) eq_refl)
    as (p' & u & _ & Hl & -> & _).
  - intros _. split_and!; reflexivity.
  - eexists. split; [exact Hl|]. split_and!; reflexivity.
Defined.

(** ** Stock movements: the record, unknown types, partial failure *)

Lemma orDefault_empty (s : option string) : orDefault s EmptyString = default EmptyString s.
Proof. destruct s as [s|]; [|reflexivity]. simpl. by destruct (String.eqb_spec s EmptyString). Qed.

(** X9.  A successful stock movement appends one record that carries the
    request: its product id (in persistent mode the ObjectId it is cast
    to), type and quantity, its notes (empty when the request has none)
    and its performer, which is System when the request names none; the
    record has a creation date.  In in-memory mode its id is the print
    of the transaction counter, which then advances by one.  Persistent
    mode: when the movement leaves the quantity a number. *)
Theorem movement_recorded (w : World) (body : TransactionBody.t) (id type : string)
    (p : Product.t) :
  serviceable w ->
  TransactionBody.productId body = Some id ->
  TransactionBody.type body = Some type -> type ∈ typeEnum ->
  lookupProduct w id = Some p ->
  (useInMemory w = false ->
   isNumber (Product.quantity
               (adjustQuantity (Some type) (TransactionBody.quantity body) p)) = true) ->
  let w' := snd (post_api_transactions body w) in
  exists t,
    storedTransactions w' = storedTransactions w ++ [t] /\
    Transaction.productId t = Some (storedId w id) /\
    Transaction.type t = Some type /\
    Transaction.quantity t = TransactionBody.quantity body /\
    Transaction.notes t = default EmptyString (TransactionBody.notes body) /\
    (TransactionBody.performedBy body = None -> Transaction.performedBy t = "System") /\
    (forall s, TransactionBody.performedBy body = Some s -> s <> EmptyString ->
               Transaction.performedBy t = s) /\
    is_Some (Transaction.createdAt t) /\
    (useInMemory w = true ->
     Transaction._id t = String_ (transactionIdCounter w) /\
     transactionIdCounter w' = S (transactionIdCounter w)).
Proof.
  destruct_world w. destruct body as [pid ty qty notes by_]. simpl.
  intros Hs -> -> Hty Hfind Hnum.
  unfold lookupProduct, storedId, storedProducts, storedTransactions, serviceable,
    backendAccepts, schemaValid in *.
  simpl in *.
  apply fmap_Some in Hfind as ([i p0] & Hfind & ->). simpl in Hnum |- *.
  pose proof Hfind as (Hi & Hid & _)%list_find_Some.
  assert (Hby : forall s, by_ = Some s -> s <> EmptyString -> orDefault by_ "System" = s).
  { intros s -> Hne. simpl. by destruct (String.eqb_spec s EmptyString). }
  destruct inMemory.
  - unfold_handlers. unfold_models. unfold_monad. simpl.
    rewrite find_by_optional_id, Hfind. simpl.
    destruct (typeIs (Some type) "IN"); simpl.
    all: eexists; split; [reflexivity|]; simpl.
    all: split_and!; try reflexivity; eauto using orDefault_empty.
    all: intros ->; reflexivity.
  - destruct (Hs eq_refl) as [Hup Hvalid]. specialize (Hnum eq_refl).
    assert (Hdoc : validDocument p0) by (eapply Forall_lookup_1; eauto).
    destruct Hdoc as [Hpaths Hoid]. rewrite Hid, isObjectId_lowerHex in Hoid.
    pose proof (Hup calls (le_n _)) as H0.
    pose proof (Hup (S calls) ltac:(lia)) as H1.
    pose proof (Hup (S (S calls)) ltac:(lia)) as H2.
    unfold_handlers. unfold_models. unfold_monad. simpl.
    rewrite Hoid. simpl. rewrite H0. simpl. rewrite Hfind. simpl.
    pose proof (productPaths_moved (Some type) qty (clk reads) p0 Hpaths Hnum) as Hmoved.
    pose proof (moved_id (Some type) qty (clk reads) p0) as Hmid.
    unfold moved, restockedAt, now in *. simpl.
    assert (Htx : forall t c u, transactionPaths
              (Transaction.mk t (Some (lowerHex id)) (Some type) qty
                 (default EmptyString notes) (default "System" by_) c u) = []).
    { intros. apply transactionPaths_ok; [done|]. by eapply adjusted_number. }
    destruct (typeIs (Some type) "IN"); simpl.
    all: rewrite Hmoved; simpl; case_bool_decide as Hsame; simpl.
    all: rewrite H1; simpl; rewrite ?Hmid, ?Hid, ?Hfind; simpl.
    all: rewrite Htx; simpl; rewrite H2; simpl.
    all: eexists; split; [reflexivity|]; simpl.
    all: split_and!; try reflexivity; eauto.
    all: try (intros ->; reflexivity); try (intros s -> _; reflexivity).
    all: intros H; discriminate H.
Qed.

Lemma movement_recorded_witness :
  let w := memoryWorld [stockItem "1" 5 10] [] in
  let body := TransactionBody.mk (Some "1") (Some "DAMAGE") (Some (ofZ 2)) None (Some "Asha") in
  storedTransactions (snd (post_api_transactions body w)) =
    [Transaction.mk "1" (Some "1") (Some "DAMAGE") (Some (ofZ 2)) EmptyString "Asha"
       (Some 1001) None] /\
  exists t,
    storedTransactions (snd (post_api_transactions body w)) = storedTransactions w ++ [t] /\
    Transaction.performedBy t = "Asha".
Proof.
  intros w body. split; [reflexivity|].
  destruct (movement_recorded w body "1" "DAMAGE" (stockItem "1" 5 10)
              (memoryWorld_serviceable _ _) eq_refl eq_refl typeEnum_DAMAGE eq_refl)
    as (t & Ht & _ & _ & _ & _ & _ & Hby & _).
  - intros H. discriminate H.
  - exists t. split; [exact Ht|]. apply Hby; [reflexivity|discriminate].
Defined.

Lemma unknownType_not (type : option string) (s : string) :
  unknownType type -> s ∈ typeEnum -> typeIs type s = false.
Proof. intros Hu Hs. unfold typeIs. apply bool_decide_eq_false_2. by apply Hu. Qed.

Lemma adjustQuantity_unknown type n p : unknownType type -> adjustQuantity type n p = p.
Proof.
  intros Hu. unfold adjustQuantity.
  rewrite (unknownType_not _ _ Hu typeEnum_IN), (unknownType_not _ _ Hu typeEnum_RETURN),
    (unknownType_not _ _ Hu typeEnum_OUT), (unknownType_not _ _ Hu typeEnum_DAMAGE).
  reflexivity.
Qed.

(** X10.  In in-memory mode a stock movement whose type is none of IN,
    OUT, DAMAGE, RETURN is accepted all the same: it is answered 201 and
    recorded with that type, while the product keeps its quantity and
    its [lastRestocked] (only the status is derived anew and [updatedAt]
    refreshed). *)
Theorem in_memory_unknown_type_recorded (w : World) (body : TransactionBody.t)
    (id : string) (p : Product.t) :
  useInMemory w = true ->
  TransactionBody.productId body = Some id ->
  unknownType (TransactionBody.type body) ->
  lookupProduct w id = Some p ->
  let w' := snd (post_api_transactions body w) in
  exists t u,
    fst (post_api_transactions body w) =
      res_status_json 201
        (JMovement t (Product.set_updatedAt u (updateProductStatus p))) /\
    storedTransactions w' = storedTransactions w ++ [t] /\
    Transaction.type t = TransactionBody.type body /\
    lookupProduct w' id = Some (Product.set_updatedAt u (updateProductStatus p)).
Proof.
  destruct_world w. destruct body as [pid type qty notes by_]. simpl.
  intros -> -> Hu Hfind.
  unfold lookupProduct, storedId, storedProducts, storedTransactions in *. simpl in *.
  apply fmap_Some in Hfind as ([i p0] & Hfind & ->). simpl.
  pose proof Hfind as (_ & Hid & _)%list_find_Some.
  unfold_handlers. unfold_models. unfold_monad. simpl.
  rewrite find_by_optional_id, Hfind. simpl.
  rewrite (unknownType_not _ _ Hu typeEnum_IN), (adjustQuantity_unknown _ _ _ Hu). simpl.
  do 2 eexists. split_and!; try reflexivity.
  erewrite list_find_replace; [reflexivity|exact Hfind|].
  simpl. by rewrite updateProductStatus_id.
Qed.

Lemma in_memory_unknown_type_recorded_witness :
  let w := memoryWorld [stockItem "1" 5 10] [] in
  let body := TransactionBody.mk (Some "1") (Some "LOST") (Some (ofZ 4)) None None in
  unknownType (TransactionBody.type body) /\
  (Product.quantity <$> lookupProduct (snd (post_api_transactions body w)) "1")
    = Some (Some (ofZ 5)) /\
  length (storedTransactions (snd (post_api_transactions body w))) = 1%nat.
Proof.
  intros w body.
  assert (Hu : unknownType (TransactionBody.type body)).
  { intros s Hs. unfold typeEnum in Hs. rewrite !elem_of_cons in Hs.
    destruct Hs as [->|[->|[->|[->|Hs]]]]; try discriminate. by apply elem_of_nil in Hs. }
  split; [exact Hu|].
  destruct (in_memory_unknown_type_recorded w body "1" (stockItem "1" 5 10)
              eq_refl eq_refl Hu eq_refl) as (t & u & _ & Ht & _ & Hl).
  rewrite Hl, Ht. split; reflexivity.
Defined.

Lemma transactionPaths_unknown t id type qty notes by_ c u :
  unknownType type ->
  transactionPaths (Transaction.mk t id type qty notes by_ c u) <> [].
Proof.
  intros Hu. unfold transactionPaths. simpl. rewrite !app_nil.
  intros (_ & Hty & _ & Henum & _). destruct type as [s|]; [|discriminate Hty].
  unfold enumString in Henum. rewrite bool_decide_eq_false_2 in Henum; [discriminate Henum|].
  intros Hs. by apply (Hu s Hs).
Qed.

(** X11.  In persistent mode a stock movement whose type is none of IN,
    OUT, DAMAGE, RETURN is never recorded: whatever else happens, the
    request is answered 400 or 404, no transaction is added, and no
    product changes its quantity or its [lastRestocked]. *)
Theorem persistent_unknown_type_rejected (w : World) (body : TransactionBody.t) :
  useInMemory w = false ->
  unknownType (TransactionBody.type body) ->
  let w' := snd (post_api_transactions body w) in
  (statusCode (fst (post_api_transactions body w)) = 400 \/
   statusCode (fst (post_api_transactions body w)) = 404) /\
  storedTransactions w' = storedTransactions w /\
  (fun d => (Product._id d, Product.quantity d, Product.lastRestocked d))
    <$> storedProducts w' =
  (fun d => (Product._id d, Product.quantity d, Product.lastRestocked d))
    <$> storedProducts w.
Proof.
  destruct_world w. destruct body as [[id|] type qty notes by_]; simpl.
  all: intros -> Hu; unfold storedProducts, storedTransactions; simpl.
  all: unfold_handlers; unfold_models; unfold_monad; simpl.
  2: { destruct (rej calls); simpl; auto. }
  destruct (isObjectId id); simpl; [|auto].
  destruct (rej calls); simpl; [auto|].
  destruct (list_find _ docs) as [[i p0]|] eqn:Hfind; simpl; [|auto].
  pose proof Hfind as (Hi & Hid & _)%list_find_Some.
  rewrite (unknownType_not _ _ Hu typeEnum_IN), (adjustQuantity_unknown _ _ _ Hu). simpl.
  destruct (productPaths (updateProductStatus p0)); simpl; [|auto].
  pose proof (transactionPaths_unknown (hexOfWidth 24 oids) (Some (lowerHex id)) type qty
                (default EmptyString notes) (default "System" by_) None None Hu) as Htx.
  case_bool_decide as Hsame; simpl.
  - destruct (rej (S calls)); simpl; [auto|].
    destruct (transactionPaths _) eqn:Hpaths; [contradiction|]. simpl. auto.
  - destruct (rej (S calls)); simpl; [auto|].
    rewrite updateProductStatus_id, Hid, Hfind. simpl.
    destruct (transactionPaths _) eqn:Hpaths; [contradiction|]. simpl.
    split_and!; [auto|reflexivity|].
    rewrite list_fmap_insert. apply list_insert_id.
    rewrite list_lookup_fmap, Hi. simpl.
    by rewrite updateProductStatus_id, updateProductStatus_quantity,
      updateProductStatus_lastRestocked.
Qed.

Lemma persistent_unknown_type_rejected_witness :
  let w := mongoWorld steadyEnv [stockItem oid1 5 10] [] in
  let body := TransactionBody.mk (Some oid1) (Some "LOST") (Some (ofZ 4)) None None in
  unknownType (TransactionBody.type body) /\
  statusCode (fst (post_api_transactions body w)) = 400 /\
  storedTransactions (snd (post_api_transactions body w)) = [].
Proof.
  intros w body.
  assert (Hu : unknownType (TransactionBody.type body)).
  { intros s Hs. unfold typeEnum in Hs. rewrite !elem_of_cons in Hs.
    destruct Hs as [->|[->|[->|[->|Hs]]]]; try discriminate. by apply elem_of_nil in Hs. }
  split; [exact Hu|]. split; [reflexivity|].
  apply (persistent_unknown_type_rejected w body eq_refl Hu).
Defined.

(** X12.  The two writes of a persistent stock movement are not atomic.
    When the backend accepts [findById] and [product.save()] but rejects
    [transaction.save()], the request is answered 400 with the backend's
    message, yet the product stays stored with the moved quantity and no
    transaction records the movement.  (The movement leaves the quantity
    a number, so that the product passes validation.) *)
Theorem movement_saved_without_record (w : World) (body : TransactionBody.t)
    (id type msg : string) (p : Product.t) :
  useInMemory w = false ->
  schemaValid w ->
  TransactionBody.productId body = Some id ->
  TransactionBody.type body = Some type -> type ∈ typeEnum ->
  lookupProduct w id = Some p ->
  isNumber (Product.quantity
              (adjustQuantity (Some type) (TransactionBody.quantity body) p)) = true ->
  rejects (env w) (awaited (env w)) = None ->
  rejects (env w) (S (awaited (env w))) = None ->
  rejects (env w) (S (S (awaited (env w)))) = Some msg ->
  let w' := snd (post_api_transactions body w) in
  fst (post_api_transactions body w) =
    res_status_json 400 (JError "Error creating transaction" msg) /\
  storedTransactions w' = storedTransactions w /\
  exists u, lookupProduct w' id =
    Some (Product.set_updatedAt u
            (moved (Some type) (TransactionBody.quantity body) (now w) p)).
Proof.
  destruct_world w. destruct body as [pid ty qty notes by_]. simpl.
  intros -> Hvalid -> -> Hty Hfind Hnum H0 H1 H2.
  unfold lookupProduct, storedId, storedProducts, storedTransactions, schemaValid in *.
  simpl in *.
  apply fmap_Some in Hfind as ([i p0] & Hfind & ->). simpl in Hnum |- *.
  pose proof Hfind as (Hi & Hid & _)%list_find_Some.
  assert (Hdoc : validDocument p0) by (eapply Forall_lookup_1; eauto).
  destruct Hdoc as [Hpaths Hoid]. rewrite Hid, isObjectId_lowerHex in Hoid.
  unfold_handlers. unfold_models. unfold_monad. simpl.
  rewrite Hoid. simpl. rewrite H0. simpl. rewrite Hfind. simpl.
  pose proof (productPaths_moved (Some type) qty (clk reads) p0 Hpaths Hnum) as Hmoved.
  pose proof (moved_id (Some type) qty (clk reads) p0) as Hmid.
  unfold moved, restockedAt, now in *. simpl.
  assert (Htx : forall t c u, transactionPaths
            (Transaction.mk t (Some (lowerHex id)) (Some type) qty
               (default EmptyString notes) (default "System" by_) c u) = []).
  { intros. apply transactionPaths_ok; [done|]. by eapply adjusted_number. }
  destruct (typeIs (Some type) "IN"); simpl.
  all: rewrite Hmoved; simpl; case_bool_decide as Hsame; simpl.
  all: rewrite H1; simpl; rewrite ?Hmid, ?Hid, ?Hfind; simpl.
  all: rewrite Htx; simpl; rewrite H2; simpl.
  all: split_and!; [reflexivity|reflexivity|].
  1,3: rewrite Hfind; simpl; exists (Product.updatedAt p0); rewrite Hsame;
         by rewrite set_updatedAt_self.
  all: eexists; erewrite list_find_replace; [reflexivity|exact Hfind|simpl; congruence].
Qed.

Lemma movement_saved_without_record_witness :
  let w := mongoWorld (failingEnv 2) [stockItem oid1 5 10] [] in
  let body := TransactionBody.mk (Some oid1) (Some "OUT") (Some (ofZ 3)) None None in
  statusCode (fst (post_api_transactions body w)) = 400 /\
  storedTransactions (snd (post_api_transactions body w)) = [] /\
  (Product.quantity <$> lookupProduct (snd (post_api_transactions body w)) oid1)
    = Some (Some (ofZ 2)).
Proof.
  intros w body.
  destruct (movement_saved_without_record w body oid1 "OUT" "connection timed out"
              (stockItem oid1 5 10) eq_refl) as (Hr & Ht & u & Hl);
    try reflexivity.
  - repeat constructor.
  - apply typeEnum_OUT.
  - rewrite Hr, Ht, Hl. split_and!; reflexivity.
Defined.

(** ** Creating a product *)

Lemma requiredString_nil path (s : option string) :
  requiredString path s = [] <-> ~ blank s.
Proof.
  unfold requiredString, blank. destruct s as [s|].
  - destruct (String.eqb_spec s EmptyString) as [->|Hne]; split; try done.
    + intros H. exfalso. apply H. by right.
    + intros _ [H|[= H]]; [discriminate H|contradiction].
  - split; [discriminate|]. intros H. exfalso. apply H. by left.
Qed.

(** The document [new Product(body)] builds passes validation exactly
    when the body has the required fields and no number of it is [NaN]. *)
Lemma productPaths_new (body : ProductBody.t) (id : string) (restocked : Z) :
  productPaths (updateProductStatus (Product.mk id
     (ProductBody.name body) (ProductBody.sku body) (ProductBody.category body)
     (Some (default zero (ProductBody.quantity body)))
     (Some (default (ofZ 10) (ProductBody.reorderPoint body)))
     (ProductBody.unitPrice body)
     (Some (default "Main Warehouse" (ProductBody.location body)))
     (Some (default EmptyString (ProductBody.supplier body)))
     (Some restocked)
     (Some (default InStock (ProductBody.status body)))
     None None)) = [] <-> ~ lacksRequired body /\ parsedNumbers body.
Proof.
  rewrite productPaths_nil. unfold lacksRequired, parsedNumbers.
  rewrite updateProductStatus_quantity, updateProductStatus_reorderPoint.
  assert (Hfields : forall p,
            Product.name (updateProductStatus p) = Product.name p /\
            Product.sku (updateProductStatus p) = Product.sku p /\
            Product.category (updateProductStatus p) = Product.category p /\
            Product.unitPrice (updateProductStatus p) = Product.unitPrice p).
  { intros p. unfold updateProductStatus. repeat case_match; simpl; auto. }
  destruct (Hfields (Product.mk id
     (ProductBody.name body) (ProductBody.sku body) (ProductBody.category body)
     (Some (default zero (ProductBody.quantity body)))
     (Some (default (ofZ 10) (ProductBody.reorderPoint body)))
     (ProductBody.unitPrice body)
     (Some (default "Main Warehouse" (ProductBody.location body)))
     (Some (default EmptyString (ProductBody.supplier body)))
     (Some restocked)
     (Some (default InStock (ProductBody.status body)))
     None None)) as (-> & -> & -> & ->). simpl.
  rewrite !requiredString_nil.
  assert (Hdefault : forall path (d : float) (v : jsnum),
            isNaN d = false ->
            (negb (isNaN (default d v)) = true <-> castNumber path v = [])).
  { intros path d [x|] Hd; simpl; [|by rewrite Hd]. by destruct (isNaN x). }
  rewrite (Hdefault "quantity"), (Hdefault "reorderPoint") by reflexivity.
  assert (Hprice : isNumber (ProductBody.unitPrice body) = true <->
                   ProductBody.unitPrice body <> None /\
                   castNumber "unitPrice" (ProductBody.unitPrice body) = []).
  { destruct (ProductBody.unitPrice body) as [x|]; simpl.
    - destruct (isNaN x); split; try done. by intros [_ H].
    - split; [discriminate|]. by intros [H _]. }
  rewrite Hprice. pose proof (enumString_derived (Product.mk id
     (ProductBody.name body) (ProductBody.sku body) (ProductBody.category body)
     (Some (default zero (ProductBody.quantity body)))
     (Some (default (ofZ 10) (ProductBody.reorderPoint body)))
     (ProductBody.unitPrice body)
     (Some (default "Main Warehouse" (ProductBody.location body)))
     (Some (default EmptyString (ProductBody.supplier body)))
     (Some restocked)
     (Some (default InStock (ProductBody.status body)))
     None None)) as Henum.
  tauto.
Qed.

(** X13.  In persistent mode a product is created, and answered 201,
    when the body has the required fields (its numbers being numbers, as
    JSON has them), no stored document has its sku and the backend
    accepts the save.  The stored document is last
    in the collection, has an ObjectId, the fields of the body, the
    schema's defaults for the absent ones (quantity 0, reorder point 10,
    location Main Warehouse, empty supplier, [lastRestocked] now), the
    status derived from them, whatever status the body gave, and both
    timestamps set to the time of the save. *)
Theorem persistent_create_defaults (body : ProductBody.t) (w : World) :
  useInMemory w = false ->
  ~ lacksRequired body ->
  parsedNumbers body ->
  skuTaken (ProductBody.sku body) (storedProducts w) = false ->
  rejects (env w) (awaited (env w)) = None ->
  let w' := snd (post_api_products body w) in
  exists p t,
    fst (post_api_products body w) = res_status_json 201 (JProduct p) /\
    storedProducts w' = storedProducts w ++ [p] /\
    isObjectId (Product._id p) = true /\
    Product.name p = ProductBody.name body /\
    Product.sku p = ProductBody.sku body /\
    Product.category p = ProductBody.category body /\
    Product.unitPrice p = ProductBody.unitPrice body /\
    Product.quantity p = Some (default zero (ProductBody.quantity body)) /\
    Product.reorderPoint p = Some (default (ofZ 10) (ProductBody.reorderPoint body)) /\
    Product.location p = Some (default "Main Warehouse" (ProductBody.location body)) /\
    Product.supplier p = Some (default EmptyString (ProductBody.supplier body)) /\
    Product.lastRestocked p = Some (default (now w) (ProductBody.lastRestocked body)) /\
    statusDerived p /\
    Product.createdAt p = Some t /\ Product.updatedAt p = Some t.
Proof.
  destruct_world w. unfold storedProducts, now. simpl.
  intros -> Hbody Hnumbers Hsku Hup.
  unfold_handlers; unfold_models; unfold_monad; simpl.
  destruct (ProductBody.lastRestocked body) as [d|] eqn:Hlr; simpl.
  all: match goal with
       | |- context [productPaths (updateProductStatus (Product.mk ?id _ _ _ _ _ _ _ _ (Some ?r) _ _ _))] =>
           rewrite (proj2 (productPaths_new body id r) (conj Hbody Hnumbers))
       end; simpl.
  all: rewrite Hup; simpl.
  all: assert (Hs : forall p, Product.sku (updateProductStatus p) = Product.sku p)
         by (intros p; unfold updateProductStatus; repeat case_match; reflexivity).
  all: rewrite Hs; simpl; rewrite Hsku; simpl.
  all: do 2 eexists; split_and!; try reflexivity.
  all: simpl; rewrite ?updateProductStatus_id, ?updateProductStatus_quantity,
         ?updateProductStatus_reorderPoint, ?updateProductStatus_lastRestocked; simpl;
       try reflexivity; try apply isObjectId_hexOfWidth.
  all: try (unfold updateProductStatus; repeat case_match; reflexivity).
  all: apply statusDerived_set_updatedAt, statusDerived_set_createdAt,
         statusDerived_updateProductStatus.
Qed.

Lemma persistent_create_defaults_witness :
  let w := mongoWorld steadyEnv [] [] in
  let body := ProductBody.mk (Some "Nails") (Some "NL-001") (Some "Hardware")
                None None (Some (ofZ 4)) None None None (Some Damaged) in
  exists p,
    storedProducts (snd (post_api_products body w)) = [p] /\
    Product.quantity p = Some (ofZ 0) /\ Product.reorderPoint p = Some (ofZ 10) /\
    Product.status p = Some OutOfStock.
Proof.
  intros w body.
  destruct (persistent_create_defaults body w eq_refl) as (p & t & Hr & Hs & Hrest);
    try reflexivity.
  - intros [[H|H]|[[H|H]|[[H|H]|H]]]; discriminate H.
  - split_and!; reflexivity.
  - exists p. split; [exact Hs|].
    destruct Hrest as (_ & _ & _ & _ & _ & Hq & Hrp & _ & _ & _ & Hd & _).
    split; [exact Hq|]. split; [exact Hrp|].
    rewrite <- Hd, updateProductStatus_status, Hq. reflexivity.
Defined.

(** X14.  In persistent mode a create request is refused, answered 400
    with the store left as it was, when the body lacks a required field
    (nothing is then sent to the backend), when the backend rejects the
    save, or when a stored document already has the sku. *)
Theorem persistent_create_refused (body : ProductBody.t) (w : World) :
  useInMemory w = false ->
  lacksRequired body \/
  is_Some (rejects (env w) (awaited (env w))) \/
  skuTaken (ProductBody.sku body) (storedProducts w) = true ->
  let w' := snd (post_api_products body w) in
  statusCode (fst (post_api_products body w)) = 400 /\
  storedProducts w' = storedProducts w /\
  storedTransactions w' = storedTransactions w /\
  (lacksRequired body -> awaited (env w') = awaited (env w)).
Proof.
  destruct_world w. unfold storedProducts, storedTransactions. simpl.
  intros -> Hrefused.
  unfold_handlers; unfold_models; unfold_monad; simpl.
  assert (Hs : forall p, Product.sku (updateProductStatus p) = Product.sku p)
    by (intros p; unfold updateProductStatus; repeat case_match; reflexivity).
  destruct (ProductBody.lastRestocked body) as [d|] eqn:Hlr; simpl.
  all: match goal with
       | |- context [productPaths (updateProductStatus (Product.mk ?id _ _ _ _ _ _ _ _ (Some ?r) _ _ _))] =>
           pose proof (productPaths_new body id r) as Hnew;
           destruct (productPaths (updateProductStatus
                       (Product.mk id _ _ _ _ _ _ _ _ (Some r) _ _ _))) eqn:Hpaths
       end; simpl.
  all: try (split_and!; reflexivity).
  all: assert (Hok : ~ lacksRequired body) by (by apply Hnew).
  all: destruct (rej calls) eqn:Hup; simpl; [split_and!; try reflexivity; contradiction|].
  all: rewrite Hs; simpl.
  all: destruct Hrefused as [H|[[msg H]|H]]; [contradiction|discriminate H|].
  all: rewrite H; simpl; split_and!; try reflexivity; contradiction.
Qed.

Lemma persistent_create_refused_witness :
  let w := mongoWorld steadyEnv [stockItem oid1 5 10] [] in
  let body := ProductBody.mk (Some "Bolts") (Some "NL-001") (Some "Hardware")
                (Some (ofZ 9)) None (Some (ofZ 2)) None None None None in
  skuTaken (ProductBody.sku body) (storedProducts w) = true /\
  fst (post_api_products body w) =
    res_status_json 400 (JError "Error creating product"
      ("E11000 duplicate key error collection: inventory_db.products index: sku_1 dup key: { sku: "
       +:+ quoted "NL-001" +:+ " }")) /\
  storedProducts (snd (post_api_products body w)) = [stockItem oid1 5 10].
Proof.
  intros w body. split; [reflexivity|]. split; [reflexivity|].
  apply (persistent_create_refused body w eq_refl). right. right. reflexivity.
Defined.



(** ** Listing products *)

(** X16.  [GET /api/products] returns every stored product and nothing
    else: in in-memory mode the array as it stands, in persistent mode
    (when the backend answers) the documents rearranged newest first by
    creation date. *)
Theorem get_api_products_lists (w : World) :
  (useInMemory w = true ->
   get_api_products w = (res_json (JProducts (inMemoryProducts w)), w)) /\
  (useInMemory w = false ->
   rejects (env w) (awaited (env w)) = None ->
   exists l,
     fst (get_api_products w) = res_json (JProducts l) /\
     l ≡ₚ productDocs (db w) /\
     StronglySorted (newestFirst Product.createdAt) l).
Proof.
  destruct_world w. simpl. split; intros ->.
  - reflexivity.
  - intros Hup. unfold_handlers. unfold_models. unfold_monad. simpl. rewrite Hup. simpl.
    eexists. split; [reflexivity|]. split.
    + apply merge_sort_Permutation.
    + apply StronglySorted_merge_sort; apply _.
Qed.

Lemma get_api_products_lists_witness :
  let older := Product.set_createdAt (Some 100) (stockItem oid1 5 10) in
  let newer := Product.set_createdAt (Some 200) (stockItem "0000000000000000000000a2" 0 3) in
  let w := mongoWorld steadyEnv [older; newer] [] in
  fst (get_api_products w) = res_json (JProducts [newer; older]) /\
  exists l, fst (get_api_products w) = res_json (JProducts l) /\ l ≡ₚ [older; newer].
Proof.
  intros older newer w. split; [reflexivity|].
  destruct (get_api_products_lists w) as [_ H].
  destruct (H eq_refl eq_refl) as (l & Hr & Hperm & _). eauto.
Defined.

(** ** Requests with a malformed id *)

(** X17.  In persistent mode a request that addresses a product by an id
    that is no ObjectId is refused before the backend is contacted: it
    is answered with the status of its route's [catch] clause (500 for
    get and delete, 400 for update and stock movement), never 404, and
    the state stays as it was. *)
Theorem malformed_id_refused (req : Request) (id : string) (w : World) :
  useInMemory w = false ->
  productIdOf req = Some id ->
  isObjectId id = false ->
  statusCode (fst (handle req w)) = failureStatus req /\
  snd (handle req w) = w.
Proof.
  destruct_world w. simpl. intros -> Hid Hoid.
  destruct req; try discriminate Hid; simpl in Hid.
  1-3: injection Hid as ->.
  4: destruct body as [pid type qty notes by_]; simpl in Hid; subst pid.
  all: cbn [handle]; unfold_handlers; unfold_models; unfold_monad; simpl.
  all: rewrite Hoid; simpl; split; reflexivity.
Qed.

Lemma malformed_id_refused_witness :
  let w := mongoWorld steadyEnv [stockItem oid1 5 10] [] in
  isObjectId "1" = false /\
  statusCode (fst (handle (DELETE_products_id "1") w)) = 500 /\
  snd (handle (DELETE_products_id "1") w) = w.
Proof.
  intros w. split; [reflexivity|].
  apply (malformed_id_refused (DELETE_products_id "1") "1" w); reflexivity.
Defined.

(** ** Seeding when the backend fails midway *)

(** X18.  Seeding in persistent mode deletes before it inserts.  When
    the backend accepts [deleteMany] and rejects [insertMany], the
    request is answered 500 and the catalog is left empty, whatever it
    held; the transactions are untouched. *)
Theorem seed_failure_empties_catalog (w : World) (msg : string) :
  useInMemory w = false ->
  rejects (env w) (awaited (env w)) = None ->
  rejects (env w) (S (awaited (env w))) = Some msg ->
  fst (post_api_seed w) = res_status_json 500 (JError "Error seeding data" msg) /\
  storedProducts (snd (post_api_seed w)) = [] /\
  storedTransactions (snd (post_api_seed w)) = storedTransactions w.
Proof.
  destruct_world w. simpl. intros -> Hfirst Hsecond.
  unfold post_api_seed, tryCatch, post_api_seed_try.
  compute_step. cbv iota. unfold Product_deleteMany.
  erewrite bind_value; [|accepted_step Hfirst; reflexivity].
  compute_step. unfold Product_insertMany.
  erewrite bind_thrown; [|compute_step; rejected_step Hsecond; reflexivity].
  split_and!; reflexivity.
Qed.

Lemma seed_failure_empties_catalog_witness :
  let w := mongoWorld (failingEnv 1) [stockItem oid1 5 10] [] in
  storedProducts w = [stockItem oid1 5 10] /\
  statusCode (fst (post_api_seed w)) = 500 /\
  storedProducts (snd (post_api_seed w)) = [].
Proof.
  intros w. split; [reflexivity|]. split; [reflexivity|].
  apply (seed_failure_empties_catalog w "connection timed out"); reflexivity.
Defined.

(** ** Analytics *)

(** What the analytics handler answers when it gets the products. *)
Lemma get_api_analytics_run (w : World) :
  (useInMemory w = false -> rejects (env w) (awaited (env w)) = None) ->
  fst (get_api_analytics w) = res_json (JAnalytics (analyticsOf (storedProducts w))).
Proof.
  destruct_world w. unfold storedProducts. simpl. intros Hup.
  unfold_handlers. unfold_models. unfold_monad. simpl.
  destruct inMemory; simpl; [reflexivity|]. by rewrite (Hup eq_refl).
Qed.

Lemma isLowStock_spec (p : Product.t) :
  isLowStock p = true <->
  Product.status p = Some LowStock \/ Product.status p = Some OutOfStock.
Proof.
  unfold isLowStock. rewrite orb_true_iff, !bool_decide_eq_true. reflexivity.
Qed.

Lemma alertOf_severity (p : Product.t) :
  isLowStock p = true ->
  (severity (alertOf p) = "critical" <-> Product.status p = Some OutOfStock) /\
  (severity (alertOf p) = "warning" <-> Product.status p = Some LowStock).
Proof.
  intros [Hlow|Hout]%isLowStock_spec; unfold alertOf; simpl.
  - rewrite bool_decide_eq_false_2 by (rewrite Hlow; discriminate).
    rewrite Hlow. split; split; try done; discriminate.
  - rewrite bool_decide_eq_true_2 by exact Hout.
    rewrite Hout. split; split; try done; discriminate.
Qed.

(** X19.  The analytics raise one alert per stored product whose status
    is Low Stock or Out of Stock, in the order of the products, each
    with the product's id, name, quantity and reorder point; its
    severity is critical exactly for Out of Stock and warning exactly
    for Low Stock.  [lowStockCount] is the number of alerts and
    [lowStockItems] holds the first 10 of those products. *)
Theorem analytics_alerts (w : World) :
  (useInMemory w = false -> rejects (env w) (awaited (env w)) = None) ->
  exists a,
    fst (get_api_analytics w) = res_json (JAnalytics a) /\
    lowStockCount a = length (alerts a) /\
    lowStockItems a = take 10 (List.filter isLowStock (storedProducts w)) /\
    Forall2
      (fun p al =>
         alertProductId al = Product._id p /\ productName al = Product.name p /\
         currentStock al = Product.quantity p /\
         alertReorderPoint al = Product.reorderPoint p /\
         (severity al = "critical" <-> Product.status p = Some OutOfStock) /\
         (severity al = "warning" <-> Product.status p = Some LowStock))
      (List.filter isLowStock (storedProducts w)) (alerts a).
Proof.
  intros Hup. rewrite (get_api_analytics_run w Hup).
  eexists. split; [reflexivity|]. unfold analyticsOf. simpl.
  split_and!; [by rewrite length_fmap|reflexivity|].
  apply Forall2_fmap_r, Forall_Forall2_diag, Forall_forall.
  intros p Hin. apply list_elem_of_In, filter_In in Hin as [_ Hlow].
  destruct (alertOf_severity p Hlow) as [Hc Hw]. split_and!; done.
Qed.

Lemma analytics_alerts_witness :
  let w := memoryWorld [stockItem "1" 5 10; stockItem "2" 50 10; stockItem "3" 0 10] [] in
  exists a,
    fst (get_api_analytics w) = res_json (JAnalytics a) /\
    lowStockCount a = 2%nat /\
    severity <$> alerts a = ["warning"; "critical"].
Proof.
  intros w.
  destruct (analytics_alerts w) as (a & Hr & Hcount & _ & _); [discriminate|].
  exists a. split; [exact Hr|].
  injection Hr as <-. split; reflexivity.
Defined.

Lemma statusDerived_not_damaged (p : Product.t) :
  statusDerived p -> Product.status p <> Some Damaged.
Proof.
  intros Hp Heq. apply statusDerived_status in Hp. rewrite Heq in Hp.
  unfold derivedStatuses in Hp. rewrite !elem_of_cons in Hp.
  destruct Hp as [H|[H|[H|H]]]; try discriminate H. by apply elem_of_nil in H.
Qed.

(** X20.  When every stored product has its derived status, as the
    handlers leave them, the analytics count no damaged product, and
    every product is either counted as low stock or In Stock:
    [damagedCount] is 0 and [lowStockCount] plus the number of In Stock
    products is [totalProducts]. *)
Theorem analytics_counts (w : World) :
  (useInMemory w = false -> rejects (env w) (awaited (env w)) = None) ->
  Forall statusDerived (storedProducts w) ->
  exists a,
    fst (get_api_analytics w) = res_json (JAnalytics a) /\
    damagedCount a = 0%nat /\
    (lowStockCount a +
     length (List.filter (fun p => bool_decide (Product.status p = Some InStock))
               (storedProducts w)))%nat = totalProducts a.
Proof.
  intros Hup Hderived. rewrite (get_api_analytics_run w Hup).
  eexists. split; [reflexivity|]. unfold analyticsOf. simpl.
  induction Hderived as [|p l Hp Hl [IHd IHc]]; [split; reflexivity|].
  pose proof (statusDerived_not_damaged p Hp) as Hnd.
  pose proof (statusDerived_status p Hp) as Hin.
  unfold derivedStatuses in Hin. rewrite !elem_of_cons in Hin.
  simpl. unfold isLowStock at 1 3.
  rewrite (bool_decide_eq_false_2 _ Hnd).
  split; [exact IHd|].
  destruct Hin as [H|[H|[H|H]]]; [| | |by apply elem_of_nil in H].
  all: rewrite H; unfold isLowStock in *; simpl in *; lia.
Qed.

Lemma analytics_counts_witness :
  let w := memoryWorld [stockItem "1" 5 10; stockItem "2" 50 10; stockItem "3" 0 10] [] in
  exists a,
    fst (get_api_analytics w) = res_json (JAnalytics a) /\
    damagedCount a = 0%nat /\ lowStockCount a = 2%nat /\ totalProducts a = 3%nat.
Proof.
  intros w.
  destruct (analytics_counts w) as (a & Hr & Hd & _); [discriminate|repeat constructor|].
  exists a. split; [exact Hr|]. split; [exact Hd|].
  injection Hr as <-. split; reflexivity.
Defined.

(** Counting into an accumulator: a category that occurs gets its
    earlier count plus its number of products. *)
Lemma fold_countCategory (products : list Product.t) (acc : gmap string Z) (c : string) :
  fold_left countCategory products acc !! c =
  if decide (inCategory c products = 0%nat) then acc !! c
  else Some (default 0 (acc !! c) + Z.of_nat (inCategory c products)).
Proof.
  revert acc. induction products as [|p l IH]; intros acc; [reflexivity|].
  simpl. rewrite IH. unfold inCategory. simpl. unfold countCategory.
  fold (categoryKey p).
  destruct (decide (categoryKey p = c)) as [->|Hne].
  - rewrite bool_decide_eq_true_2 by reflexivity. simpl.
    rewrite lookup_insert_eq. simpl.
    destruct (decide (length _ = 0%nat)) as [->|_]; [reflexivity|].
    f_equal. lia.
  - rewrite bool_decide_eq_false_2 by exact Hne.
    rewrite lookup_insert_ne by exact Hne. reflexivity.
Qed.

(** X21.  When no stored product has a category that is a property
    name every object inherits, the analytics' category breakdown maps
    each category to the number of stored products of that category,
    and has no entry for a category without products; products without
    a category are counted under the name undefined. *)
Theorem analytics_categoryBreakdown (w : World) (c : string) :
  (useInMemory w = false -> rejects (env w) (awaited (env w)) = None) ->
  Forall (fun p => categoryKey p ∉ prototypeNames) (storedProducts w) ->
  exists a,
    fst (get_api_analytics w) = res_json (JAnalytics a) /\
    categoryBreakdown a !! c =
      if decide (inCategory c (storedProducts w) = 0%nat) then None
      else Some (Z.of_nat (inCategory c (storedProducts w))).
Proof.
  intros Hup _. rewrite (get_api_analytics_run w Hup).
  eexists. split; [reflexivity|]. unfold analyticsOf. simpl.
  rewrite fold_countCategory, lookup_empty. simpl.
  destruct (decide _); [reflexivity|]. f_equal.
Qed.

Lemma analytics_categoryBreakdown_witness :
  let w := memoryWorld
             [stockItem "1" 5 10; stockItem "2" 50 10;
              Product.mk "3" None None None None None None None None None None None None] [] in
  exists a,
    fst (get_api_analytics w) = res_json (JAnalytics a) /\
    categoryBreakdown a !! "Hardware" = Some 2 /\
    categoryBreakdown a !! "undefined" = Some 1 /\
    categoryBreakdown a !! "Steel" = None.
Proof.
  intros w.
  destruct (analytics_categoryBreakdown w "Hardware") as (a & Hr & Hh).
  { discriminate. }
  { repeat constructor; apply (bool_decide_unpack _); vm_compute; reflexivity. }
  exists a. split; [exact Hr|]. split; [exact Hh|].
  injection Hr as <-. split; reflexivity.
Defined.

(** *** Sorting

    What [Array_sort] returns for a comparator that is consistent on the
    list: a rearrangement of the list in which no element stands before
    one it must follow, and in which elements that the comparator ranks
    alike keep the order they had. *)

Lemma insertSorted_Permutation {A} (compareFn : A -> A -> jsnum) (x : A) (l : list A) :
  insertSorted compareFn x l ≡ₚ x :: l.
Proof.
  induction l as [|y l IH]; [reflexivity|]. simpl.
  destruct (jsPositive _); [|reflexivity].
  rewrite IH. apply Permutation_swap.
Qed.

Lemma Array_sort_Permutation {A} (compareFn : A -> A -> jsnum) (l : list A) :
  Array_sort compareFn l ≡ₚ l.
Proof.
  induction l as [|x l IH]; [reflexivity|].
  unfold Array_sort in *. simpl. by rewrite insertSorted_Permutation, IH.
Qed.

Lemma consistentOn_spec {A} (compareFn : A -> A -> jsnum) (l : list A) :
  consistentOn compareFn l <->
  forall a b, a ∈ l -> b ∈ l ->
    (sortsAfter compareFn a b = true -> sortsAfter compareFn b a = false) /\
    (forall c, c ∈ l ->
       sortsAfter compareFn a b = false -> sortsAfter compareFn b c = false ->
       sortsAfter compareFn a c = false).
Proof.
  unfold consistentOn. rewrite Forall_forall. split.
  - intros H a b Ha Hb. specialize (H a Ha). rewrite Forall_forall in H.
    destruct (H b Hb) as [Hanti Htrans]. split; [exact Hanti|].
    intros c Hc. rewrite Forall_forall in Htrans. by apply Htrans.
  - intros H a Ha. rewrite Forall_forall. intros b Hb.
    destruct (H a b Ha Hb) as [Hanti Htrans]. split; [exact Hanti|].
    rewrite Forall_forall. intros c Hc. by apply Htrans.
Qed.

Lemma insertSorted_sorted {A} (compareFn : A -> A -> jsnum) (all : list A)
    (x : A) (l : list A) :
  consistentOn compareFn all -> x ∈ all -> l ⊆ all ->
  StronglySorted (fun a b => sortsAfter compareFn a b = false) l ->
  StronglySorted (fun a b => sortsAfter compareFn a b = false) (insertSorted compareFn x l).
Proof.
  rewrite consistentOn_spec. intros Hc Hx Hl Hsorted.
  induction Hsorted as [|y l Hsorted IH Hy]; [repeat constructor|].
  assert (Hyall : y ∈ all) by (apply Hl; left).
  assert (Hlall : l ⊆ all) by (intros z Hz; apply Hl; by right).
  simpl. fold (sortsAfter compareFn x y).
  destruct (sortsAfter compareFn x y) eqn:Hxy.
  - constructor; [by apply IH|].
    rewrite insertSorted_Permutation. constructor; [|exact Hy].
    by apply (Hc x y Hx Hyall).
  - constructor; [by constructor|]. constructor; [exact Hxy|].
    rewrite Forall_forall in Hy |- *. intros z Hz.
    apply (proj2 (Hc x y Hx Hyall) z (Hlall z Hz) Hxy). by apply Hy.
Qed.

Lemma Array_sort_sorted {A} (compareFn : A -> A -> jsnum) (all l : list A) :
  consistentOn compareFn all -> l ⊆ all ->
  StronglySorted (fun a b => sortsAfter compareFn a b = false) (Array_sort compareFn l).
Proof.
  intros Hc. induction l as [|x l IH]; intros Hl; [constructor|].
  change (Array_sort compareFn (x :: l))
    with (insertSorted compareFn x (Array_sort compareFn l)).
  apply (insertSorted_sorted compareFn all); [exact Hc|apply Hl; left| |].
  - intros z Hz. rewrite Array_sort_Permutation in Hz. apply Hl. by right.
  - apply IH. intros z Hz. apply Hl. by right.
Qed.

Lemma insertSorted_stable {A} (compareFn : A -> A -> jsnum) (all : list A)
    (p x : A) (l : list A) :
  consistentOn compareFn all -> p ∈ all -> x ∈ all -> l ⊆ all ->
  List.filter (tied compareFn p) (insertSorted compareFn x l) =
  List.filter (tied compareFn p) (x :: l).
Proof.
  rewrite consistentOn_spec. intros Hc Hp Hx.
  induction l as [|y l IH]; intros Hl; [reflexivity|].
  assert (Hyall : y ∈ all) by (apply Hl; left).
  assert (Hlall : l ⊆ all) by (intros z Hz; apply Hl; by right).
  cbn [insertSorted]. fold (sortsAfter compareFn x y).
  destruct (sortsAfter compareFn x y) eqn:Hxy; [|reflexivity].
  cbn [List.filter] in *. rewrite (IH Hlall).
  destruct (tied compareFn p x) eqn:Tx, (tied compareFn p y) eqn:Ty; try reflexivity.
  unfold tied in Tx, Ty.
  apply andb_true_iff in Tx as [_ Hxp%negb_true_iff].
  apply andb_true_iff in Ty as [Hpy%negb_true_iff _].
  rewrite (proj2 (Hc x p Hx Hp) y Hyall Hxp Hpy) in Hxy. discriminate Hxy.
Qed.

Lemma Array_sort_stable {A} (compareFn : A -> A -> jsnum) (all : list A) (p : A)
    (l : list A) :
  consistentOn compareFn all -> p ∈ all -> l ⊆ all ->
  List.filter (tied compareFn p) (Array_sort compareFn l) = List.filter (tied compareFn p) l.
Proof.
  intros Hc Hp. induction l as [|x l IH]; intros Hl; [reflexivity|].
  change (Array_sort compareFn (x :: l))
    with (insertSorted compareFn x (Array_sort compareFn l)).
  rewrite (insertSorted_stable compareFn all); [|exact Hc|exact Hp|apply Hl; left|].
  - cbn [List.filter]. rewrite IH; [reflexivity|]. intros z Hz. apply Hl. by right.
  - intros z Hz. rewrite Array_sort_Permutation in Hz. apply Hl. by right.
Qed.

(** *** The comparator of the analytics on whole numbers *)

Lemma isWhole_fmul (q u : Z) :
  safe q -> safe u -> safe (q * u) -> isWhole (fmul (ofZ q) (ofZ u)) (q * u).
Proof.
  intros Hq Hu Hqu. destruct (Z.eq_dec (q * u) 0) as [Hz|Hnz].
  - rewrite Hz. unfold fmul.
    destruct (signed_cases q) as [->|(s & m & ->)], (signed_cases u) as [->|(s' & m' & ->)].
    + by left.
    + apply safe_signed in Hu. rewrite ofZ_signed by done.
      destruct s'; [right|left]; by split.
    + apply safe_signed in Hq. rewrite ofZ_signed by done.
      destruct s; [right|left]; by split.
    + rewrite signed_mul in Hz. destruct (xorb s s'); discriminate Hz.
  - left. by apply fmul_ofZ.
Qed.

Lemma SFltb_zero_ofZ (v : Z) : safe v -> SFltb zero (ofZ v) = (0 <? v).
Proof.
  intros Hv. unfold SFltb. change zero with (ofZ 0).
  rewrite compare_ofZ by (done || reflexivity).
  unfold Z.ltb. by destruct (0 ?= v).
Qed.

(** The sign of [y - x] for whole numbers [b] and [a]. *)
Lemma fsub_positive (x y : float) (a b : Z) :
  isWhole x a -> isWhole y b -> safe a -> safe b -> safe (b - a) ->
  SFltb zero (fsub y x) = (a <? b).
Proof.
  intros Hx Hy Ha Hb Hab.
  assert (Hneg : forall v, safe v -> v <> 0 ->
            fsub (S754_zero true) (ofZ v) = ofZ (- v) /\ fsub (ofZ v) (S754_zero true) = ofZ v).
  { intros v Hv Hne. destruct (signed_cases v) as [->|(s & m & ->)]; [done|].
    apply safe_signed in Hv. rewrite signed_opp, !ofZ_signed by done. by split. }
  assert (Hzero : forall v, v = 0 ->
            SFltb zero (fsub (S754_zero true) (ofZ v)) = false /\
            SFltb zero (fsub (ofZ v) (S754_zero true)) = false).
  { intros v ->. by split. }
  destruct Hx as [->|[-> ->]], Hy as [->|[-> ->]].
  - rewrite fsub_ofZ, SFltb_zero_ofZ by done.
    apply eq_true_iff_eq. rewrite !Z.ltb_lt. lia.
  - destruct (Z.eq_dec a 0) as [Hz|Hnz].
    + rewrite (proj1 (Hzero a Hz)). symmetry. apply Z.ltb_ge. lia.
    + rewrite (proj1 (Hneg a Ha Hnz)), SFltb_zero_ofZ by (unfold safe in *; lia).
      apply eq_true_iff_eq. rewrite !Z.ltb_lt. lia.
  - destruct (Z.eq_dec b 0) as [Hz|Hnz].
    + rewrite (proj2 (Hzero b Hz)). symmetry. apply Z.ltb_ge. lia.
    + by rewrite (proj2 (Hneg b Hb Hnz)), SFltb_zero_ofZ.
  - reflexivity.
Qed.

(** On whole quantities and prices the comparator places [x] behind [y]
    exactly when [x] is worth less. *)
Lemma sortsAfter_whole (x y : Product.t) (q u q' u' : Z) :
  Product.quantity x = Some (ofZ q) -> Product.unitPrice x = Some (ofZ u) ->
  Product.quantity y = Some (ofZ q') -> Product.unitPrice y = Some (ofZ u') ->
  safe q -> safe u -> Z.abs (q * u) < 2 ^ 52 ->
  safe q' -> safe u' -> Z.abs (q' * u') < 2 ^ 52 ->
  sortsAfter byValueDescending x y = (q * u <? q' * u').
Proof.
  intros Hq Hu Hq' Hu' Sq Su Sv Sq' Su' Sv'.
  unfold sortsAfter, byValueDescending, stockValue, jsPositive, jsSub, jsMul.
  rewrite Hq, Hu, Hq', Hu'. simpl.
  apply fsub_positive; try apply isWhole_fmul; unfold safe in *; try done; lia.
Qed.

(** So on such a catalog the comparator is consistent. *)
Lemma consistentOn_whole (products : list Product.t) (amounts : list (Z * Z)) :
  hasAmounts products amounts -> modestAmounts amounts ->
  consistentOn byValueDescending products.
Proof.
  intros Hl Hmodest.
  assert (Hvalue : forall x, x ∈ products ->
    exists q u, Product.quantity x = Some (ofZ q) /\ Product.unitPrice x = Some (ofZ u) /\
                safe q /\ safe u /\ Z.abs (q * u) < 2 ^ 52).
  { clear -Hl Hmodest. induction Hl as [|p [q u] ps qs [Hq Hu] Hrest IH].
    - intros x Hx. by apply elem_of_nil in Hx.
    - apply Forall_cons in Hmodest as [(Sq & Su & Sv) Hmodest].
      intros x [->|Hx]%elem_of_cons; [exists q, u; by split_and!|by apply IH]. }
  apply consistentOn_spec. intros a b Ha Hb.
  destruct (Hvalue a Ha) as (qa & ua & ? & ? & ? & ? & ?).
  destruct (Hvalue b Hb) as (qb & ub & ? & ? & ? & ? & ?).
  rewrite (sortsAfter_whole a b qa ua qb ub), (sortsAfter_whole b a qb ub qa ua) by done.
  split.
  - rewrite Z.ltb_lt, Z.ltb_ge. lia.
  - intros c Hc. destruct (Hvalue c Hc) as (qc & uc & ? & ? & ? & ? & ?).
    rewrite (sortsAfter_whole b c qb ub qc uc), (sortsAfter_whole a c qa ua qc uc) by done.
    rewrite !Z.ltb_ge. lia.
Qed.

(** X22.  When the comparator of the analytics is consistent on the
    stored products (as it is on whole quantities and prices of modest
    size), [topProducts] are the first 5 (or all, when there are fewer)
    of the stored products arranged by the comparator: no product stands
    before one it must follow, so none that is left out must precede a
    listed one, and products that the comparator ranks alike (two items
    out of stock, say) come in the order of the list. *)
Theorem analytics_topProducts (w : World) :
  (useInMemory w = false -> rejects (env w) (awaited (env w)) = None) ->
  consistentOn byValueDescending (storedProducts w) ->
  exists a rest,
    fst (get_api_analytics w) = res_json (JAnalytics a) /\
    length (topProducts a) = Nat.min 5 (length (storedProducts w)) /\
    storedProducts w ≡ₚ topProducts a ++ rest /\
    StronglySorted (fun x y => sortsAfter byValueDescending x y = false)
      (topProducts a ++ rest) /\
    (forall p, p ∈ storedProducts w ->
       List.filter (tied byValueDescending p) (topProducts a ++ rest) =
       List.filter (tied byValueDescending p) (storedProducts w)) /\
    (forall x y q u q' u',
       x ∈ topProducts a -> y ∈ rest ->
       Product.quantity x = Some (ofZ q) -> Product.unitPrice x = Some (ofZ u) ->
       Product.quantity y = Some (ofZ q') -> Product.unitPrice y = Some (ofZ u') ->
       safe q -> safe u -> Z.abs (q * u) < 2 ^ 52 ->
       safe q' -> safe u' -> Z.abs (q' * u') < 2 ^ 52 ->
       q' * u' <= q * u).
Proof.
  intros Hup Hc. rewrite (get_api_analytics_run w Hup).
  set (products := storedProducts w) in *.
  set (sorted := Array_sort byValueDescending products).
  assert (Hperm : sorted ≡ₚ products) by apply Array_sort_Permutation.
  assert (Hsorted : StronglySorted (fun x y => sortsAfter byValueDescending x y = false)
                      sorted) by (by apply (Array_sort_sorted _ products)).
  exists (analyticsOf products), (drop 5 sorted).
  split; [reflexivity|]. unfold analyticsOf. simpl. fold sorted.
  rewrite take_drop. split_and!.
  - by rewrite length_take, (Permutation_length Hperm).
  - by symmetry.
  - exact Hsorted.
  - intros p Hp. by apply (Array_sort_stable _ products).
  - intros x y q u q' u' Hx Hy Hq Hu Hq' Hu' Sq Su Sv Sq' Su' Sv'.
    rewrite <- (take_drop 5 sorted) in Hsorted.
    apply StronglySorted_app in Hsorted as (Hcross & _ & _).
    specialize (Hcross x y Hx Hy). simpl in Hcross.
    rewrite (sortsAfter_whole x y q u q' u') in Hcross by done.
    apply Z.ltb_ge in Hcross. lia.
Qed.

Lemma analytics_topProducts_witness :
  let w := memoryWorld [stockItem "1" 0 10; stockItem "2" 50 10; stockItem "3" 0 10] [] in
  exists a,
    fst (get_api_analytics w) = res_json (JAnalytics a) /\
    Product._id <$> topProducts a = ["2"; "1"; "3"] /\
    length (topProducts a) = 3%nat.
Proof.
  intros w.
  destruct (analytics_topProducts w) as (a & rest & Hr & Hlen & _).
  - discriminate.
  - apply (consistentOn_whole _ [(0, 4); (50, 4); (0, 4)]); repeat constructor.
  - exists a. split; [exact Hr|]. split; [|exact Hlen].
    injection Hr as <-. vm_compute. reflexivity.
Defined.

(** ** The derivation function *)

(** X23.  [updateProductStatus] changes nothing but the status, and
    applying it again changes nothing more. *)
Theorem updateProductStatus_only_status (p : Product.t) :
  Product.set_status (Product.status p) (updateProductStatus p) = p /\
  updateProductStatus (updateProductStatus p) = updateProductStatus p.
Proof.
  split; [|apply statusDerived_updateProductStatus].
  unfold updateProductStatus. destruct p. repeat case_match; reflexivity.
Qed.

(** ** Getting a product, refusing an update *)

(** X24.  [GET /api/products/:id] on a stored product is answered 200
    with the product the id denotes.  Persistent mode: when the id is an
    ObjectId, in whichever case, and the backend answers. *)
Theorem get_returns_stored (id : string) (w : World) (p : Product.t) :
  lookupProduct w id = Some p ->
  (useInMemory w = false ->
   isObjectId id = true /\ rejects (env w) (awaited (env w)) = None) ->
  fst (get_api_products_id id w) = res_json (JProduct p).
Proof.
  destruct_world w. unfold lookupProduct, storedId, storedProducts. simpl.
  intros Hfind Hpersistent.
  apply fmap_Some in Hfind as ([i p0] & Hfind & ->). simpl.
  unfold_handlers; unfold_models; unfold_monad; simpl.
  destruct inMemory; simpl in *.
  - by rewrite Hfind.
  - destruct (Hpersistent eq_refl) as [Hoid Hup].
    rewrite Hoid. simpl. rewrite Hup. simpl. by rewrite Hfind.
Qed.

Lemma get_returns_stored_witness :
  let w := mongoWorld steadyEnv [stockItem oid1 5 10] [] in
  let ID := "0000000000000000000000A1" in
  lowerHex ID = oid1 /\
  fst (get_api_products_id ID w) = res_json (JProduct (stockItem oid1 5 10)).
Proof.
  intros w ID. split; [reflexivity|].
  apply (get_returns_stored ID w (stockItem oid1 5 10) eq_refl).
  intros _. split; reflexivity.
Defined.

(** X25.  In persistent mode an update is refused, answered 400 with
    the products left as they were, when the body fails the update
    validators (an empty name, sku or category, a number that is [NaN],
    a status outside the enum), when the backend rejects
    [findByIdAndUpdate], or when another document already has the
    resulting sku. *)
Theorem persistent_update_refused (id : string) (body : ProductBody.t) (w : World) :
  useInMemory w = false ->
  isObjectId id = true ->
  updatePaths body <> [] \/
  is_Some (rejects (env w) (awaited (env w))) \/
  (exists i p, list_find (fun d => Product._id d = storedId w id) (storedProducts w)
                 = Some (i, p) /\
               skuTaken (overlay (ProductBody.sku body) (Product.sku p))
                 (delete i (storedProducts w)) = true) ->
  statusCode (fst (put_api_products_id id body w)) = 400 /\
  storedProducts (snd (put_api_products_id id body w)) = storedProducts w /\
  storedTransactions (snd (put_api_products_id id body w)) = storedTransactions w.
Proof.
  destruct_world w. unfold storedId, storedProducts, storedTransactions. simpl.
  intros -> Hoid Hrefused.
  unfold_handlers; unfold_models; unfold_monad; simpl.
  rewrite Hoid. simpl.
  destruct (updatePaths body) eqn:Hbody; simpl; [|split_and!; reflexivity].
  destruct (rej calls) eqn:Hup; simpl; [split_and!; reflexivity|].
  destruct Hrefused as [H|[[msg H]|(i & p & Hfind & Hsku)]];
    [contradiction|discriminate H|].
  rewrite Hfind. simpl. rewrite Hsku. simpl. split_and!; reflexivity.
Qed.

Lemma persistent_update_refused_witness :
  let w := mongoWorld steadyEnv [stockItem oid1 5 10] [] in
  let body := ProductBody.mk None None None None None None None None None (Some "Broken") in
  fst (put_api_products_id oid1 body w) =
    res_status_json 400 (JError "Error updating product"
      "Validation failed: status: `Broken` is not a valid enum value for path `status`.") /\
  storedProducts (snd (put_api_products_id oid1 body w)) = [stockItem oid1 5 10].
Proof.
  intros w body. split; [reflexivity|].
  apply (persistent_update_refused oid1 body w eq_refl eq_refl).
  left. discriminate.
Defined.

(** ** The status invariant along a history *)

(** No handler changes what the backend will reject. *)
Lemma handle_keeps_rejects (req : Request) (w : World) :
  rejects (env (snd (handle req w))) = rejects (env w).
Proof.
  destruct_world w. destruct inMemory.
  - destruct req; cbn [handle].
    10: { vm_compute. reflexivity. }
    all: unfold_handlers; unfold get_api_health; unfold_models; unfold_monad; simpl.
    all: try case_find; simpl.
    all: try reflexivity.
    destruct (typeIs _ "IN"); reflexivity.
  - destruct req; cbn [handle].
    10: { unfold post_api_seed, tryCatch, post_api_seed_try.
          compute_step. cbv iota. unfold Product_deleteMany.
          destruct (rej calls) as [msg|] eqn:Hfirst.
          - erewrite bind_thrown; [|rejected_step Hfirst; reflexivity]. reflexivity.
          - erewrite bind_value; [|accepted_step Hfirst; reflexivity].
            compute_step. unfold Product_insertMany.
            destruct (rej (S calls)) as [msg|] eqn:Hsecond.
            + erewrite bind_thrown; [|compute_step; rejected_step Hsecond; reflexivity].
              reflexivity.
            + erewrite bind_value;
                [|compute_step; accepted_step Hsecond; lazy -[hexOfWidth]; reflexivity].
              reflexivity. }
    all: unfold_handlers; unfold get_api_health; unfold_models; unfold_monad; simpl.
    all: try (destruct body as [[id|] type qty notes by_]; simpl).
    all: try (destruct (ProductBody.lastRestocked body); simpl).
    all: repeat (case_inner; simpl).
    all: reflexivity.
Qed.

(** One request, in either mode, with a backend that rejects nothing. *)
Lemma handle_consistent (req : Request) (w : World) :
  (forall k, rejects (env w) k = None) ->
  consistent w -> consistent (snd (handle req w)).
Proof.
  intros Hup Hc. destruct (useInMemory w) eqn:Hmode.
  - by apply in_memory_consistent.
  - destruct req.
    + by apply persistent_reads_consistent.
    + by apply persistent_reads_consistent.
    + by apply persistent_reads_consistent.
    + by apply persistent_create_consistent.
    + apply persistent_update_consistent; auto.
    + by apply persistent_reads_consistent.
    + by apply persistent_transaction_consistent.
    + by apply persistent_reads_consistent.
    + by apply persistent_reads_consistent.
    + by apply persistent_seed_consistent.
Qed.

(** X26.  With a backend that rejects no call, in either mode, the
    status invariant holds along every sequence of requests: starting
    from a store whose products have their derived status (an empty
    store, for one), every product stored afterwards has the status
    derived from its quantity and reorder point, and none is Damaged,
    whatever statuses the requests supplied. *)
Theorem status_invariant_along_history (reqs : list Request) (w : World) :
  (forall k, rejects (env w) k = None) ->
  consistent w ->
  consistent (serve reqs w) /\
  Forall (fun p => statusDerived p /\ Product.status p <> Some Damaged)
    (storedProducts (serve reqs w)).
Proof.
  intros Hup Hc.
  assert (Hkept : consistent (serve reqs w)).
  { revert w Hup Hc. induction reqs as [|req rest IH]; intros w Hup Hc; [exact Hc|].
    simpl. apply IH.
    - intros k. rewrite handle_keeps_rejects. apply Hup.
    - by apply handle_consistent. }
  split; [exact Hkept|]. destruct Hkept as [Hderived _].
  eapply Forall_impl; [exact Hderived|]. intros p Hp.
  split; [exact Hp|by apply statusDerived_not_damaged].
Qed.

Lemma status_invariant_along_history_witness :
  let w := mongoWorld steadyEnv [] [] in
  let create := POST_products (ProductBody.mk (Some "Nails") (Some "NL-001")
                  (Some "Hardware") (Some (ofZ 5)) (Some (ofZ 10)) (Some (ofZ 4)) None None None
                  (Some Damaged)) in
  let update := PUT_products_id (hexOfWidth 24 0)
                  (ProductBody.mk None None None (Some (ofZ 40)) None None None None None
                     (Some Damaged)) in
  Product.status <$> storedProducts (serve [create; update] w) = [Some InStock] /\
  Forall (fun p => statusDerived p /\ Product.status p <> Some Damaged)
    (storedProducts (serve [create; update] w)).
Proof.
  intros w create update. split; [reflexivity|].
  apply (status_invariant_along_history [create; update] w).
  - intros k. reflexivity.
  - split; [constructor|intros _; constructor].
Defined.
